(** * BasicPresenterSample: the zView presenter session engine

    A shallow embedding of the zView-related part of
    [BasicPresenterSample.cpp]: the connection state machine
    ([updateZview], [updateZviewConnection], [processNewZviewConnection]),
    video-recording polling ([processZviewVideoRecording]), mode set-up and
    tear-down ([setUpZviewMode], [tearDownZviewMode] and the per-mode
    functions), the frame pump ([drawZview]), the settings helpers
    ([incrementZviewSettingClampedF32],
    [handleZviewStandardModeImageResolutionChange]) and the key handlers
    ([processZviewAugmentedRealityModeOverlayControlKeyPress],
    [switchZviewMode]).

    The global variables of the program are the fields of [Globals]; the
    zView runtime, the zSpace Core API and OpenGL are outside the program:
    what they answer during one call is an [Env], what the program does to
    them is recorded in a [World] (settings store, outgoing frame data and a
    chronological trace of calls).  Functions of the program are computations
    in the monad [M], whose [Return] outcome is the C++ [return] statement.

    The window procedure [windowProc] and the command handlers that only it
    calls ([closeZviewConnectionAndExitViewer], [pauseResumeZviewMode],
    [switchZviewVideoRecordingQuality],
    [processZviewVideoRecordingKeyPress]) are computations in the monad [W],
    over the state of the session engine, the globals that only the window
    procedure assigns and the commands it gives to the runtime and to the
    window system. *)

From stdpp Require Import gmultiset.
From Stdlib Require Import ZArith Zpower Lia Bool String Ascii SpecFloat.
From stdpp Require Import base option list gmap.

Local Open Scope Z_scope.

(** ** Machine numbers *)

(** [ZSUInt16]: conversion of an [int] to an unsigned 16-bit value. *)
Definition to_u16 (z : Z) : Z := z mod 2 ^ 16.

(** [ZSUInt64]: arithmetic on unsigned 64-bit values wraps around. *)
Definition to_u64 (z : Z) : Z := z mod 2 ^ 64.

(** ** Single-precision numbers ([ZSFloat], [float])

    IEEE 754 binary32 through the Standard Library's specification of
    floating-point arithmetic: 24 bits of precision, infinities at exponent
    128, rounding to nearest even. *)
Module F32.

Definition prec : Z := 24.
Definition emax : Z := 128.

Definition t : Type := spec_float.

Definition valid (x : t) : bool := valid_binary prec emax x.

Definition is_nan (x : t) : bool :=
  match x with S754_nan => true | _ => false end.

(** Neither a NaN nor an infinity. *)
Definition is_finite (x : t) : bool :=
  match x with S754_zero _ | S754_finite _ _ _ => true | _ => false end.

(** [x + y] *)
Definition add (x y : t) : t := SFadd prec emax x y.

(** [x < y], [x > y], [x <= y]; every comparison with a NaN is false. *)
Definition ltb (x y : t) : bool := SFltb x y.
Definition gtb (x y : t) : bool := SFltb y x.
Definition leb (x y : t) : bool := SFleb x y.

(** [(float)z] for an integer [z]. *)
Definition of_Z (z : Z) : t := binary_normalize prec emax z 0 false.

(** The literals of the source. *)
Definition zero : t := S754_zero false.                       (* 0.0f *)
Definition one : t := S754_finite false 8388608 (-23).        (* 1.0f *)
Definition minus_one : t := S754_finite true 8388608 (-23).   (* -1.0f *)
Definition ten : t := S754_finite false 10485760 (-20).       (* 10.0f *)
Definition hundredth : t := S754_finite false 10737418 (-30). (* 0.01f *)
Definition minus_hundredth : t := S754_finite true 10737418 (-30). (* -0.01f *)

End F32.

Definition ZSFloat : Type := F32.t.

(** ** Handles

    [ZVContext], [ZVConnection], [ZVMode], [ZVFrame], [ZCHandle] are opaque
    pointers and [GLuint] object names are unsigned integers; [NULL] and the
    OpenGL name [0] are the integer [0]. *)
Definition ZVContext : Type := Z.
Definition ZVConnection : Type := Z.
Definition ZVMode : Type := Z.
Definition ZVFrame : Type := Z.
Definition ZCHandle : Type := Z.
Definition GLuint : Type := Z.
Definition NULL : Z := 0.

(** [ZVError] and [ZCError] codes; [0] is [ZV_ERROR_OK] / [ZC_ERROR_OK]. *)
Definition ZVError : Type := Z.
Definition ZCError : Type := Z.
Definition ZV_ERROR_OK : ZVError := 0.
Definition ZC_ERROR_OK : ZCError := 0.

(** ** Enumerations of [zView.h] *)

(** Modelled from the spec: the header [zView.h] is not part of the
    sources; the connection states are those [updateZviewConnection]
    dispatches on. *)
Inductive ZVConnectionState : Type :=
  | ZV_CONNECTION_STATE_CONNECTION_INITIALIZATION
  | ZV_CONNECTION_STATE_AWAITING_CONNECTION_ACCEPTANCE
  | ZV_CONNECTION_STATE_SWITCHING_MODES
  | ZV_CONNECTION_STATE_NO_MODE
  | ZV_CONNECTION_STATE_MODE_SETUP
  | ZV_CONNECTION_STATE_MODE_ACTIVE
  | ZV_CONNECTION_STATE_MODE_PAUSED
  | ZV_CONNECTION_STATE_MODE_RESUMING
  | ZV_CONNECTION_STATE_PROCESSING_MODE_SETTINGS_CHANGE
  | ZV_CONNECTION_STATE_CLOSED
  | ZV_CONNECTION_STATE_ERROR.

(** Modelled from the spec: the video-recording states of [zView.h]
    (NotAvailable, NotRecording, Recording, Paused, Finished, Error). *)
Inductive ZVVideoRecordingState : Type :=
  | ZV_VIDEO_RECORDING_STATE_NOT_AVAILABLE
  | ZV_VIDEO_RECORDING_STATE_NOT_RECORDING
  | ZV_VIDEO_RECORDING_STATE_RECORDING
  | ZV_VIDEO_RECORDING_STATE_PAUSED
  | ZV_VIDEO_RECORDING_STATE_FINISHED
  | ZV_VIDEO_RECORDING_STATE_ERROR.

(** Modelled from the spec: the two mode set-up phases of [zView.h]. *)
Inductive ZVModeSetupPhase : Type :=
  | ZV_MODE_SETUP_PHASE_INITIALIZATION
  | ZV_MODE_SETUP_PHASE_COMPLETION.

(** Modelled from the spec: the availability of a supported mode. *)
Inductive ZVModeAvailability : Type :=
  | ZV_MODE_AVAILABILITY_AVAILABLE
  | ZV_MODE_AVAILABILITY_NOT_AVAILABLE.

(** [ZVSupportedMode]: a mode handle and its availability. *)
Record ZVSupportedMode : Type := {
  mode : ZVMode;
  availability : ZVModeAvailability;
}.

(** The setting keys the program uses. *)
Inductive ZVSettingKey : Type :=
  | ZV_SETTING_KEY_IMAGE_WIDTH
  | ZV_SETTING_KEY_IMAGE_HEIGHT
  | ZV_SETTING_KEY_VIDEO_RECORDING_QUALITY
  | ZV_SETTING_KEY_OVERLAY_OFFSET_X
  | ZV_SETTING_KEY_OVERLAY_OFFSET_Y
  | ZV_SETTING_KEY_OVERLAY_SCALE_X
  | ZV_SETTING_KEY_OVERLAY_SCALE_Y.

(** The frame data keys the program uses. *)
Inductive ZVFrameDataKey : Type :=
  | ZV_FRAME_DATA_KEY_FRAME_NUMBER
  | ZV_FRAME_DATA_KEY_CAMERA_POSE
  | ZV_FRAME_DATA_KEY_CAMERA_FOCAL_LENGTH
  | ZV_FRAME_DATA_KEY_CAMERA_PRINCIPAL_POINT_OFFSET_X
  | ZV_FRAME_DATA_KEY_CAMERA_PRINCIPAL_POINT_OFFSET_Y
  | ZV_FRAME_DATA_KEY_CAMERA_PIXEL_ASPECT_RATIO
  | ZV_FRAME_DATA_KEY_CAMERA_AXIS_SKEW.

Inductive ZVConnectionCloseAction : Type :=
  | ZV_CONNECTION_CLOSE_ACTION_NONE
  | ZV_CONNECTION_CLOSE_ACTION_EXIT_APPLICATION.

Inductive ZVConnectionCloseReason : Type :=
  | ZV_CONNECTION_CLOSE_REASON_CONNECTION_REJECTED
  | ZV_CONNECTION_CLOSE_REASON_USER_REQUESTED.

#[global] Instance ZVConnectionState_eq_dec : EqDecision ZVConnectionState.
Proof. solve_decision. Defined.
#[global] Instance ZVVideoRecordingState_eq_dec : EqDecision ZVVideoRecordingState.
Proof. solve_decision. Defined.
#[global] Instance ZVModeSetupPhase_eq_dec : EqDecision ZVModeSetupPhase.
Proof. solve_decision. Defined.
#[global] Instance ZVModeAvailability_eq_dec : EqDecision ZVModeAvailability.
Proof. solve_decision. Defined.
#[global] Instance ZVSettingKey_eq_dec : EqDecision ZVSettingKey.
Proof. solve_decision. Defined.

#[global] Instance ZVSettingKey_countable : Countable ZVSettingKey.
Proof.
  refine (inj_countable'
    (fun k => match k with
       | ZV_SETTING_KEY_IMAGE_WIDTH => 0%nat
       | ZV_SETTING_KEY_IMAGE_HEIGHT => 1%nat
       | ZV_SETTING_KEY_VIDEO_RECORDING_QUALITY => 2%nat
       | ZV_SETTING_KEY_OVERLAY_OFFSET_X => 3%nat
       | ZV_SETTING_KEY_OVERLAY_OFFSET_Y => 4%nat
       | ZV_SETTING_KEY_OVERLAY_SCALE_X => 5%nat
       | ZV_SETTING_KEY_OVERLAY_SCALE_Y => 6%nat
       end)
    (fun n => match n with
       | 0%nat => ZV_SETTING_KEY_IMAGE_WIDTH
       | 1%nat => ZV_SETTING_KEY_IMAGE_HEIGHT
       | 2%nat => ZV_SETTING_KEY_VIDEO_RECORDING_QUALITY
       | 3%nat => ZV_SETTING_KEY_OVERLAY_OFFSET_X
       | 4%nat => ZV_SETTING_KEY_OVERLAY_OFFSET_Y
       | 5%nat => ZV_SETTING_KEY_OVERLAY_SCALE_X
       | _ => ZV_SETTING_KEY_OVERLAY_SCALE_Y
       end) _).
  intros []; reflexivity.
Defined.

(** ** Global variables *)

(** The globals of standard mode. *)
Record StandardModeGlobals : Type := {
  g_zViewStandardModeImageWidth : Z;             (* ZSUInt16 *)
  g_zViewStandardModeImageHeight : Z;            (* ZSUInt16 *)
  g_zViewStandardModeViewportHandle : ZCHandle;
  g_zViewStandardModeFrustumHandle : ZCHandle;
  g_zViewStandardModeFrameNumber : Z;            (* ZSUInt64 *)
  g_zViewStandardModeGlFramebufferId : GLuint;
  g_zViewStandardModeColorGlTextureId : GLuint;
  g_zViewStandardModeDepthGlRenderbufferId : GLuint;
}.

(** The globals of augmented reality mode that set-up and tear-down
    write (the shader handles and matrices are left out: no modelled
    function branches on them). *)
Record AugmentedRealityModeGlobals : Type := {
  g_zViewAugmentedRealityModeImageWidth : Z;     (* ZSUInt16 *)
  g_zViewAugmentedRealityModeImageHeight : Z;    (* ZSUInt16 *)
  g_zViewAugmentedRealityModeMaskVertexArrayId : GLuint;
  g_zViewAugmentedRealityModeMaskVertexArrayBufferId : GLuint;
  g_zViewAugmentedRealityModeBackgroundVertexArrayId : GLuint;
  g_zViewAugmentedRealityModeBackgroundVertexArrayBufferId : GLuint;
  g_zViewAugmentedRealityModeMaskGlFramebufferId : GLuint;
  g_zViewAugmentedRealityModeGlFramebufferId : GLuint;
  g_zViewAugmentedRealityModeColorGlTextureId : GLuint;
  g_zViewAugmentedRealityModeDepthStencilGlRenderbufferId : GLuint;
}.

Record Globals : Type := {
  g_zSpaceContext : ZCHandle;
  g_windowX : Z;                                 (* int *)
  g_windowY : Z;
  g_windowWidth : Z;
  g_windowHeight : Z;
  g_zViewContext : ZVContext;
  g_zViewActiveConnection : ZVConnection;
  g_zViewStandardMode : ZVMode;
  g_zViewAugmentedRealityMode : ZVMode;
  g_zViewLatestActiveConnectionMode : ZVMode;
  g_zViewCurrentConnectionModeIndex : Z;         (* int *)
  g_zViewVideoRecordingLatestState : ZVVideoRecordingState;
  standardMode : StandardModeGlobals;
  augmentedRealityMode : AugmentedRealityModeGlobals;
}.

(** Assignments to the globals. *)

Definition set_g_zViewActiveConnection (v : ZVConnection) (g : Globals) : Globals :=
  {| g_zSpaceContext := g_zSpaceContext g; g_windowX := g_windowX g;
     g_windowY := g_windowY g; g_windowWidth := g_windowWidth g;
     g_windowHeight := g_windowHeight g; g_zViewContext := g_zViewContext g;
     g_zViewActiveConnection := v;
     g_zViewStandardMode := g_zViewStandardMode g;
     g_zViewAugmentedRealityMode := g_zViewAugmentedRealityMode g;
     g_zViewLatestActiveConnectionMode := g_zViewLatestActiveConnectionMode g;
     g_zViewCurrentConnectionModeIndex := g_zViewCurrentConnectionModeIndex g;
     g_zViewVideoRecordingLatestState := g_zViewVideoRecordingLatestState g;
     standardMode := standardMode g;
     augmentedRealityMode := augmentedRealityMode g |}.

Definition set_g_zViewLatestActiveConnectionMode (v : ZVMode) (g : Globals) : Globals :=
  {| g_zSpaceContext := g_zSpaceContext g; g_windowX := g_windowX g;
     g_windowY := g_windowY g; g_windowWidth := g_windowWidth g;
     g_windowHeight := g_windowHeight g; g_zViewContext := g_zViewContext g;
     g_zViewActiveConnection := g_zViewActiveConnection g;
     g_zViewStandardMode := g_zViewStandardMode g;
     g_zViewAugmentedRealityMode := g_zViewAugmentedRealityMode g;
     g_zViewLatestActiveConnectionMode := v;
     g_zViewCurrentConnectionModeIndex := g_zViewCurrentConnectionModeIndex g;
     g_zViewVideoRecordingLatestState := g_zViewVideoRecordingLatestState g;
     standardMode := standardMode g;
     augmentedRealityMode := augmentedRealityMode g |}.

Definition set_g_zViewCurrentConnectionModeIndex (v : Z) (g : Globals) : Globals :=
  {| g_zSpaceContext := g_zSpaceContext g; g_windowX := g_windowX g;
     g_windowY := g_windowY g; g_windowWidth := g_windowWidth g;
     g_windowHeight := g_windowHeight g; g_zViewContext := g_zViewContext g;
     g_zViewActiveConnection := g_zViewActiveConnection g;
     g_zViewStandardMode := g_zViewStandardMode g;
     g_zViewAugmentedRealityMode := g_zViewAugmentedRealityMode g;
     g_zViewLatestActiveConnectionMode := g_zViewLatestActiveConnectionMode g;
     g_zViewCurrentConnectionModeIndex := v;
     g_zViewVideoRecordingLatestState := g_zViewVideoRecordingLatestState g;
     standardMode := standardMode g;
     augmentedRealityMode := augmentedRealityMode g |}.

Definition set_g_zViewVideoRecordingLatestState
    (v : ZVVideoRecordingState) (g : Globals) : Globals :=
  {| g_zSpaceContext := g_zSpaceContext g; g_windowX := g_windowX g;
     g_windowY := g_windowY g; g_windowWidth := g_windowWidth g;
     g_windowHeight := g_windowHeight g; g_zViewContext := g_zViewContext g;
     g_zViewActiveConnection := g_zViewActiveConnection g;
     g_zViewStandardMode := g_zViewStandardMode g;
     g_zViewAugmentedRealityMode := g_zViewAugmentedRealityMode g;
     g_zViewLatestActiveConnectionMode := g_zViewLatestActiveConnectionMode g;
     g_zViewCurrentConnectionModeIndex := g_zViewCurrentConnectionModeIndex g;
     g_zViewVideoRecordingLatestState := v;
     standardMode := standardMode g;
     augmentedRealityMode := augmentedRealityMode g |}.

Definition set_standardMode (v : StandardModeGlobals) (g : Globals) : Globals :=
  {| g_zSpaceContext := g_zSpaceContext g; g_windowX := g_windowX g;
     g_windowY := g_windowY g; g_windowWidth := g_windowWidth g;
     g_windowHeight := g_windowHeight g; g_zViewContext := g_zViewContext g;
     g_zViewActiveConnection := g_zViewActiveConnection g;
     g_zViewStandardMode := g_zViewStandardMode g;
     g_zViewAugmentedRealityMode := g_zViewAugmentedRealityMode g;
     g_zViewLatestActiveConnectionMode := g_zViewLatestActiveConnectionMode g;
     g_zViewCurrentConnectionModeIndex := g_zViewCurrentConnectionModeIndex g;
     g_zViewVideoRecordingLatestState := g_zViewVideoRecordingLatestState g;
     standardMode := v;
     augmentedRealityMode := augmentedRealityMode g |}.

Definition set_augmentedRealityMode
    (v : AugmentedRealityModeGlobals) (g : Globals) : Globals :=
  {| g_zSpaceContext := g_zSpaceContext g; g_windowX := g_windowX g;
     g_windowY := g_windowY g; g_windowWidth := g_windowWidth g;
     g_windowHeight := g_windowHeight g; g_zViewContext := g_zViewContext g;
     g_zViewActiveConnection := g_zViewActiveConnection g;
     g_zViewStandardMode := g_zViewStandardMode g;
     g_zViewAugmentedRealityMode := g_zViewAugmentedRealityMode g;
     g_zViewLatestActiveConnectionMode := g_zViewLatestActiveConnectionMode g;
     g_zViewCurrentConnectionModeIndex := g_zViewCurrentConnectionModeIndex g;
     g_zViewVideoRecordingLatestState := g_zViewVideoRecordingLatestState g;
     standardMode := standardMode g;
     augmentedRealityMode := v |}.

(** Assignments to the globals of standard mode. *)

Definition set_g_zViewStandardModeImageWidth (v : Z) (g : Globals) : Globals :=
  let m := standardMode g in
  set_standardMode
    {| g_zViewStandardModeImageWidth := v;
       g_zViewStandardModeImageHeight := g_zViewStandardModeImageHeight m;
       g_zViewStandardModeViewportHandle := g_zViewStandardModeViewportHandle m;
       g_zViewStandardModeFrustumHandle := g_zViewStandardModeFrustumHandle m;
       g_zViewStandardModeFrameNumber := g_zViewStandardModeFrameNumber m;
       g_zViewStandardModeGlFramebufferId := g_zViewStandardModeGlFramebufferId m;
       g_zViewStandardModeColorGlTextureId := g_zViewStandardModeColorGlTextureId m;
       g_zViewStandardModeDepthGlRenderbufferId := g_zViewStandardModeDepthGlRenderbufferId m |} g.

Definition set_g_zViewStandardModeImageHeight (v : Z) (g : Globals) : Globals :=
  let m := standardMode g in
  set_standardMode
    {| g_zViewStandardModeImageWidth := g_zViewStandardModeImageWidth m;
       g_zViewStandardModeImageHeight := v;
       g_zViewStandardModeViewportHandle := g_zViewStandardModeViewportHandle m;
       g_zViewStandardModeFrustumHandle := g_zViewStandardModeFrustumHandle m;
       g_zViewStandardModeFrameNumber := g_zViewStandardModeFrameNumber m;
       g_zViewStandardModeGlFramebufferId := g_zViewStandardModeGlFramebufferId m;
       g_zViewStandardModeColorGlTextureId := g_zViewStandardModeColorGlTextureId m;
       g_zViewStandardModeDepthGlRenderbufferId := g_zViewStandardModeDepthGlRenderbufferId m |} g.

Definition set_g_zViewStandardModeViewportHandle (v : Z) (g : Globals) : Globals :=
  let m := standardMode g in
  set_standardMode
    {| g_zViewStandardModeImageWidth := g_zViewStandardModeImageWidth m;
       g_zViewStandardModeImageHeight := g_zViewStandardModeImageHeight m;
       g_zViewStandardModeViewportHandle := v;
       g_zViewStandardModeFrustumHandle := g_zViewStandardModeFrustumHandle m;
       g_zViewStandardModeFrameNumber := g_zViewStandardModeFrameNumber m;
       g_zViewStandardModeGlFramebufferId := g_zViewStandardModeGlFramebufferId m;
       g_zViewStandardModeColorGlTextureId := g_zViewStandardModeColorGlTextureId m;
       g_zViewStandardModeDepthGlRenderbufferId := g_zViewStandardModeDepthGlRenderbufferId m |} g.

Definition set_g_zViewStandardModeFrustumHandle (v : Z) (g : Globals) : Globals :=
  let m := standardMode g in
  set_standardMode
    {| g_zViewStandardModeImageWidth := g_zViewStandardModeImageWidth m;
       g_zViewStandardModeImageHeight := g_zViewStandardModeImageHeight m;
       g_zViewStandardModeViewportHandle := g_zViewStandardModeViewportHandle m;
       g_zViewStandardModeFrustumHandle := v;
       g_zViewStandardModeFrameNumber := g_zViewStandardModeFrameNumber m;
       g_zViewStandardModeGlFramebufferId := g_zViewStandardModeGlFramebufferId m;
       g_zViewStandardModeColorGlTextureId := g_zViewStandardModeColorGlTextureId m;
       g_zViewStandardModeDepthGlRenderbufferId := g_zViewStandardModeDepthGlRenderbufferId m |} g.

Definition set_g_zViewStandardModeFrameNumber (v : Z) (g : Globals) : Globals :=
  let m := standardMode g in
  set_standardMode
    {| g_zViewStandardModeImageWidth := g_zViewStandardModeImageWidth m;
       g_zViewStandardModeImageHeight := g_zViewStandardModeImageHeight m;
       g_zViewStandardModeViewportHandle := g_zViewStandardModeViewportHandle m;
       g_zViewStandardModeFrustumHandle := g_zViewStandardModeFrustumHandle m;
       g_zViewStandardModeFrameNumber := v;
       g_zViewStandardModeGlFramebufferId := g_zViewStandardModeGlFramebufferId m;
       g_zViewStandardModeColorGlTextureId := g_zViewStandardModeColorGlTextureId m;
       g_zViewStandardModeDepthGlRenderbufferId := g_zViewStandardModeDepthGlRenderbufferId m |} g.

Definition set_g_zViewStandardModeGlFramebufferId (v : Z) (g : Globals) : Globals :=
  let m := standardMode g in
  set_standardMode
    {| g_zViewStandardModeImageWidth := g_zViewStandardModeImageWidth m;
       g_zViewStandardModeImageHeight := g_zViewStandardModeImageHeight m;
       g_zViewStandardModeViewportHandle := g_zViewStandardModeViewportHandle m;
       g_zViewStandardModeFrustumHandle := g_zViewStandardModeFrustumHandle m;
       g_zViewStandardModeFrameNumber := g_zViewStandardModeFrameNumber m;
       g_zViewStandardModeGlFramebufferId := v;
       g_zViewStandardModeColorGlTextureId := g_zViewStandardModeColorGlTextureId m;
       g_zViewStandardModeDepthGlRenderbufferId := g_zViewStandardModeDepthGlRenderbufferId m |} g.

Definition set_g_zViewStandardModeColorGlTextureId (v : Z) (g : Globals) : Globals :=
  let m := standardMode g in
  set_standardMode
    {| g_zViewStandardModeImageWidth := g_zViewStandardModeImageWidth m;
       g_zViewStandardModeImageHeight := g_zViewStandardModeImageHeight m;
       g_zViewStandardModeViewportHandle := g_zViewStandardModeViewportHandle m;
       g_zViewStandardModeFrustumHandle := g_zViewStandardModeFrustumHandle m;
       g_zViewStandardModeFrameNumber := g_zViewStandardModeFrameNumber m;
       g_zViewStandardModeGlFramebufferId := g_zViewStandardModeGlFramebufferId m;
       g_zViewStandardModeColorGlTextureId := v;
       g_zViewStandardModeDepthGlRenderbufferId := g_zViewStandardModeDepthGlRenderbufferId m |} g.

Definition set_g_zViewStandardModeDepthGlRenderbufferId (v : Z) (g : Globals) : Globals :=
  let m := standardMode g in
  set_standardMode
    {| g_zViewStandardModeImageWidth := g_zViewStandardModeImageWidth m;
       g_zViewStandardModeImageHeight := g_zViewStandardModeImageHeight m;
       g_zViewStandardModeViewportHandle := g_zViewStandardModeViewportHandle m;
       g_zViewStandardModeFrustumHandle := g_zViewStandardModeFrustumHandle m;
       g_zViewStandardModeFrameNumber := g_zViewStandardModeFrameNumber m;
       g_zViewStandardModeGlFramebufferId := g_zViewStandardModeGlFramebufferId m;
       g_zViewStandardModeColorGlTextureId := g_zViewStandardModeColorGlTextureId m;
       g_zViewStandardModeDepthGlRenderbufferId := v |} g.

(** Assignments to the globals of augmented reality mode. *)

Definition set_g_zViewAugmentedRealityModeImageWidth (v : Z) (g : Globals) : Globals :=
  let m := augmentedRealityMode g in
  set_augmentedRealityMode
    {| g_zViewAugmentedRealityModeImageWidth := v;
       g_zViewAugmentedRealityModeImageHeight := g_zViewAugmentedRealityModeImageHeight m;
       g_zViewAugmentedRealityModeMaskVertexArrayId := g_zViewAugmentedRealityModeMaskVertexArrayId m;
       g_zViewAugmentedRealityModeMaskVertexArrayBufferId := g_zViewAugmentedRealityModeMaskVertexArrayBufferId m;
       g_zViewAugmentedRealityModeBackgroundVertexArrayId := g_zViewAugmentedRealityModeBackgroundVertexArrayId m;
       g_zViewAugmentedRealityModeBackgroundVertexArrayBufferId := g_zViewAugmentedRealityModeBackgroundVertexArrayBufferId m;
       g_zViewAugmentedRealityModeMaskGlFramebufferId := g_zViewAugmentedRealityModeMaskGlFramebufferId m;
       g_zViewAugmentedRealityModeGlFramebufferId := g_zViewAugmentedRealityModeGlFramebufferId m;
       g_zViewAugmentedRealityModeColorGlTextureId := g_zViewAugmentedRealityModeColorGlTextureId m;
       g_zViewAugmentedRealityModeDepthStencilGlRenderbufferId := g_zViewAugmentedRealityModeDepthStencilGlRenderbufferId m |} g.

Definition set_g_zViewAugmentedRealityModeImageHeight (v : Z) (g : Globals) : Globals :=
  let m := augmentedRealityMode g in
  set_augmentedRealityMode
    {| g_zViewAugmentedRealityModeImageWidth := g_zViewAugmentedRealityModeImageWidth m;
       g_zViewAugmentedRealityModeImageHeight := v;
       g_zViewAugmentedRealityModeMaskVertexArrayId := g_zViewAugmentedRealityModeMaskVertexArrayId m;
       g_zViewAugmentedRealityModeMaskVertexArrayBufferId := g_zViewAugmentedRealityModeMaskVertexArrayBufferId m;
       g_zViewAugmentedRealityModeBackgroundVertexArrayId := g_zViewAugmentedRealityModeBackgroundVertexArrayId m;
       g_zViewAugmentedRealityModeBackgroundVertexArrayBufferId := g_zViewAugmentedRealityModeBackgroundVertexArrayBufferId m;
       g_zViewAugmentedRealityModeMaskGlFramebufferId := g_zViewAugmentedRealityModeMaskGlFramebufferId m;
       g_zViewAugmentedRealityModeGlFramebufferId := g_zViewAugmentedRealityModeGlFramebufferId m;
       g_zViewAugmentedRealityModeColorGlTextureId := g_zViewAugmentedRealityModeColorGlTextureId m;
       g_zViewAugmentedRealityModeDepthStencilGlRenderbufferId := g_zViewAugmentedRealityModeDepthStencilGlRenderbufferId m |} g.

Definition set_g_zViewAugmentedRealityModeMaskVertexArrayId (v : Z) (g : Globals) : Globals :=
  let m := augmentedRealityMode g in
  set_augmentedRealityMode
    {| g_zViewAugmentedRealityModeImageWidth := g_zViewAugmentedRealityModeImageWidth m;
       g_zViewAugmentedRealityModeImageHeight := g_zViewAugmentedRealityModeImageHeight m;
       g_zViewAugmentedRealityModeMaskVertexArrayId := v;
       g_zViewAugmentedRealityModeMaskVertexArrayBufferId := g_zViewAugmentedRealityModeMaskVertexArrayBufferId m;
       g_zViewAugmentedRealityModeBackgroundVertexArrayId := g_zViewAugmentedRealityModeBackgroundVertexArrayId m;
       g_zViewAugmentedRealityModeBackgroundVertexArrayBufferId := g_zViewAugmentedRealityModeBackgroundVertexArrayBufferId m;
       g_zViewAugmentedRealityModeMaskGlFramebufferId := g_zViewAugmentedRealityModeMaskGlFramebufferId m;
       g_zViewAugmentedRealityModeGlFramebufferId := g_zViewAugmentedRealityModeGlFramebufferId m;
       g_zViewAugmentedRealityModeColorGlTextureId := g_zViewAugmentedRealityModeColorGlTextureId m;
       g_zViewAugmentedRealityModeDepthStencilGlRenderbufferId := g_zViewAugmentedRealityModeDepthStencilGlRenderbufferId m |} g.

Definition set_g_zViewAugmentedRealityModeMaskVertexArrayBufferId (v : Z) (g : Globals) : Globals :=
  let m := augmentedRealityMode g in
  set_augmentedRealityMode
    {| g_zViewAugmentedRealityModeImageWidth := g_zViewAugmentedRealityModeImageWidth m;
       g_zViewAugmentedRealityModeImageHeight := g_zViewAugmentedRealityModeImageHeight m;
       g_zViewAugmentedRealityModeMaskVertexArrayId := g_zViewAugmentedRealityModeMaskVertexArrayId m;
       g_zViewAugmentedRealityModeMaskVertexArrayBufferId := v;
       g_zViewAugmentedRealityModeBackgroundVertexArrayId := g_zViewAugmentedRealityModeBackgroundVertexArrayId m;
       g_zViewAugmentedRealityModeBackgroundVertexArrayBufferId := g_zViewAugmentedRealityModeBackgroundVertexArrayBufferId m;
       g_zViewAugmentedRealityModeMaskGlFramebufferId := g_zViewAugmentedRealityModeMaskGlFramebufferId m;
       g_zViewAugmentedRealityModeGlFramebufferId := g_zViewAugmentedRealityModeGlFramebufferId m;
       g_zViewAugmentedRealityModeColorGlTextureId := g_zViewAugmentedRealityModeColorGlTextureId m;
       g_zViewAugmentedRealityModeDepthStencilGlRenderbufferId := g_zViewAugmentedRealityModeDepthStencilGlRenderbufferId m |} g.

Definition set_g_zViewAugmentedRealityModeBackgroundVertexArrayId (v : Z) (g : Globals) : Globals :=
  let m := augmentedRealityMode g in
  set_augmentedRealityMode
    {| g_zViewAugmentedRealityModeImageWidth := g_zViewAugmentedRealityModeImageWidth m;
       g_zViewAugmentedRealityModeImageHeight := g_zViewAugmentedRealityModeImageHeight m;
       g_zViewAugmentedRealityModeMaskVertexArrayId := g_zViewAugmentedRealityModeMaskVertexArrayId m;
       g_zViewAugmentedRealityModeMaskVertexArrayBufferId := g_zViewAugmentedRealityModeMaskVertexArrayBufferId m;
       g_zViewAugmentedRealityModeBackgroundVertexArrayId := v;
       g_zViewAugmentedRealityModeBackgroundVertexArrayBufferId := g_zViewAugmentedRealityModeBackgroundVertexArrayBufferId m;
       g_zViewAugmentedRealityModeMaskGlFramebufferId := g_zViewAugmentedRealityModeMaskGlFramebufferId m;
       g_zViewAugmentedRealityModeGlFramebufferId := g_zViewAugmentedRealityModeGlFramebufferId m;
       g_zViewAugmentedRealityModeColorGlTextureId := g_zViewAugmentedRealityModeColorGlTextureId m;
       g_zViewAugmentedRealityModeDepthStencilGlRenderbufferId := g_zViewAugmentedRealityModeDepthStencilGlRenderbufferId m |} g.

Definition set_g_zViewAugmentedRealityModeBackgroundVertexArrayBufferId (v : Z) (g : Globals) : Globals :=
  let m := augmentedRealityMode g in
  set_augmentedRealityMode
    {| g_zViewAugmentedRealityModeImageWidth := g_zViewAugmentedRealityModeImageWidth m;
       g_zViewAugmentedRealityModeImageHeight := g_zViewAugmentedRealityModeImageHeight m;
       g_zViewAugmentedRealityModeMaskVertexArrayId := g_zViewAugmentedRealityModeMaskVertexArrayId m;
       g_zViewAugmentedRealityModeMaskVertexArrayBufferId := g_zViewAugmentedRealityModeMaskVertexArrayBufferId m;
       g_zViewAugmentedRealityModeBackgroundVertexArrayId := g_zViewAugmentedRealityModeBackgroundVertexArrayId m;
       g_zViewAugmentedRealityModeBackgroundVertexArrayBufferId := v;
       g_zViewAugmentedRealityModeMaskGlFramebufferId := g_zViewAugmentedRealityModeMaskGlFramebufferId m;
       g_zViewAugmentedRealityModeGlFramebufferId := g_zViewAugmentedRealityModeGlFramebufferId m;
       g_zViewAugmentedRealityModeColorGlTextureId := g_zViewAugmentedRealityModeColorGlTextureId m;
       g_zViewAugmentedRealityModeDepthStencilGlRenderbufferId := g_zViewAugmentedRealityModeDepthStencilGlRenderbufferId m |} g.

Definition set_g_zViewAugmentedRealityModeMaskGlFramebufferId (v : Z) (g : Globals) : Globals :=
  let m := augmentedRealityMode g in
  set_augmentedRealityMode
    {| g_zViewAugmentedRealityModeImageWidth := g_zViewAugmentedRealityModeImageWidth m;
       g_zViewAugmentedRealityModeImageHeight := g_zViewAugmentedRealityModeImageHeight m;
       g_zViewAugmentedRealityModeMaskVertexArrayId := g_zViewAugmentedRealityModeMaskVertexArrayId m;
       g_zViewAugmentedRealityModeMaskVertexArrayBufferId := g_zViewAugmentedRealityModeMaskVertexArrayBufferId m;
       g_zViewAugmentedRealityModeBackgroundVertexArrayId := g_zViewAugmentedRealityModeBackgroundVertexArrayId m;
       g_zViewAugmentedRealityModeBackgroundVertexArrayBufferId := g_zViewAugmentedRealityModeBackgroundVertexArrayBufferId m;
       g_zViewAugmentedRealityModeMaskGlFramebufferId := v;
       g_zViewAugmentedRealityModeGlFramebufferId := g_zViewAugmentedRealityModeGlFramebufferId m;
       g_zViewAugmentedRealityModeColorGlTextureId := g_zViewAugmentedRealityModeColorGlTextureId m;
       g_zViewAugmentedRealityModeDepthStencilGlRenderbufferId := g_zViewAugmentedRealityModeDepthStencilGlRenderbufferId m |} g.

Definition set_g_zViewAugmentedRealityModeGlFramebufferId (v : Z) (g : Globals) : Globals :=
  let m := augmentedRealityMode g in
  set_augmentedRealityMode
    {| g_zViewAugmentedRealityModeImageWidth := g_zViewAugmentedRealityModeImageWidth m;
       g_zViewAugmentedRealityModeImageHeight := g_zViewAugmentedRealityModeImageHeight m;
       g_zViewAugmentedRealityModeMaskVertexArrayId := g_zViewAugmentedRealityModeMaskVertexArrayId m;
       g_zViewAugmentedRealityModeMaskVertexArrayBufferId := g_zViewAugmentedRealityModeMaskVertexArrayBufferId m;
       g_zViewAugmentedRealityModeBackgroundVertexArrayId := g_zViewAugmentedRealityModeBackgroundVertexArrayId m;
       g_zViewAugmentedRealityModeBackgroundVertexArrayBufferId := g_zViewAugmentedRealityModeBackgroundVertexArrayBufferId m;
       g_zViewAugmentedRealityModeMaskGlFramebufferId := g_zViewAugmentedRealityModeMaskGlFramebufferId m;
       g_zViewAugmentedRealityModeGlFramebufferId := v;
       g_zViewAugmentedRealityModeColorGlTextureId := g_zViewAugmentedRealityModeColorGlTextureId m;
       g_zViewAugmentedRealityModeDepthStencilGlRenderbufferId := g_zViewAugmentedRealityModeDepthStencilGlRenderbufferId m |} g.

Definition set_g_zViewAugmentedRealityModeColorGlTextureId (v : Z) (g : Globals) : Globals :=
  let m := augmentedRealityMode g in
  set_augmentedRealityMode
    {| g_zViewAugmentedRealityModeImageWidth := g_zViewAugmentedRealityModeImageWidth m;
       g_zViewAugmentedRealityModeImageHeight := g_zViewAugmentedRealityModeImageHeight m;
       g_zViewAugmentedRealityModeMaskVertexArrayId := g_zViewAugmentedRealityModeMaskVertexArrayId m;
       g_zViewAugmentedRealityModeMaskVertexArrayBufferId := g_zViewAugmentedRealityModeMaskVertexArrayBufferId m;
       g_zViewAugmentedRealityModeBackgroundVertexArrayId := g_zViewAugmentedRealityModeBackgroundVertexArrayId m;
       g_zViewAugmentedRealityModeBackgroundVertexArrayBufferId := g_zViewAugmentedRealityModeBackgroundVertexArrayBufferId m;
       g_zViewAugmentedRealityModeMaskGlFramebufferId := g_zViewAugmentedRealityModeMaskGlFramebufferId m;
       g_zViewAugmentedRealityModeGlFramebufferId := g_zViewAugmentedRealityModeGlFramebufferId m;
       g_zViewAugmentedRealityModeColorGlTextureId := v;
       g_zViewAugmentedRealityModeDepthStencilGlRenderbufferId := g_zViewAugmentedRealityModeDepthStencilGlRenderbufferId m |} g.

Definition set_g_zViewAugmentedRealityModeDepthStencilGlRenderbufferId (v : Z) (g : Globals) : Globals :=
  let m := augmentedRealityMode g in
  set_augmentedRealityMode
    {| g_zViewAugmentedRealityModeImageWidth := g_zViewAugmentedRealityModeImageWidth m;
       g_zViewAugmentedRealityModeImageHeight := g_zViewAugmentedRealityModeImageHeight m;
       g_zViewAugmentedRealityModeMaskVertexArrayId := g_zViewAugmentedRealityModeMaskVertexArrayId m;
       g_zViewAugmentedRealityModeMaskVertexArrayBufferId := g_zViewAugmentedRealityModeMaskVertexArrayBufferId m;
       g_zViewAugmentedRealityModeBackgroundVertexArrayId := g_zViewAugmentedRealityModeBackgroundVertexArrayId m;
       g_zViewAugmentedRealityModeBackgroundVertexArrayBufferId := g_zViewAugmentedRealityModeBackgroundVertexArrayBufferId m;
       g_zViewAugmentedRealityModeMaskGlFramebufferId := g_zViewAugmentedRealityModeMaskGlFramebufferId m;
       g_zViewAugmentedRealityModeGlFramebufferId := g_zViewAugmentedRealityModeGlFramebufferId m;
       g_zViewAugmentedRealityModeColorGlTextureId := g_zViewAugmentedRealityModeColorGlTextureId m;
       g_zViewAugmentedRealityModeDepthStencilGlRenderbufferId := v |} g.

(** ** The world outside the program *)

Inductive SettingValue : Type :=
  | SettingU16 (v : Z)
  | SettingU32 (v : Z)
  | SettingF32 (v : ZSFloat).

(** Modelled from the spec: the settings store of a connection, which
    lives in the zView runtime.  A write outside a batch is committed to the
    remote side at once and on its own; writes between [zvBeginSettingsBatch]
    and [zvEndSettingsBatch] are buffered and flushed to the remote side as
    one unit by [zvEndSettingsBatch]. *)
Record SettingsStore : Type := {
  st_values : gmap ZVSettingKey SettingValue;
  st_batch : option (list (ZVSettingKey * SettingValue));
}.

#[global] Instance SettingsStore_inhabited : Inhabited SettingsStore :=
  populate {| st_values := ∅; st_batch := None |}.

(** The messages given to [printLog]. *)
Inductive LogMessage : Type :=
  | LogVideoRecordingStateTransition (latest current : ZVVideoRecordingState)
  | LogVideoRecordingError (code : ZVError)
  | LogSwitchingModes.

Inductive GlObject : Type :=
  | GlTexture | GlRenderbuffer | GlFramebuffer | GlVertexArray | GlBuffer.

(** What the program and its libraries say to each other, as far as the
    modelled functions go: the states the runtime reports and the calls
    that change something outside the program. *)
Inductive Event : Type :=
  | EvConnectionState (c : ZVConnection) (s : ZVConnectionState)
  | EvAcceptConnection (c : ZVConnection)
  | EvCloseConnection (c : ZVConnection) (action : ZVConnectionCloseAction)
      (reason : ZVConnectionCloseReason) (message : string)
  | EvDestroyConnection (c : ZVConnection)
  | EvSetNodeStatus (status : string)
  | EvVideoRecordingState (c : ZVConnection) (s : ZVVideoRecordingState)
  | EvClearVideoRecordingError (c : ZVConnection)
  | EvPrintLog (m : LogMessage)
  | EvCompleteModeSetupPhase (c : ZVConnection) (phase : ZVModeSetupPhase)
  | EvSetConnectionMode (c : ZVConnection) (m : ZVMode)
  | EvSettingsSent (c : ZVConnection) (writes : list (ZVSettingKey * SettingValue))
  | EvReceiveFrame (f : ZVFrame) (frameNumber : Z)
  | EvReleaseReceivedFrame (f : ZVFrame)
  | EvSendFrame (f : ZVFrame) (frameNumber : option Z)
  | EvCreateViewport (h : ZCHandle)
  | EvDestroyViewport (h : ZCHandle)
  | EvGlGen (o : GlObject) (id : GLuint)
  | EvGlDelete (o : GlObject) (id : GLuint).

Record World : Type := {
  w_settings : gmap ZVConnection SettingsStore;
  w_frameNumber : gmap ZVFrame Z;   (* ZV_FRAME_DATA_KEY_FRAME_NUMBER of outgoing frames *)
  w_trace : list Event;             (* oldest first *)
}.

(** The fallible calls, with the handle they are made on. *)
Inductive ZvCall : Type :=
  | ZvUpdateConnectionList
  | ZvGetNumConnections
  | ZvGetConnection (i : nat)
  | ZvUpdateConnection (c : ZVConnection)
  | ZvGetConnectionState (c : ZVConnection)
  | ZvAcceptConnection (c : ZVConnection)
  | ZvCloseConnection (c : ZVConnection)
  | ZvDestroyConnection (c : ZVConnection)
  | ZvSetNodeStatus
  | ZvGetVideoRecordingState (c : ZVConnection)
  | ZvGetVideoRecordingError (c : ZVConnection)
  | ZvClearVideoRecordingError (c : ZVConnection)
  | ZvGetConnectionMode (c : ZVConnection)
  | ZvGetConnectionModeSetupPhase (c : ZVConnection)
  | ZvCompleteModeSetupPhase (c : ZVConnection)
  | ZvBeginSettingsBatch (c : ZVConnection)
  | ZvEndSettingsBatch (c : ZVConnection)
  | ZvGetSettingU16 (c : ZVConnection) (k : ZVSettingKey)
  | ZvSetSettingU16 (c : ZVConnection) (k : ZVSettingKey)
  | ZvGetSettingF32 (c : ZVConnection) (k : ZVSettingKey)
  | ZvSetSettingF32 (c : ZVConnection) (k : ZVSettingKey)
  | ZvGetNextFrameToSend (c : ZVConnection)
  | ZvReceiveFrame (c : ZVConnection)
  | ZvGetFrameData (f : ZVFrame) (k : ZVFrameDataKey)
  | ZvSetFrameDataU64 (f : ZVFrame)
  | ZvGetFrameBuffer (f : ZVFrame)
  | ZvSendFrame (f : ZVFrame)
  | ZvReleaseReceivedFrame (f : ZVFrame)
  | ZvGetNumConnectionSupportedModes (c : ZVConnection)
  | ZvGetConnectionSupportedMode (c : ZVConnection) (i : Z)
  | ZvSetConnectionMode (c : ZVConnection).

Inductive ZcCall : Type :=
  | ZcCreateViewport
  | ZcGetFrustum (h : ZCHandle)
  | ZcSetViewportPosition (h : ZCHandle)
  | ZcSetViewportSize (h : ZCHandle)
  | ZcGetFrustumViewMatrix (h : ZCHandle)
  | ZcGetFrustumProjectionMatrix (h : ZCHandle)
  | ZcDestroyViewport (h : ZCHandle).

(** What the libraries answer during one call of a modelled function: the
    error code of every call, the snapshot of the connections that
    [zvUpdateConnectionList] / [zvUpdateConnection] took, the frames at hand,
    fresh object names, and the state of the modifier keys. *)
Record Env : Type := {
  zv_error : ZvCall -> ZVError;
  zc_error : ZcCall -> ZCError;
  env_connections : list ZVConnection;
  env_connectionState : ZVConnection -> ZVConnectionState;
  env_connectionMode : ZVConnection -> ZVMode;
  env_modeSetupPhase : ZVConnection -> ZVModeSetupPhase;
  env_isAwaitingCompletion : ZVConnection -> bool;
  env_supportedModes : ZVConnection -> list ZVSupportedMode;
  env_videoRecordingState : ZVConnection -> ZVVideoRecordingState;
  env_videoRecordingError : ZVConnection -> ZVError;
  env_nextFrameToSend : ZVConnection -> ZVFrame;     (* NULL: none available *)
  env_receivedFrame : ZVConnection -> ZVFrame;       (* NULL: none available *)
  env_receivedFrameNumber : ZVFrame -> Z;            (* ZSUInt64 *)
  env_newViewport : ZCHandle;
  env_newFrustum : ZCHandle;
  env_glGen : GlObject -> nat -> GLuint;             (* the n-th name generated *)
  env_framebufferComplete : GLuint -> bool;          (* glCheckFramebufferStatus *)
  env_isControlKeyPressed : bool;
}.

(** ** The monad of the program's functions *)

Record State : Type := {
  globals : Globals;
  world : World;
}.

(** A statement either passes control on, with a value, or is a [return]
    of the enclosing function. *)
Inductive Outcome (A : Type) : Type :=
  | Next (a : A) (s : State)
  | Return (b : bool) (s : State).
Arguments Next {A} a s.
Arguments Return {A} b s.

Definition M (A : Type) : Type := State -> Outcome A.

#[global] Instance M_ret : MRet M := fun A a s => Next a s.

#[global] Instance M_bind : MBind M := fun A B f m s =>
  match m s with
  | Next a s' => f a s'
  | Return b s' => Return b s'
  end.

(** [return b;] *)
Definition return_ {A : Type} (b : bool) : M A := fun s => Return b s.

(** The body of a [bool] function: every path ends in a [return]. *)
Definition Fn : Type := M Empty_set.

(** A call [f(...)] of a function of the program, giving its result. *)
Definition call (f : Fn) : M bool := fun s =>
  match f s with
  | Next e _ => match e with end
  | Return b s' => Next b s'
  end.

(** Running a function from a state: its result and the state it leaves. *)
Definition run (f : Fn) (s : State) : bool * State :=
  match f s with
  | Next e _ => match e with end
  | Return b s' => (b, s')
  end.

(** Reading and assigning globals. *)
Definition read {A : Type} (var : Globals -> A) : M A :=
  fun s => Next (var (globals s)) s.

Definition assign (set : Globals -> Globals) : M unit :=
  fun s => Next tt {| globals := set (globals s); world := world s |}.

Definition get_world : M World := fun s => Next (world s) s.

Definition put_world (w : World) : M unit :=
  fun s => Next tt {| globals := globals s; world := w |}.

Definition emit (e : Event) : M unit :=
  w ← get_world;
  put_world {| w_settings := w_settings w; w_frameNumber := w_frameNumber w;
               w_trace := w_trace w ++ [e] |}.

Definition put_settings (c : ZVConnection) (st : SettingsStore) : M unit :=
  w ← get_world;
  put_world {| w_settings := <[c := st]> (w_settings w);
               w_frameNumber := w_frameNumber w; w_trace := w_trace w |}.

Definition put_frameNumber (f : ZVFrame) (n : Z) : M unit :=
  w ← get_world;
  put_world {| w_settings := w_settings w;
               w_frameNumber := <[f := n]> (w_frameNumber w); w_trace := w_trace w |}.

(** The macros [CHECK_ZV_ERROR] and [CHECK_ZC_ERROR]: on an error the
    function shows a message box and returns [false] (the message box is
    not traced). *)
Definition CHECK_ZV_ERROR (error : ZVError) : M unit :=
  if decide (error = ZV_ERROR_OK) then mret tt else return_ false.

Definition CHECK_ZC_ERROR (error : ZCError) : M unit :=
  if decide (error = ZC_ERROR_OK) then mret tt else return_ false.

(** A call that only succeeds or fails, with the events of its success. *)
Definition zv_call (env : Env) (c : ZvCall) (effect : M unit) : M ZVError :=
  let error := zv_error env c in
  (if decide (error = ZV_ERROR_OK) then effect else mret tt);;
  mret error.

Definition zc_call (env : Env) (c : ZcCall) (effect : M unit) : M ZCError :=
  let error := zc_error env c in
  (if decide (error = ZC_ERROR_OK) then effect else mret tt);;
  mret error.

(** A call with an out-parameter: [cur] is the value the variable holds
    before the call, which an unsuccessful call leaves in place. *)
Definition zv_get {A : Type} (env : Env) (c : ZvCall) (cur : A) (value : M A)
    : M (ZVError * A) :=
  let error := zv_error env c in
  if decide (error = ZV_ERROR_OK) then v ← value; mret (error, v)
  else mret (error, cur).

Definition zc_get {A : Type} (env : Env) (c : ZcCall) (cur : A) (value : M A)
    : M (ZCError * A) :=
  let error := zc_error env c in
  if decide (error = ZC_ERROR_OK) then v ← value; mret (error, v)
  else mret (error, cur).

(** ** The zView runtime *)

Definition zvGetNumConnections (env : Env) (cur : Z) : M (ZVError * Z) :=
  zv_get env ZvGetNumConnections cur (mret (Z.of_nat (length (env_connections env)))).

Definition zvGetConnection (env : Env) (i : nat) (cur : ZVConnection)
    : M (ZVError * ZVConnection) :=
  zv_get env (ZvGetConnection i) cur (mret (nth i (env_connections env) NULL)).

Definition zvUpdateConnection (env : Env) (c : ZVConnection) : M ZVError :=
  zv_call env (ZvUpdateConnection c) (mret tt).

Definition zvGetConnectionState (env : Env) (c : ZVConnection) (cur : ZVConnectionState)
    : M (ZVError * ZVConnectionState) :=
  zv_get env (ZvGetConnectionState c) cur
    (emit (EvConnectionState c (env_connectionState env c));;
     mret (env_connectionState env c)).

Definition zvAcceptConnection (env : Env) (c : ZVConnection) : M ZVError :=
  zv_call env (ZvAcceptConnection c) (emit (EvAcceptConnection c)).

Definition zvCloseConnection (env : Env) (c : ZVConnection)
    (action : ZVConnectionCloseAction) (reason : ZVConnectionCloseReason)
    (message : string) : M ZVError :=
  zv_call env (ZvCloseConnection c) (emit (EvCloseConnection c action reason message)).

Definition zvDestroyConnection (env : Env) (c : ZVConnection) : M ZVError :=
  zv_call env (ZvDestroyConnection c) (emit (EvDestroyConnection c)).

Definition zvSetNodeStatus (env : Env) (context : ZVContext) (status : string) : M ZVError :=
  zv_call env ZvSetNodeStatus (emit (EvSetNodeStatus status)).

Definition zvGetVideoRecordingState (env : Env) (c : ZVConnection)
    (cur : ZVVideoRecordingState) : M (ZVError * ZVVideoRecordingState) :=
  zv_get env (ZvGetVideoRecordingState c) cur
    (emit (EvVideoRecordingState c (env_videoRecordingState env c));;
     mret (env_videoRecordingState env c)).

Definition zvGetVideoRecordingError (env : Env) (c : ZVConnection) (cur : ZVError)
    : M (ZVError * ZVError) :=
  zv_get env (ZvGetVideoRecordingError c) cur (mret (env_videoRecordingError env c)).

Definition zvClearVideoRecordingError (env : Env) (c : ZVConnection) : M ZVError :=
  zv_call env (ZvClearVideoRecordingError c) (emit (EvClearVideoRecordingError c)).

Definition zvGetConnectionMode (env : Env) (c : ZVConnection) (cur : ZVMode)
    : M (ZVError * ZVMode) :=
  zv_get env (ZvGetConnectionMode c) cur (mret (env_connectionMode env c)).

Definition zvSetConnectionMode (env : Env) (c : ZVConnection) (m : ZVMode) : M ZVError :=
  zv_call env (ZvSetConnectionMode c) (emit (EvSetConnectionMode c m)).

Definition zvGetConnectionModeSetupPhase (env : Env) (c : ZVConnection)
    : M (ZVError * (ZVModeSetupPhase * bool)) :=
  zv_get env (ZvGetConnectionModeSetupPhase c)
    (env_modeSetupPhase env c, env_isAwaitingCompletion env c)
    (mret (env_modeSetupPhase env c, env_isAwaitingCompletion env c)).

Definition zvCompleteModeSetupPhase (env : Env) (c : ZVConnection)
    (phase : ZVModeSetupPhase) : M ZVError :=
  zv_call env (ZvCompleteModeSetupPhase c) (emit (EvCompleteModeSetupPhase c phase)).

Definition zvGetNumConnectionSupportedModes (env : Env) (c : ZVConnection) (cur : Z)
    : M (ZVError * Z) :=
  zv_get env (ZvGetNumConnectionSupportedModes c) cur
    (mret (Z.of_nat (length (env_supportedModes env c)))).

(** Any code other than [ZV_ERROR_OK]; the program only tests for
    [ZV_ERROR_OK]. *)
Definition ZV_ERROR_FAILED : ZVError := 1.

Definition zvGetConnectionSupportedMode (env : Env) (c : ZVConnection) (i : Z)
    : M (ZVError * option ZVSupportedMode) :=
  let error := zv_error env (ZvGetConnectionSupportedMode c i) in
  if decide (error = ZV_ERROR_OK) then
    match (if decide (0 <= i) then env_supportedModes env c !! Z.to_nat i else None) with
    | Some m => mret (error, Some m)
    | None => mret (ZV_ERROR_FAILED, None)
    end
  else mret (error, None).

(** *** Settings *)

(** Modelled from the spec: the typed accessors of the settings store.
    Reading a key that holds no value of the type asked for is an error. *)
Definition zvGetSettingU16 (env : Env) (c : ZVConnection) (k : ZVSettingKey) (cur : Z)
    : M (ZVError * Z) :=
  let error := zv_error env (ZvGetSettingU16 c k) in
  if decide (error = ZV_ERROR_OK) then
    w ← get_world;
    match st_values (w_settings w !!! c) !! k with
    | Some (SettingU16 v) => mret (error, v)
    | _ => mret (ZV_ERROR_FAILED, cur)
    end
  else mret (error, cur).

Definition zvGetSettingF32 (env : Env) (c : ZVConnection) (k : ZVSettingKey) (cur : ZSFloat)
    : M (ZVError * ZSFloat) :=
  let error := zv_error env (ZvGetSettingF32 c k) in
  if decide (error = ZV_ERROR_OK) then
    w ← get_world;
    match st_values (w_settings w !!! c) !! k with
    | Some (SettingF32 v) => mret (error, v)
    | _ => mret (ZV_ERROR_FAILED, cur)
    end
  else mret (error, cur).

(** Modelled from the spec: a write outside a batch is sent to the remote
    side immediately; a write inside a batch is buffered. *)
Definition write_setting (c : ZVConnection) (k : ZVSettingKey) (v : SettingValue) : M unit :=
  w ← get_world;
  let st := w_settings w !!! c in
  match st_batch st with
  | Some writes =>
      put_settings c {| st_values := <[k := v]> (st_values st);
                        st_batch := Some (writes ++ [(k, v)]) |}
  | None =>
      put_settings c {| st_values := <[k := v]> (st_values st); st_batch := None |};;
      emit (EvSettingsSent c [(k, v)])
  end.

Definition zvSetSettingU16 (env : Env) (c : ZVConnection) (k : ZVSettingKey) (v : Z)
    : M ZVError :=
  zv_call env (ZvSetSettingU16 c k) (write_setting c k (SettingU16 (to_u16 v))).

Definition zvSetSettingF32 (env : Env) (c : ZVConnection) (k : ZVSettingKey) (v : ZSFloat)
    : M ZVError :=
  zv_call env (ZvSetSettingF32 c k) (write_setting c k (SettingF32 v)).

(** Modelled from the spec: [zvBeginSettingsBatch] opens a batch (a batch
    that is already open stays open) and [zvEndSettingsBatch] flushes the
    buffered writes to the remote side as one unit. *)
Definition zvBeginSettingsBatch (env : Env) (c : ZVConnection) : M ZVError :=
  zv_call env (ZvBeginSettingsBatch c)
    (w ← get_world;
     let st := w_settings w !!! c in
     put_settings c {| st_values := st_values st;
                       st_batch := Some (default [] (st_batch st)) |}).

Definition zvEndSettingsBatch (env : Env) (c : ZVConnection) : M ZVError :=
  zv_call env (ZvEndSettingsBatch c)
    (w ← get_world;
     let st := w_settings w !!! c in
     match st_batch st with
     | Some writes =>
         put_settings c {| st_values := st_values st; st_batch := None |};;
         emit (EvSettingsSent c writes)
     | None => mret tt
     end).

(** *** Frames *)

Definition zvGetNextFrameToSend (env : Env) (c : ZVConnection) (cur : ZVFrame)
    : M (ZVError * ZVFrame) :=
  zv_get env (ZvGetNextFrameToSend c) cur (mret (env_nextFrameToSend env c)).

Definition zvReceiveFrame (env : Env) (c : ZVConnection) (cur : ZVFrame)
    : M (ZVError * ZVFrame) :=
  zv_get env (ZvReceiveFrame c) cur
    (let f := env_receivedFrame env c in
     (if decide (f = NULL) then mret tt
      else emit (EvReceiveFrame f (env_receivedFrameNumber env f)));;
     mret f).

Definition zvGetFrameDataU64 (env : Env) (f : ZVFrame) (k : ZVFrameDataKey) (cur : Z)
    : M (ZVError * Z) :=
  zv_get env (ZvGetFrameData f k) cur (mret (env_receivedFrameNumber env f)).

(** The camera pose and the camera intrinsics of a received frame: their
    values only feed the rendering. *)
Definition zvGetFrameDataM4 (env : Env) (f : ZVFrame) (k : ZVFrameDataKey) : M ZVError :=
  zv_call env (ZvGetFrameData f k) (mret tt).

Definition zvGetFrameDataF32 (env : Env) (f : ZVFrame) (k : ZVFrameDataKey) : M ZVError :=
  zv_call env (ZvGetFrameData f k) (mret tt).

Definition zvReleaseReceivedFrame (env : Env) (f : ZVFrame) : M ZVError :=
  zv_call env (ZvReleaseReceivedFrame f) (emit (EvReleaseReceivedFrame f)).

Definition zvSetFrameDataU64 (env : Env) (f : ZVFrame) (k : ZVFrameDataKey) (v : Z)
    : M ZVError :=
  zv_call env (ZvSetFrameDataU64 f) (put_frameNumber f v).

Definition zvGetFrameBuffer (env : Env) (f : ZVFrame) : M ZVError :=
  zv_call env (ZvGetFrameBuffer f) (mret tt).

Definition zvSendFrame (env : Env) (f : ZVFrame) : M ZVError :=
  zv_call env (ZvSendFrame f)
    (w ← get_world; emit (EvSendFrame f (w_frameNumber w !! f))).

(** ** The zSpace Core API and OpenGL *)

Definition zcCreateViewport (env : Env) (cur : ZCHandle) : M (ZCError * ZCHandle) :=
  zc_get env ZcCreateViewport cur
    (emit (EvCreateViewport (env_newViewport env));; mret (env_newViewport env)).

Definition zcGetFrustum (env : Env) (viewport : ZCHandle) (cur : ZCHandle)
    : M (ZCError * ZCHandle) :=
  zc_get env (ZcGetFrustum viewport) cur (mret (env_newFrustum env)).

Definition zcSetViewportPosition (env : Env) (viewport : ZCHandle) (x y : Z) : M ZCError :=
  zc_call env (ZcSetViewportPosition viewport) (mret tt).

Definition zcSetViewportSize (env : Env) (viewport : ZCHandle) (w h : Z) : M ZCError :=
  zc_call env (ZcSetViewportSize viewport) (mret tt).

Definition zcGetFrustumViewMatrix (env : Env) (frustum : ZCHandle) : M ZCError :=
  zc_call env (ZcGetFrustumViewMatrix frustum) (mret tt).

Definition zcGetFrustumProjectionMatrix (env : Env) (frustum : ZCHandle) : M ZCError :=
  zc_call env (ZcGetFrustumProjectionMatrix frustum) (mret tt).

Definition zcDestroyViewport (env : Env) (viewport : ZCHandle) : M ZCError :=
  zc_call env (ZcDestroyViewport viewport) (emit (EvDestroyViewport viewport)).

(** [glGenTextures(1, &id)] and the like: the [n]-th name of the call. *)
Definition glGen (env : Env) (o : GlObject) (n : nat) : M GLuint :=
  emit (EvGlGen o (env_glGen env o n));; mret (env_glGen env o n).

(** [glDeleteTextures(1, &id)] and the like. *)
Definition glDelete (o : GlObject) (id : GLuint) : M unit :=
  emit (EvGlDelete o id).

(** [glCheckFramebufferStatus(GL_FRAMEBUFFER) == GL_FRAMEBUFFER_COMPLETE]
    for the framebuffer that is bound. *)
Definition glCheckFramebufferStatus (env : Env) (bound : GLuint) : M bool :=
  mret (env_framebufferComplete env bound).

(** ** The program *)

Definition ZVIEW_NODE_STATUS_NOT_CONNECTED : string := "Awaiting connection".
Definition ZVIEW_NODE_STATUS_CONNECTED : string := "Connected".

(** [printLog] *)
Definition printLog (m : LogMessage) : M unit := emit (EvPrintLog m).

(** *** Tear-down *)

Definition tearDownZviewStandardMode (env : Env) : Fn :=
  viewport ← read (g_zViewStandardModeViewportHandle ∘ standardMode);
  (if decide (viewport ≠ NULL) then
     zcError ← zcDestroyViewport env viewport;
     CHECK_ZC_ERROR zcError;;
     assign (set_g_zViewStandardModeViewportHandle NULL);;
     assign (set_g_zViewStandardModeFrustumHandle NULL)
   else mret tt);;
  framebuffer ← read (g_zViewStandardModeGlFramebufferId ∘ standardMode);
  (if decide (framebuffer ≠ 0) then
     glDelete GlFramebuffer framebuffer;;
     assign (set_g_zViewStandardModeGlFramebufferId 0)
   else mret tt);;
  texture ← read (g_zViewStandardModeColorGlTextureId ∘ standardMode);
  (if decide (texture ≠ 0) then
     glDelete GlTexture texture;;
     assign (set_g_zViewStandardModeColorGlTextureId 0)
   else mret tt);;
  renderbuffer ← read (g_zViewStandardModeDepthGlRenderbufferId ∘ standardMode);
  (if decide (renderbuffer ≠ 0) then
     glDelete GlRenderbuffer renderbuffer;;
     assign (set_g_zViewStandardModeDepthGlRenderbufferId 0)
   else mret tt);;
  return_ true.

(** [if (id != 0) { glDelete...(1, &id); id = 0; }] *)
Definition release (o : GlObject) (var : AugmentedRealityModeGlobals -> GLuint)
    (set : GLuint -> Globals -> Globals) : M unit :=
  id ← read (var ∘ augmentedRealityMode);
  if decide (id ≠ 0) then glDelete o id;; assign (set 0) else mret tt.

Definition tearDownZviewAugmentedRealityMode (env : Env) : Fn :=
  release GlVertexArray g_zViewAugmentedRealityModeMaskVertexArrayId
    set_g_zViewAugmentedRealityModeMaskVertexArrayId;;
  release GlBuffer g_zViewAugmentedRealityModeMaskVertexArrayBufferId
    set_g_zViewAugmentedRealityModeMaskVertexArrayBufferId;;
  release GlVertexArray g_zViewAugmentedRealityModeBackgroundVertexArrayId
    set_g_zViewAugmentedRealityModeBackgroundVertexArrayId;;
  release GlBuffer g_zViewAugmentedRealityModeBackgroundVertexArrayBufferId
    set_g_zViewAugmentedRealityModeBackgroundVertexArrayBufferId;;
  release GlFramebuffer g_zViewAugmentedRealityModeMaskGlFramebufferId
    set_g_zViewAugmentedRealityModeMaskGlFramebufferId;;
  release GlFramebuffer g_zViewAugmentedRealityModeGlFramebufferId
    set_g_zViewAugmentedRealityModeGlFramebufferId;;
  release GlTexture g_zViewAugmentedRealityModeColorGlTextureId
    set_g_zViewAugmentedRealityModeColorGlTextureId;;
  release GlRenderbuffer g_zViewAugmentedRealityModeDepthStencilGlRenderbufferId
    set_g_zViewAugmentedRealityModeDepthStencilGlRenderbufferId;;
  return_ true.

Definition tearDownZviewMode (env : Env) : Fn :=
  latest ← read g_zViewLatestActiveConnectionMode;
  standard ← read g_zViewStandardMode;
  augmented ← read g_zViewAugmentedRealityMode;
  (if decide (latest = standard) then
     ok ← call (tearDownZviewStandardMode env);
     if negb ok then return_ false else mret tt
   else if decide (latest = augmented) then
     ok ← call (tearDownZviewAugmentedRealityMode env);
     if negb ok then return_ false else mret tt
   else mret tt);;
  assign (set_g_zViewLatestActiveConnectionMode NULL);;
  return_ true.

(** *** New connections and video recording *)

Definition processNewZviewConnection (env : Env) (connection : ZVConnection) : Fn :=
  active ← read g_zViewActiveConnection;
  if decide (connection = active) then return_ true
  else
    (if decide (active = NULL) then
       error ← zvAcceptConnection env connection;
       CHECK_ZV_ERROR error;;
       assign (set_g_zViewActiveConnection connection);;
       context ← read g_zViewContext;
       error ← zvSetNodeStatus env context ZVIEW_NODE_STATUS_CONNECTED;
       CHECK_ZV_ERROR error
     else
       error ← zvCloseConnection env connection
                 ZV_CONNECTION_CLOSE_ACTION_NONE
                 ZV_CONNECTION_CLOSE_REASON_CONNECTION_REJECTED
                 "Maximum number of active zView connections exceeded";
       CHECK_ZV_ERROR error);;
    return_ true.

Definition processZviewVideoRecording (env : Env) (connection : ZVConnection) : Fn :=
  '(error, videoRecordingState) ←
    zvGetVideoRecordingState env connection ZV_VIDEO_RECORDING_STATE_ERROR;
  CHECK_ZV_ERROR error;;
  latest ← read g_zViewVideoRecordingLatestState;
  (if decide (videoRecordingState ≠ latest) then
     printLog (LogVideoRecordingStateTransition latest videoRecordingState)
   else mret tt);;
  (if decide (videoRecordingState = ZV_VIDEO_RECORDING_STATE_ERROR) then
     '(error, videoRecordingError) ←
       zvGetVideoRecordingError env connection ZV_ERROR_OK;
     CHECK_ZV_ERROR error;;
     printLog (LogVideoRecordingError videoRecordingError);;
     error ← zvClearVideoRecordingError env connection;
     CHECK_ZV_ERROR error
   else mret tt);;
  assign (set_g_zViewVideoRecordingLatestState videoRecordingState);;
  return_ true.

(** *** Set-up *)

Definition setUpZviewStandardMode (env : Env) (connection : ZVConnection) : Fn :=
  ok ← call (tearDownZviewStandardMode env);
  (if negb ok then return_ false else mret tt);;
  viewport ← read (g_zViewStandardModeViewportHandle ∘ standardMode);
  '(zcError, viewport) ← zcCreateViewport env viewport;
  assign (set_g_zViewStandardModeViewportHandle viewport);;
  CHECK_ZC_ERROR zcError;;
  frustum ← read (g_zViewStandardModeFrustumHandle ∘ standardMode);
  '(zcError, frustum) ← zcGetFrustum env viewport frustum;
  assign (set_g_zViewStandardModeFrustumHandle frustum);;
  CHECK_ZC_ERROR zcError;;
  x ← read g_windowX;
  y ← read g_windowY;
  zcError ← zcSetViewportPosition env viewport x y;
  CHECK_ZC_ERROR zcError;;
  width ← read (g_zViewStandardModeImageWidth ∘ standardMode);
  height ← read (g_zViewStandardModeImageHeight ∘ standardMode);
  zcError ← zcSetViewportSize env viewport width height;
  CHECK_ZC_ERROR zcError;;
  texture ← glGen env GlTexture 0;
  assign (set_g_zViewStandardModeColorGlTextureId texture);;
  renderbuffer ← glGen env GlRenderbuffer 0;
  assign (set_g_zViewStandardModeDepthGlRenderbufferId renderbuffer);;
  framebuffer ← glGen env GlFramebuffer 0;
  assign (set_g_zViewStandardModeGlFramebufferId framebuffer);;
  complete ← glCheckFramebufferStatus env framebuffer;
  (if negb complete then return_ false else mret tt);;
  assign (set_g_zViewStandardModeFrameNumber 0);;
  return_ true.

Definition setUpZviewAugmentedRealityMode (env : Env) (connection : ZVConnection) : Fn :=
  ok ← call (tearDownZviewAugmentedRealityMode env);
  (if negb ok then return_ false else mret tt);;
  width ← read (g_zViewAugmentedRealityModeImageWidth ∘ augmentedRealityMode);
  '(zvError, width) ← zvGetSettingU16 env connection ZV_SETTING_KEY_IMAGE_WIDTH width;
  assign (set_g_zViewAugmentedRealityModeImageWidth width);;
  CHECK_ZV_ERROR zvError;;
  height ← read (g_zViewAugmentedRealityModeImageHeight ∘ augmentedRealityMode);
  '(zvError, height) ← zvGetSettingU16 env connection ZV_SETTING_KEY_IMAGE_HEIGHT height;
  assign (set_g_zViewAugmentedRealityModeImageHeight height);;
  CHECK_ZV_ERROR zvError;;
  id ← glGen env GlVertexArray 0;
  assign (set_g_zViewAugmentedRealityModeMaskVertexArrayId id);;
  id ← glGen env GlBuffer 0;
  assign (set_g_zViewAugmentedRealityModeMaskVertexArrayBufferId id);;
  id ← glGen env GlVertexArray 1;
  assign (set_g_zViewAugmentedRealityModeBackgroundVertexArrayId id);;
  id ← glGen env GlBuffer 1;
  assign (set_g_zViewAugmentedRealityModeBackgroundVertexArrayBufferId id);;
  id ← glGen env GlTexture 0;
  assign (set_g_zViewAugmentedRealityModeColorGlTextureId id);;
  id ← glGen env GlRenderbuffer 0;
  assign (set_g_zViewAugmentedRealityModeDepthStencilGlRenderbufferId id);;
  maskFramebuffer ← glGen env GlFramebuffer 0;
  assign (set_g_zViewAugmentedRealityModeMaskGlFramebufferId maskFramebuffer);;
  complete ← glCheckFramebufferStatus env maskFramebuffer;
  (if negb complete then return_ false else mret tt);;
  framebuffer ← glGen env GlFramebuffer 1;
  assign (set_g_zViewAugmentedRealityModeGlFramebufferId framebuffer);;
  complete ← glCheckFramebufferStatus env framebuffer;
  (if negb complete then return_ false else mret tt);;
  return_ true.

Definition setUpZviewMode (env : Env) (connection : ZVConnection) : Fn :=
  '(error, mode) ← zvGetConnectionMode env connection NULL;
  CHECK_ZV_ERROR error;;
  latest ← read g_zViewLatestActiveConnectionMode;
  (if decide (mode ≠ latest) then
     _ ← call (tearDownZviewMode env);
     assign (set_g_zViewLatestActiveConnectionMode mode)
   else mret tt);;
  '(error, (modeSetupPhase, isAwaitingCompletion)) ←
    zvGetConnectionModeSetupPhase env connection;
  CHECK_ZV_ERROR error;;
  (if (isAwaitingCompletion : bool) then return_ true else mret tt);;
  standard ← read g_zViewStandardMode;
  augmented ← read g_zViewAugmentedRealityMode;
  match (modeSetupPhase : ZVModeSetupPhase) with
  | ZV_MODE_SETUP_PHASE_INITIALIZATION =>
      if decide (mode = standard) then
        error ← zvBeginSettingsBatch env connection;
        CHECK_ZV_ERROR error;;
        windowWidth ← read g_windowWidth;
        error ← zvSetSettingU16 env connection ZV_SETTING_KEY_IMAGE_WIDTH windowWidth;
        CHECK_ZV_ERROR error;;
        windowHeight ← read g_windowHeight;
        error ← zvSetSettingU16 env connection ZV_SETTING_KEY_IMAGE_HEIGHT windowHeight;
        CHECK_ZV_ERROR error;;
        error ← zvEndSettingsBatch env connection;
        CHECK_ZV_ERROR error;;
        assign (set_g_zViewStandardModeImageWidth (to_u16 windowWidth));;
        assign (set_g_zViewStandardModeImageHeight (to_u16 windowHeight));;
        error ← zvCompleteModeSetupPhase env connection ZV_MODE_SETUP_PHASE_INITIALIZATION;
        CHECK_ZV_ERROR error;;
        return_ true
      else if decide (mode = augmented) then
        error ← zvCompleteModeSetupPhase env connection ZV_MODE_SETUP_PHASE_INITIALIZATION;
        CHECK_ZV_ERROR error;;
        return_ true
      else return_ true
  | ZV_MODE_SETUP_PHASE_COMPLETION =>
      if decide (mode = standard) then
        ok ← call (setUpZviewStandardMode env connection);
        (if negb ok then return_ false else mret tt);;
        error ← zvCompleteModeSetupPhase env connection ZV_MODE_SETUP_PHASE_COMPLETION;
        CHECK_ZV_ERROR error;;
        return_ true
      else if decide (mode = augmented) then
        ok ← call (setUpZviewAugmentedRealityMode env connection);
        (if negb ok then return_ false else mret tt);;
        error ← zvCompleteModeSetupPhase env connection ZV_MODE_SETUP_PHASE_COMPLETION;
        CHECK_ZV_ERROR error;;
        return_ true
      else return_ true
  end.

(** *** The connection state machine *)

(** The [ZV_CONNECTION_STATE_CLOSED] and [ZV_CONNECTION_STATE_ERROR] cases
    of [updateZviewConnection], which are the same statements. *)
Definition closedOrError (env : Env) (connection : ZVConnection) : M unit :=
  active ← read g_zViewActiveConnection;
  (if decide (connection = active) then
     assign (set_g_zViewActiveConnection NULL);;
     ok ← call (tearDownZviewMode env);
     (if negb ok then return_ false else mret tt);;
     context ← read g_zViewContext;
     error ← zvSetNodeStatus env context ZVIEW_NODE_STATUS_NOT_CONNECTED;
     CHECK_ZV_ERROR error
   else mret tt);;
  error ← zvDestroyConnection env connection;
  CHECK_ZV_ERROR error.

Definition updateZviewConnection (env : Env) (connection : ZVConnection) : Fn :=
  error ← zvUpdateConnection env connection;
  CHECK_ZV_ERROR error;;
  '(error, connectionState) ←
    zvGetConnectionState env connection ZV_CONNECTION_STATE_ERROR;
  CHECK_ZV_ERROR error;;
  match connectionState with
  | ZV_CONNECTION_STATE_CONNECTION_INITIALIZATION => mret tt
  | ZV_CONNECTION_STATE_AWAITING_CONNECTION_ACCEPTANCE =>
      ok ← call (processNewZviewConnection env connection);
      if negb ok then return_ false else mret tt
  | ZV_CONNECTION_STATE_SWITCHING_MODES => mret tt
  | ZV_CONNECTION_STATE_NO_MODE =>
      ok ← call (tearDownZviewMode env);
      if negb ok then return_ false else mret tt
  | ZV_CONNECTION_STATE_MODE_SETUP =>
      ok ← call (setUpZviewMode env connection);
      if negb ok then return_ false else mret tt
  | ZV_CONNECTION_STATE_MODE_ACTIVE => mret tt
  | ZV_CONNECTION_STATE_MODE_PAUSED => mret tt
  | ZV_CONNECTION_STATE_MODE_RESUMING => mret tt
  | ZV_CONNECTION_STATE_PROCESSING_MODE_SETTINGS_CHANGE => mret tt
  | ZV_CONNECTION_STATE_CLOSED => closedOrError env connection
  | ZV_CONNECTION_STATE_ERROR => closedOrError env connection
  end;;
  ok ← call (processZviewVideoRecording env connection);
  (if negb ok then return_ false else mret tt);;
  return_ true.

(** The loop [for (int i = 0; i < numConnections; ++i)] of [updateZview],
    with [todo] iterations left. *)
Fixpoint updateZview_loop (env : Env) (i : nat) (todo : nat) : Fn :=
  match todo with
  | O => return_ true
  | S todo' =>
      '(error, curConnection) ← zvGetConnection env i NULL;
      CHECK_ZV_ERROR error;;
      ok ← call (updateZviewConnection env curConnection);
      (if negb ok then return_ false else mret tt);;
      updateZview_loop env (S i) todo'
  end.

Definition updateZview (env : Env) : Fn :=
  context ← read g_zViewContext;
  (if decide (context = NULL) then return_ true else mret tt);;
  error ← zv_call env ZvUpdateConnectionList (mret tt);
  CHECK_ZV_ERROR error;;
  '(error, numConnections) ← zvGetNumConnections env 0;
  CHECK_ZV_ERROR error;;
  updateZview_loop env 0 (Z.to_nat numConnections).

(** *** Settings helpers *)

Definition incrementZviewSettingClampedF32 (env : Env) (connection : ZVConnection)
    (settingKey : ZVSettingKey) (increment min max : ZSFloat) : Fn :=
  '(error, settingValue) ← zvGetSettingF32 env connection settingKey F32.zero;
  CHECK_ZV_ERROR error;;
  let settingValue := F32.add settingValue increment in
  let settingValue :=
    if F32.ltb settingValue min then min
    else if F32.gtb settingValue max then max
    else settingValue in
  error ← zvSetSettingF32 env connection settingKey settingValue;
  CHECK_ZV_ERROR error;;
  return_ true.

Definition handleZviewStandardModeImageResolutionChange (env : Env) : Fn :=
  active ← read g_zViewActiveConnection;
  (if decide (active = NULL) then return_ true else mret tt);;
  imageWidth ← read (g_zViewStandardModeImageWidth ∘ standardMode);
  imageHeight ← read (g_zViewStandardModeImageHeight ∘ standardMode);
  windowWidth ← read g_windowWidth;
  windowHeight ← read g_windowHeight;
  (if decide (imageWidth = windowWidth ∧ imageHeight = windowHeight)
   then return_ true else mret tt);;
  error ← zvBeginSettingsBatch env active;
  CHECK_ZV_ERROR error;;
  error ← zvSetSettingU16 env active ZV_SETTING_KEY_IMAGE_WIDTH windowWidth;
  CHECK_ZV_ERROR error;;
  error ← zvSetSettingU16 env active ZV_SETTING_KEY_IMAGE_HEIGHT windowHeight;
  CHECK_ZV_ERROR error;;
  error ← zvEndSettingsBatch env active;
  CHECK_ZV_ERROR error;;
  assign (set_g_zViewStandardModeImageWidth (to_u16 windowWidth));;
  assign (set_g_zViewStandardModeImageHeight (to_u16 windowHeight));;
  return_ true.

(** *** The frame pump *)

(** The rendering itself (OpenGL state, the view and projection matrices)
    is not traced; the calls that can fail are. *)
Definition drawZviewStandardMode (env : Env) : Fn :=
  viewport ← read (g_zViewStandardModeViewportHandle ∘ standardMode);
  x ← read g_windowX;
  y ← read g_windowY;
  zcError ← zcSetViewportPosition env viewport x y;
  CHECK_ZC_ERROR zcError;;
  frustum ← read (g_zViewStandardModeFrustumHandle ∘ standardMode);
  zcError ← zcGetFrustumViewMatrix env frustum;
  CHECK_ZC_ERROR zcError;;
  zcError ← zcGetFrustumProjectionMatrix env frustum;
  CHECK_ZC_ERROR zcError;;
  return_ true.

(** Two rendering passes, none of which can fail. *)
Definition drawZviewAugmentedRealityMode (env : Env) : Fn :=
  return_ true.

Definition drawZview (env : Env) : Fn :=
  context ← read g_zViewContext;
  (if decide (context = NULL) then return_ true else mret tt);;
  active ← read g_zViewActiveConnection;
  (if decide (active = NULL) then return_ true else mret tt);;
  '(error, connectionState) ← zvGetConnectionState env active ZV_CONNECTION_STATE_ERROR;
  CHECK_ZV_ERROR error;;
  (if decide (connectionState ≠ ZV_CONNECTION_STATE_MODE_ACTIVE)
   then return_ true else mret tt);;
  '(error, mode) ← zvGetConnectionMode env active NULL;
  CHECK_ZV_ERROR error;;
  standard ← read g_zViewStandardMode;
  augmented ← read g_zViewAugmentedRealityMode;
  if decide (mode = standard) then
    '(error, frame) ← zvGetNextFrameToSend env active NULL;
    CHECK_ZV_ERROR error;;
    (if decide (frame = NULL) then return_ true else mret tt);;
    frameNumber ← read (g_zViewStandardModeFrameNumber ∘ standardMode);
    error ← zvSetFrameDataU64 env frame ZV_FRAME_DATA_KEY_FRAME_NUMBER frameNumber;
    CHECK_ZV_ERROR error;;
    ok ← call (drawZviewStandardMode env);
    (if negb ok then return_ false else mret tt);;
    error ← zvGetFrameBuffer env frame;
    CHECK_ZV_ERROR error;;
    error ← zvSendFrame env frame;
    CHECK_ZV_ERROR error;;
    frameNumber ← read (g_zViewStandardModeFrameNumber ∘ standardMode);
    assign (set_g_zViewStandardModeFrameNumber (to_u64 (frameNumber + 1)));;
    ok ← call (handleZviewStandardModeImageResolutionChange env);
    (if negb ok then return_ false else mret tt);;
    return_ true
  else if decide (mode = augmented) then
    '(error, receivedFrame) ← zvReceiveFrame env active NULL;
    CHECK_ZV_ERROR error;;
    (if decide (receivedFrame = NULL) then return_ true else mret tt);;
    '(error, receivedFrameNumber) ←
      zvGetFrameDataU64 env receivedFrame ZV_FRAME_DATA_KEY_FRAME_NUMBER 0;
    CHECK_ZV_ERROR error;;
    error ← zvGetFrameDataM4 env receivedFrame ZV_FRAME_DATA_KEY_CAMERA_POSE;
    CHECK_ZV_ERROR error;;
    error ← zvGetFrameDataF32 env receivedFrame ZV_FRAME_DATA_KEY_CAMERA_FOCAL_LENGTH;
    CHECK_ZV_ERROR error;;
    error ← zvGetFrameDataF32 env receivedFrame
              ZV_FRAME_DATA_KEY_CAMERA_PRINCIPAL_POINT_OFFSET_X;
    CHECK_ZV_ERROR error;;
    error ← zvGetFrameDataF32 env receivedFrame
              ZV_FRAME_DATA_KEY_CAMERA_PRINCIPAL_POINT_OFFSET_Y;
    CHECK_ZV_ERROR error;;
    error ← zvGetFrameDataF32 env receivedFrame ZV_FRAME_DATA_KEY_CAMERA_PIXEL_ASPECT_RATIO;
    CHECK_ZV_ERROR error;;
    error ← zvGetFrameDataF32 env receivedFrame ZV_FRAME_DATA_KEY_CAMERA_AXIS_SKEW;
    CHECK_ZV_ERROR error;;
    error ← zvReleaseReceivedFrame env receivedFrame;
    CHECK_ZV_ERROR error;;
    (* computeZviewAugmentedRealityModeProjectionMatrix and
       updateZviewAugmentedRealityMode, whose result is not looked at *)
    '(error, frame) ← zvGetNextFrameToSend env active NULL;
    CHECK_ZV_ERROR error;;
    (if decide (frame = NULL) then return_ true else mret tt);;
    error ← zvSetFrameDataU64 env frame ZV_FRAME_DATA_KEY_FRAME_NUMBER receivedFrameNumber;
    CHECK_ZV_ERROR error;;
    ok ← call (drawZviewAugmentedRealityMode env);
    (if negb ok then return_ false else mret tt);;
    error ← zvGetFrameBuffer env frame;
    CHECK_ZV_ERROR error;;
    error ← zvSendFrame env frame;
    CHECK_ZV_ERROR error;;
    return_ true
  else return_ true.

(** *** Key presses *)

(** The virtual-key code of a letter key. *)
Definition VK (c : ascii) : Z := Z.of_N (N_of_ascii c).

Definition processZviewAugmentedRealityModeOverlayControlKeyPress
    (env : Env) (key : Z) : Fn :=
  active ← read g_zViewActiveConnection;
  (if decide (active = NULL) then return_ true else mret tt);;
  '(error, connectionState) ← zvGetConnectionState env active ZV_CONNECTION_STATE_ERROR;
  CHECK_ZV_ERROR error;;
  (if decide (connectionState ≠ ZV_CONNECTION_STATE_MODE_ACTIVE)
   then return_ true else mret tt);;
  '(error, mode) ← zvGetConnectionMode env active NULL;
  CHECK_ZV_ERROR error;;
  augmented ← read g_zViewAugmentedRealityMode;
  (if decide (mode ≠ augmented) then return_ true else mret tt);;
  (if negb (env_isControlKeyPressed env) then return_ true else mret tt);;
  imageWidth ← read (g_zViewAugmentedRealityModeImageWidth ∘ augmentedRealityMode);
  let increment k d lo hi :=
    ok ← call (incrementZviewSettingClampedF32 env active k d lo hi);
    if negb ok then return_ false else mret tt in
  let reset k v :=
    error ← zvSetSettingF32 env active k v;
    CHECK_ZV_ERROR error in
  (if decide (key = VK "A") then
     increment ZV_SETTING_KEY_OVERLAY_OFFSET_X F32.minus_one
       (F32.of_Z (- imageWidth)) (F32.of_Z imageWidth)
   else if decide (key = VK "D") then
     increment ZV_SETTING_KEY_OVERLAY_OFFSET_X F32.one
       (F32.of_Z (- imageWidth)) (F32.of_Z imageWidth)
   else if decide (key = VK "S") then
     increment ZV_SETTING_KEY_OVERLAY_OFFSET_Y F32.minus_one
       (F32.of_Z (- imageWidth)) (F32.of_Z imageWidth)
   else if decide (key = VK "W") then
     increment ZV_SETTING_KEY_OVERLAY_OFFSET_Y F32.one
       (F32.of_Z (- imageWidth)) (F32.of_Z imageWidth)
   else if decide (key = VK "Q") then reset ZV_SETTING_KEY_OVERLAY_OFFSET_X F32.zero
   else if decide (key = VK "E") then reset ZV_SETTING_KEY_OVERLAY_OFFSET_Y F32.zero
   else if decide (key = VK "F") then
     increment ZV_SETTING_KEY_OVERLAY_SCALE_X F32.minus_hundredth F32.hundredth F32.ten
   else if decide (key = VK "H") then
     increment ZV_SETTING_KEY_OVERLAY_SCALE_X F32.hundredth F32.hundredth F32.ten
   else if decide (key = VK "G") then
     increment ZV_SETTING_KEY_OVERLAY_SCALE_Y F32.minus_hundredth F32.hundredth F32.ten
   else if decide (key = VK "T") then
     increment ZV_SETTING_KEY_OVERLAY_SCALE_Y F32.hundredth F32.hundredth F32.ten
   else if decide (key = VK "R") then reset ZV_SETTING_KEY_OVERLAY_SCALE_X F32.one
   else if decide (key = VK "Y") then reset ZV_SETTING_KEY_OVERLAY_SCALE_Y F32.one
   else mret tt);;
  return_ true.

(** The loop [while (numModesTried < numSupportedModes)] of
    [switchZviewMode].  Every iteration that does not leave the loop
    increments [numModesTried], so [numSupportedModes - numModesTried]
    iterations are enough: [todo] is that bound, and it runs out exactly
    when the loop condition fails.  [break] is followed by [return true]. *)
Fixpoint switchZviewMode_loop (env : Env) (active : ZVConnection)
    (numSupportedModes numModesTried : Z) (todo : nat) : Fn :=
  match todo with
  | O => return_ true
  | S todo' =>
      if decide (numModesTried < numSupportedModes) then
        index ← read g_zViewCurrentConnectionModeIndex;
        assign (set_g_zViewCurrentConnectionModeIndex (index + 1));;
        index ← read g_zViewCurrentConnectionModeIndex;
        assign (set_g_zViewCurrentConnectionModeIndex (Z.rem index numSupportedModes));;
        index ← read g_zViewCurrentConnectionModeIndex;
        '(zvError, curSupportedMode) ← zvGetConnectionSupportedMode env active index;
        CHECK_ZV_ERROR zvError;;
        match (curSupportedMode : option ZVSupportedMode) with
        | Some curSupportedMode =>
            if decide (availability curSupportedMode = ZV_MODE_AVAILABILITY_AVAILABLE) then
              printLog LogSwitchingModes;;
              zvError ← zvSetConnectionMode env active (mode curSupportedMode);
              CHECK_ZV_ERROR zvError;;
              return_ true
            else
              switchZviewMode_loop env active numSupportedModes (numModesTried + 1) todo'
        | None => return_ false
        end
      else return_ true
  end.

Definition switchZviewMode (env : Env) : Fn :=
  active ← read g_zViewActiveConnection;
  (if decide (active = NULL) then return_ true else mret tt);;
  '(zvError, state) ← zvGetConnectionState env active ZV_CONNECTION_STATE_ERROR;
  CHECK_ZV_ERROR zvError;;
  (if decide (state ≠ ZV_CONNECTION_STATE_NO_MODE ∧ state ≠ ZV_CONNECTION_STATE_MODE_ACTIVE)
   then return_ true else mret tt);;
  '(zvError, numSupportedModes) ← zvGetNumConnectionSupportedModes env active 0;
  CHECK_ZV_ERROR zvError;;
  switchZviewMode_loop env active numSupportedModes 0 (Z.to_nat numSupportedModes).

(** ** Vocabulary of the specifications *)

(** Weakest precondition of a statement: [Q] for passing control on, [R]
    for a [return]. *)
Definition wp {A : Type} (m : M A) (s : State)
    (Q : A -> State -> Prop) (R : bool -> State -> Prop) : Prop :=
  match m s with
  | Next a s' => Q a s'
  | Return b s' => R b s'
  end.

(** A statement keeps a relation between the state before and after it,
    however it ends. *)
Definition preserves {A : Type} (P : State -> State -> Prop) (m : M A) : Prop :=
  forall s, wp m s (fun _ s' => P s s') (fun _ s' => P s s').

(** The trace only grows, by events that satisfy [φ]. *)
Definition emits (φ : Event -> Prop) (s s' : State) : Prop :=
  exists evs, w_trace (world s') = w_trace (world s) ++ evs /\ Forall φ evs.

(** A global variable keeps its value. *)
Definition keeps {A : Type} (var : Globals -> A) (s s' : State) : Prop :=
  var (globals s') = var (globals s).

(** The events a function adds to the trace when run from [s]. *)
Definition events_of (f : Fn) (s : State) : list Event :=
  drop (length (w_trace (world s))) (w_trace (world (run f s).2)).

(** The setting a connection's store holds for a key. *)
Definition setting (s : State) (c : ZVConnection) (k : ZVSettingKey) : option SettingValue :=
  st_values (w_settings (world s) !!! c) !! k.

(** *** Sessions in accepted status

    A connection is in accepted status from the moment the program accepts
    it until the runtime reports it closed or in error. *)
Definition is_closed (st : ZVConnectionState) : bool :=
  match st with
  | ZV_CONNECTION_STATE_CLOSED | ZV_CONNECTION_STATE_ERROR => true
  | _ => false
  end.

Definition accepted_step (acc : gset ZVConnection) (e : Event) : gset ZVConnection :=
  match e with
  | EvAcceptConnection c => acc ∪ {[c]}
  | EvConnectionState c st => if is_closed st then acc ∖ {[c]} else acc
  | _ => acc
  end.

Definition accepted (trace : list Event) : gset ZVConnection :=
  foldl accepted_step ∅ trace.

(** Every connection in accepted status is the active connection. *)
Definition single_active (s : State) : Prop :=
  forall c, c ∈ accepted (w_trace (world s)) ->
    c = g_zViewActiveConnection (globals s) /\ c ≠ NULL.

(** Events that leave the set of accepted connections alone. *)
Definition not_acceptance (e : Event) : Prop :=
  match e with
  | EvAcceptConnection _ | EvConnectionState _ _ => False
  | _ => True
  end.

(** The main loop's [updateZview()] over a sequence of ticks; the result
    of the call is not looked at. *)
Fixpoint updateZview_ticks (envs : list Env) (s : State) : State :=
  match envs with
  | [] => s
  | env :: envs => updateZview_ticks envs (run (updateZview env) s).2
  end.

(** The rule of the spec for a connection that awaits acceptance, read
    with two cases only: accepted when there is no active connection,
    closed as rejected otherwise. *)
Definition accepts_or_rejects (env : Env) (connection : ZVConnection) (s : State) : Prop :=
  let evs := events_of (processNewZviewConnection env connection) s in
  if decide (g_zViewActiveConnection (globals s) = NULL)
  then EvAcceptConnection connection ∈ evs
  else exists message,
    EvCloseConnection connection ZV_CONNECTION_CLOSE_ACTION_NONE
      ZV_CONNECTION_CLOSE_REASON_CONNECTION_REJECTED message ∈ evs.

(** *** What the remote side sees of the settings

    The remote view of connection [c]'s settings after the events [evs],
    from the view [r]: every [EvSettingsSent] applies its writes at once,
    in order. *)
Definition apply_writes (r : gmap ZVSettingKey SettingValue)
    (writes : list (ZVSettingKey * SettingValue)) : gmap ZVSettingKey SettingValue :=
  foldl (fun r kv => <[kv.1 := kv.2]> r) r writes.

Definition remote_step (c : ZVConnection) (r : gmap ZVSettingKey SettingValue) (e : Event)
    : gmap ZVSettingKey SettingValue :=
  match e with
  | EvSettingsSent c' writes => if decide (c' = c) then apply_writes r writes else r
  | _ => r
  end.

Definition remote_view (c : ZVConnection) (evs : list Event)
    (r : gmap ZVSettingKey SettingValue) : gmap ZVSettingKey SettingValue :=
  foldl (remote_step c) r evs.

(** The remote view shows the image size of the window, both width and
    height. *)
Definition shows_window_size (g : Globals) (r : gmap ZVSettingKey SettingValue) : Prop :=
  r !! ZV_SETTING_KEY_IMAGE_WIDTH = Some (SettingU16 (to_u16 (g_windowWidth g))) /\
  r !! ZV_SETTING_KEY_IMAGE_HEIGHT = Some (SettingU16 (to_u16 (g_windowHeight g))).

Definition not_settings_sent (e : Event) : Prop :=
  match e with EvSettingsSent _ _ => False | _ => True end.

(** *** Frames *)

(** The frame-number tags of the frames sent, in order. *)
Definition sent_tag (e : Event) : option (option Z) :=
  match e with EvSendFrame _ tag => Some tag | _ => None end.

Definition sent_tags (evs : list Event) : list (option Z) := omap sent_tag evs.

(** The main loop's [drawZview()] over a sequence of ticks. *)
Fixpoint drawZview_ticks (envs : list Env) (s : State) : State :=
  match envs with
  | [] => s
  | env :: envs => drawZview_ticks envs (run (drawZview env) s).2
  end.

(** A tick in which the active connection has standard mode active: the
    runtime answers the state and mode queries and the request for an
    outgoing frame. *)
Definition standard_mode_tick (g : Globals) (env : Env) : Prop :=
  let active := g_zViewActiveConnection g in
  g_zViewContext g ≠ NULL /\ active ≠ NULL /\
  zv_error env (ZvGetConnectionState active) = ZV_ERROR_OK /\
  env_connectionState env active = ZV_CONNECTION_STATE_MODE_ACTIVE /\
  zv_error env (ZvGetConnectionMode active) = ZV_ERROR_OK /\
  env_connectionMode env active = g_zViewStandardMode g /\
  zv_error env (ZvGetNextFrameToSend active) = ZV_ERROR_OK.

(** ... and no outgoing frame is available. *)
Definition no_frame_slot (g : Globals) (env : Env) : Prop :=
  standard_mode_tick g env /\
  env_nextFrameToSend env (g_zViewActiveConnection g) = NULL.

(** ... and an outgoing frame is available and is filled and sent without
    an error. *)
Definition frame_slot (g : Globals) (env : Env) : Prop :=
  let frame := env_nextFrameToSend env (g_zViewActiveConnection g) in
  standard_mode_tick g env /\ frame ≠ NULL /\
  zv_error env (ZvSetFrameDataU64 frame) = ZV_ERROR_OK /\
  (forall c, zc_error env c = ZC_ERROR_OK) /\
  zv_error env (ZvGetFrameBuffer frame) = ZV_ERROR_OK /\
  zv_error env (ZvSendFrame frame) = ZV_ERROR_OK.

(** A tick in which the runtime reports the augmented reality mode for
    the active connection. *)
Definition augmented_reality_tick (g : Globals) (env : Env) : Prop :=
  env_connectionMode env (g_zViewActiveConnection g) = g_zViewAugmentedRealityMode g /\
  g_zViewAugmentedRealityMode g ≠ g_zViewStandardMode g.

(** The tag of the frame received in this tick. *)
Definition received_tag (g : Globals) (env : Env) : Z :=
  env_receivedFrameNumber env (env_receivedFrame env (g_zViewActiveConnection g)).

(** *** Kinds of events *)

(** Creating and releasing rendering resources. *)
Definition resource_event (e : Event) : Prop :=
  match e with
  | EvCreateViewport _ | EvDestroyViewport _ | EvGlGen _ _ | EvGlDelete _ _ => True
  | _ => False
  end.

(** What mode set-up does: resources, the image size, the end of a
    set-up phase. *)
Definition setup_event (e : Event) : Prop :=
  match e with
  | EvSettingsSent _ _ | EvCompleteModeSetupPhase _ _ => True
  | _ => resource_event e
  end.

(** What video-recording polling does. *)
Definition video_recording_event (e : Event) : Prop :=
  match e with
  | EvVideoRecordingState _ _ | EvPrintLog _ | EvClearVideoRecordingError _ => True
  | _ => False
  end.

Definition no_event (e : Event) : Prop := False.

(** The globals that tear-down, set-up and video-recording polling never
    assign. *)
Definition session_globals (g : Globals) :=
  (g_zViewContext g, g_zViewActiveConnection g, g_zViewStandardMode g,
   g_zViewAugmentedRealityMode g, g_zViewCurrentConnectionModeIndex g,
   (g_windowX g, g_windowY g, g_windowWidth g, g_windowHeight g)).

(** ** Example inputs *)

(** The globals after [initializeZview]: no connection yet, the two modes
    resolved to handles, no mode resources. *)
Definition example_globals : Globals := {|
  g_zSpaceContext := 1;
  g_windowX := 0; g_windowY := 0; g_windowWidth := 1024; g_windowHeight := 768;
  g_zViewContext := 2;
  g_zViewActiveConnection := NULL;
  g_zViewStandardMode := 100;
  g_zViewAugmentedRealityMode := 200;
  g_zViewLatestActiveConnectionMode := NULL;
  g_zViewCurrentConnectionModeIndex := 0;
  g_zViewVideoRecordingLatestState := ZV_VIDEO_RECORDING_STATE_NOT_AVAILABLE;
  standardMode := {|
    g_zViewStandardModeImageWidth := 0; g_zViewStandardModeImageHeight := 0;
    g_zViewStandardModeViewportHandle := NULL;
    g_zViewStandardModeFrustumHandle := NULL;
    g_zViewStandardModeFrameNumber := 0;
    g_zViewStandardModeGlFramebufferId := 0;
    g_zViewStandardModeColorGlTextureId := 0;
    g_zViewStandardModeDepthGlRenderbufferId := 0 |};
  augmentedRealityMode := {|
    g_zViewAugmentedRealityModeImageWidth := 0;
    g_zViewAugmentedRealityModeImageHeight := 0;
    g_zViewAugmentedRealityModeMaskVertexArrayId := 0;
    g_zViewAugmentedRealityModeMaskVertexArrayBufferId := 0;
    g_zViewAugmentedRealityModeBackgroundVertexArrayId := 0;
    g_zViewAugmentedRealityModeBackgroundVertexArrayBufferId := 0;
    g_zViewAugmentedRealityModeMaskGlFramebufferId := 0;
    g_zViewAugmentedRealityModeGlFramebufferId := 0;
    g_zViewAugmentedRealityModeColorGlTextureId := 0;
    g_zViewAugmentedRealityModeDepthStencilGlRenderbufferId := 0 |};
|}.

Definition example_state : State :=
  {| globals := example_globals;
     world := {| w_settings := ∅; w_frameNumber := ∅; w_trace := [] |} |}.

(** An environment in which every call succeeds, with connections [11]
    and [12] in the state [st] and the mode [m], set-up phase [phase] and
    video-recording state [vr]; an outgoing frame [55] is available and the
    frame [66] with tag [4242] has been received. *)
Definition example_env (st : ZVConnectionState) (m : ZVMode) (phase : ZVModeSetupPhase)
    (vr : ZVVideoRecordingState) : Env := {|
  zv_error := fun _ => ZV_ERROR_OK;
  zc_error := fun _ => ZC_ERROR_OK;
  env_connections := [11; 12];
  env_connectionState := fun _ => st;
  env_connectionMode := fun _ => m;
  env_modeSetupPhase := fun _ => phase;
  env_isAwaitingCompletion := fun _ => false;
  env_supportedModes := fun _ =>
    [ {| mode := 100; availability := ZV_MODE_AVAILABILITY_AVAILABLE |};
      {| mode := 200; availability := ZV_MODE_AVAILABILITY_AVAILABLE |} ];
  env_videoRecordingState := fun _ => vr;
  env_videoRecordingError := fun _ => 7;
  env_nextFrameToSend := fun _ => 55;
  env_receivedFrame := fun _ => 66;
  env_receivedFrameNumber := fun _ => 4242;
  env_newViewport := 31;
  env_newFrustum := 32;
  env_glGen := fun _ n => 1 + Z.of_nat n;
  env_framebufferComplete := fun _ => true;
  env_isControlKeyPressed := true;
|}.

Definition env_awaiting : Env :=
  example_env ZV_CONNECTION_STATE_AWAITING_CONNECTION_ACCEPTANCE NULL
    ZV_MODE_SETUP_PHASE_INITIALIZATION ZV_VIDEO_RECORDING_STATE_NOT_RECORDING.

Definition env_standard_setup (phase : ZVModeSetupPhase) : Env :=
  example_env ZV_CONNECTION_STATE_MODE_SETUP 100 phase
    ZV_VIDEO_RECORDING_STATE_NOT_RECORDING.

Definition env_standard_active : Env :=
  example_env ZV_CONNECTION_STATE_MODE_ACTIVE 100 ZV_MODE_SETUP_PHASE_COMPLETION
    ZV_VIDEO_RECORDING_STATE_NOT_RECORDING.

Definition env_augmented_setup (phase : ZVModeSetupPhase) : Env :=
  example_env ZV_CONNECTION_STATE_MODE_SETUP 200 phase
    ZV_VIDEO_RECORDING_STATE_NOT_RECORDING.

Definition env_augmented_active : Env :=
  example_env ZV_CONNECTION_STATE_MODE_ACTIVE 200 ZV_MODE_SETUP_PHASE_COMPLETION
    ZV_VIDEO_RECORDING_STATE_NOT_RECORDING.

(** Connection [11] accepted (and [12] rejected). *)
Definition example_connected : State :=
  (run (updateZview env_awaiting) example_state).2.

(** ... then standard mode set up, through both set-up phases. *)
Definition example_standard : State :=
  (run (updateZviewConnection (env_standard_setup ZV_MODE_SETUP_PHASE_COMPLETION) 11)
     (run (updateZviewConnection (env_standard_setup ZV_MODE_SETUP_PHASE_INITIALIZATION) 11)
        example_connected).2).2.

(** The globals the frame pump reads but the settings helpers never
    assign. *)
Definition pump_globals (g : Globals) :=
  (session_globals g, g_zViewStandardModeFrameNumber (standardMode g)).

Definition settings_sent_event (e : Event) : Prop :=
  match e with EvSettingsSent _ _ => True | _ => False end.

(** [++g_zViewStandardModeFrameNumber] *)
Definition next_frame_number (n : Z) : Z := to_u64 (n + 1).

(** The tags of [k] frames numbered from [n] on. *)
Fixpoint tags_from (n : Z) (k : nat) : list (option Z) :=
  match k with
  | O => []
  | S k => Some n :: tags_from (next_frame_number n) k
  end.

(** The same answers, but no outgoing frame is available. *)
Definition without_frame_slot (env : Env) : Env := {|
  zv_error := zv_error env;
  zc_error := zc_error env;
  env_connections := env_connections env;
  env_connectionState := env_connectionState env;
  env_connectionMode := env_connectionMode env;
  env_modeSetupPhase := env_modeSetupPhase env;
  env_isAwaitingCompletion := env_isAwaitingCompletion env;
  env_supportedModes := env_supportedModes env;
  env_videoRecordingState := env_videoRecordingState env;
  env_videoRecordingError := env_videoRecordingError env;
  env_nextFrameToSend := fun _ => NULL;
  env_receivedFrame := env_receivedFrame env;
  env_receivedFrameNumber := env_receivedFrameNumber env;
  env_newViewport := env_newViewport env;
  env_newFrustum := env_newFrustum env;
  env_glGen := env_glGen env;
  env_framebufferComplete := env_framebufferComplete env;
  env_isControlKeyPressed := env_isControlKeyPressed env;
|}.

(** Standard mode after two frames have been sent. *)
Definition example_two_frames_sent : State :=
  drawZview_ticks [env_standard_active; env_standard_active] example_standard.

(** A setting written by the remote side arrives in the connection's
    store. *)
Definition remote_setting (c : ZVConnection) (k : ZVSettingKey) (v : SettingValue)
    (s : State) : State :=
  let w := world s in
  let st := w_settings w !!! c in
  {| globals := globals s;
     world := {| w_settings :=
                   <[c := {| st_values := <[k := v]> (st_values st);
                             st_batch := st_batch st |}]> (w_settings w);
                 w_frameNumber := w_frameNumber w;
                 w_trace := w_trace w |} |}.

(** Connection [11] accepted, then augmented reality mode set up for images
    of 640 by 480 that the viewer asked for, the overlay at its defaults. *)
Definition example_augmented : State :=
  (run (updateZviewConnection (env_augmented_setup ZV_MODE_SETUP_PHASE_COMPLETION) 11)
     (run (updateZviewConnection (env_augmented_setup ZV_MODE_SETUP_PHASE_INITIALIZATION) 11)
        (remote_setting 11 ZV_SETTING_KEY_OVERLAY_SCALE_Y (SettingF32 F32.one)
        (remote_setting 11 ZV_SETTING_KEY_OVERLAY_SCALE_X (SettingF32 F32.one)
        (remote_setting 11 ZV_SETTING_KEY_OVERLAY_OFFSET_Y (SettingF32 F32.zero)
        (remote_setting 11 ZV_SETTING_KEY_OVERLAY_OFFSET_X (SettingF32 F32.zero)
        (remote_setting 11 ZV_SETTING_KEY_IMAGE_HEIGHT (SettingU16 480)
        (remote_setting 11 ZV_SETTING_KEY_IMAGE_WIDTH (SettingU16 640)
           example_connected))))))).2).2.

(** A remote reader that looks at the settings of connection [c] at any
    moment while the events [evs] happen sees them either as they were or
    with the image size of the window [g]: never width without height. *)
Definition atomic_update (g : Globals) (c : ZVConnection) (evs : list Event) : Prop :=
  forall p r, p `prefix_of` evs ->
    remote_view c p r = r \/ shows_window_size g (remote_view c p r).

(** The relation between the states before and after a function that
    shows the remote side no torn image size. *)
Definition updates_atomically (g : Globals) (c : ZVConnection) (s s' : State) : Prop :=
  exists evs, w_trace (world s') = w_trace (world s) ++ evs /\ atomic_update g c evs.

(** [WM_SIZE] in [windowProc]: the window has a new size. *)
Definition set_windowSize (width height : Z) (s : State) : State :=
  let g := globals s in
  {| globals :=
       {| g_zSpaceContext := g_zSpaceContext g; g_windowX := g_windowX g;
          g_windowY := g_windowY g; g_windowWidth := width;
          g_windowHeight := height; g_zViewContext := g_zViewContext g;
          g_zViewActiveConnection := g_zViewActiveConnection g;
          g_zViewStandardMode := g_zViewStandardMode g;
          g_zViewAugmentedRealityMode := g_zViewAugmentedRealityMode g;
          g_zViewLatestActiveConnectionMode := g_zViewLatestActiveConnectionMode g;
          g_zViewCurrentConnectionModeIndex := g_zViewCurrentConnectionModeIndex g;
          g_zViewVideoRecordingLatestState := g_zViewVideoRecordingLatestState g;
          standardMode := standardMode g;
          augmentedRealityMode := augmentedRealityMode g |};
     world := world s |}.

(** *** Switching modes *)

(** The state with the mode index [i] and the events [evs] added to the
    trace. *)
Definition switched (i : Z) (evs : list Event) (s : State) : State :=
  {| globals := set_g_zViewCurrentConnectionModeIndex i (globals s);
     world := {| w_settings := w_settings (world s);
                 w_frameNumber := w_frameNumber (world s);
                 w_trace := w_trace (world s) ++ evs |} |}.

(** The [i]-th supported mode is available. *)
Definition available_at (modes : list ZVSupportedMode) (i : Z) : Prop :=
  exists m, modes !! Z.to_nat i = Some m /\
    availability m = ZV_MODE_AVAILABILITY_AVAILABLE.

(** The index of the [k]-th supported mode after the one at [last], going
    round a list of [n] modes. *)
Definition after (last n k : Z) : Z := (last + k) mod n.

(** [switchZviewMode] has an active connection in a state in which a mode
    switch makes sense, and the runtime answers its calls. *)
Definition switch_ready (env : Env) (s : State) : Prop :=
  let active := g_zViewActiveConnection (globals s) in
  active ≠ NULL /\
  zv_error env (ZvGetConnectionState active) = ZV_ERROR_OK /\
  (env_connectionState env active = ZV_CONNECTION_STATE_NO_MODE \/
   env_connectionState env active = ZV_CONNECTION_STATE_MODE_ACTIVE) /\
  zv_error env (ZvGetNumConnectionSupportedModes active) = ZV_ERROR_OK /\
  (forall i, zv_error env (ZvGetConnectionSupportedMode active i) = ZV_ERROR_OK) /\
  zv_error env (ZvSetConnectionMode active) = ZV_ERROR_OK /\
  0 <= g_zViewCurrentConnectionModeIndex (globals s).

(** An environment with other supported modes. *)
Definition with_supportedModes (modes : list ZVSupportedMode) (env : Env) : Env := {|
  zv_error := zv_error env;
  zc_error := zc_error env;
  env_connections := env_connections env;
  env_connectionState := env_connectionState env;
  env_connectionMode := env_connectionMode env;
  env_modeSetupPhase := env_modeSetupPhase env;
  env_isAwaitingCompletion := env_isAwaitingCompletion env;
  env_supportedModes := fun _ => modes;
  env_videoRecordingState := env_videoRecordingState env;
  env_videoRecordingError := env_videoRecordingError env;
  env_nextFrameToSend := env_nextFrameToSend env;
  env_receivedFrame := env_receivedFrame env;
  env_receivedFrameNumber := env_receivedFrameNumber env;
  env_newViewport := env_newViewport env;
  env_newFrustum := env_newFrustum env;
  env_glGen := env_glGen env;
  env_framebufferComplete := env_framebufferComplete env;
  env_isControlKeyPressed := env_isControlKeyPressed env;
|}.

(** Three supported modes, of which only the first, the one in use, is
    available: the search goes round the whole list. *)
Definition env_first_available : Env :=
  with_supportedModes
    [ {| mode := 100; availability := ZV_MODE_AVAILABILITY_AVAILABLE |};
      {| mode := 200; availability := ZV_MODE_AVAILABILITY_NOT_AVAILABLE |};
      {| mode := 300; availability := ZV_MODE_AVAILABILITY_NOT_AVAILABLE |} ]
    env_standard_active.

(** Two supported modes, none available. *)
Definition env_none_available : Env :=
  with_supportedModes
    [ {| mode := 100; availability := ZV_MODE_AVAILABILITY_NOT_AVAILABLE |};
      {| mode := 200; availability := ZV_MODE_AVAILABILITY_NOT_AVAILABLE |} ]
    env_standard_active.

(** *** Clamped increments *)

(** Number of binary digits of a positive number. *)
Definition dig (p : positive) : Z := Zpos (digits2_pos p).

(** The value [incrementZviewSettingClampedF32] writes for the sum [x]. *)
Definition clamp (x min max : ZSFloat) : ZSFloat :=
  if F32.ltb x min then min else if F32.gtb x max then max else x.

(** [min <= x <= max] *)
Definition within (min max x : ZSFloat) : Prop :=
  F32.leb min x = true /\ F32.leb x max = true.

(** One clamped increment after the other: for each, the setting stored
    before it, the increment and the setting stored after it. *)
Fixpoint clamped_increments (env : Env) (c : ZVConnection) (k : ZVSettingKey)
    (min max : ZSFloat) (incs : list ZSFloat) (s : State)
    : list (option SettingValue * ZSFloat * option SettingValue) :=
  match incs with
  | [] => []
  | inc :: incs =>
      let s' := (run (incrementZviewSettingClampedF32 env c k inc min max) s).2 in
      (setting s c k, inc, setting s' c k)
        :: clamped_increments env c k min max incs s'
  end.

(** A clamped increment took the stored value [v] to the clamped sum [r],
    which is within the bounds and, unless it is one of the bounds, not on
    the other side of [v] than the sign of the increment says. *)
Definition clamped_step (min max : ZSFloat)
    (step : option SettingValue * ZSFloat * option SettingValue) : Prop :=
  let '(before, inc, after) := step in
  exists v r,
    before = Some (SettingF32 v) /\ after = Some (SettingF32 r) /\
    r = clamp (F32.add v inc) min max /\
    within min max r /\
    (F32.ltb F32.zero inc = true -> F32.leb v r = true \/ r = min \/ r = max) /\
    (F32.ltb inc F32.zero = true -> F32.leb r v = true \/ r = min \/ r = max).

(** An increment the arithmetic is defined for: a well-formed number that
    is neither an infinity nor a NaN. *)
Definition finite_increment (inc : ZSFloat) : Prop :=
  F32.is_finite inc = true /\ F32.valid inc = true.

(** *** Overlay keys *)

(** [processZviewAugmentedRealityModeOverlayControlKeyPress] gets as far
    as its [switch]: there is an active connection with the augmented
    reality mode active, the control key is down and the runtime answers. *)
Definition overlay_ready (env : Env) (s : State) : Prop :=
  let active := g_zViewActiveConnection (globals s) in
  active ≠ NULL /\
  (forall c, zv_error env c = ZV_ERROR_OK) /\
  env_connectionState env active = ZV_CONNECTION_STATE_MODE_ACTIVE /\
  env_connectionMode env active = g_zViewAugmentedRealityMode (globals s) /\
  env_isControlKeyPressed env = true.

(** The keys that move the overlay, each with the setting it adjusts and
    its step: horizontally [A] and [D], vertically [S] and [W]. *)
Definition overlay_offset_keys : list (ascii * ZVSettingKey * ZSFloat) :=
  [ ("A"%char, ZV_SETTING_KEY_OVERLAY_OFFSET_X, F32.minus_one);
    ("D"%char, ZV_SETTING_KEY_OVERLAY_OFFSET_X, F32.one);
    ("S"%char, ZV_SETTING_KEY_OVERLAY_OFFSET_Y, F32.minus_one);
    ("W"%char, ZV_SETTING_KEY_OVERLAY_OFFSET_Y, F32.one) ].

(** The state with another height of the augmented reality image. *)
Definition with_imageHeight (imageHeight : Z) (s : State) : State :=
  {| globals := set_g_zViewAugmentedRealityModeImageHeight imageHeight (globals s);
     world := world s |}.

(** *** Video recording *)

(** The runtime answers the calls of a poll of connection [c]. *)
Definition video_recording_ready (env : Env) (c : ZVConnection) : Prop :=
  zv_error env (ZvGetVideoRecordingState c) = ZV_ERROR_OK /\
  zv_error env (ZvGetVideoRecordingError c) = ZV_ERROR_OK /\
  zv_error env (ZvClearVideoRecordingError c) = ZV_ERROR_OK.

(** What a poll of connection [c] does when the last-known state is
    [latest] and the state observed is [observed]. *)
Definition poll_events (env : Env) (c : ZVConnection) (latest : ZVVideoRecordingState)
    : list Event :=
  let observed := env_videoRecordingState env c in
  [EvVideoRecordingState c observed]
  ++ (if decide (observed ≠ latest)
      then [EvPrintLog (LogVideoRecordingStateTransition latest observed)] else [])
  ++ (if decide (observed = ZV_VIDEO_RECORDING_STATE_ERROR)
      then [EvPrintLog (LogVideoRecordingError (env_videoRecordingError env c));
            EvClearVideoRecordingError c]
      else []).

(** The state after a poll. *)
Definition polled (env : Env) (c : ZVConnection) (s : State) : State :=
  {| globals := set_g_zViewVideoRecordingLatestState (env_videoRecordingState env c) (globals s);
     world := {| w_settings := w_settings (world s);
                 w_frameNumber := w_frameNumber (world s);
                 w_trace := w_trace (world s)
                   ++ poll_events env c (g_zViewVideoRecordingLatestState (globals s)) |} |}.

Definition logs_transition (evs : list Event) : Prop :=
  exists latest observed,
    EvPrintLog (LogVideoRecordingStateTransition latest observed) ∈ evs.

(** The events [evs] have a poll of the video-recording state of
    connection [c]. *)
Definition polls (env : Env) (evs : list Event) (c : ZVConnection) : Prop :=
  EvVideoRecordingState c (env_videoRecordingState env c) ∈ evs.

(** The rule of the spec, with a last-known state for each session: a
    poll of a connection logs a transition exactly when the state observed
    differs from the state that the previous tick observed for that
    connection. *)
Definition per_session_edge_triggered (previous env : Env) (c : ZVConnection)
    (s : State) : Prop :=
  logs_transition (events_of (processZviewVideoRecording env c) s) <->
  env_videoRecordingState env c ≠ env_videoRecordingState previous c.

Definition with_videoRecordingState (vr : ZVConnection -> ZVVideoRecordingState)
    (env : Env) : Env := {|
  zv_error := zv_error env;
  zc_error := zc_error env;
  env_connections := env_connections env;
  env_connectionState := env_connectionState env;
  env_connectionMode := env_connectionMode env;
  env_modeSetupPhase := env_modeSetupPhase env;
  env_isAwaitingCompletion := env_isAwaitingCompletion env;
  env_supportedModes := env_supportedModes env;
  env_videoRecordingState := vr;
  env_videoRecordingError := env_videoRecordingError env;
  env_nextFrameToSend := env_nextFrameToSend env;
  env_receivedFrame := env_receivedFrame env;
  env_receivedFrameNumber := env_receivedFrameNumber env;
  env_newViewport := env_newViewport env;
  env_newFrustum := env_newFrustum env;
  env_glGen := env_glGen env;
  env_framebufferComplete := env_framebufferComplete env;
  env_isControlKeyPressed := env_isControlKeyPressed env;
|}.

Definition with_connectionState (st : ZVConnection -> ZVConnectionState)
    (env : Env) : Env := {|
  zv_error := zv_error env;
  zc_error := zc_error env;
  env_connections := env_connections env;
  env_connectionState := st;
  env_connectionMode := env_connectionMode env;
  env_modeSetupPhase := env_modeSetupPhase env;
  env_isAwaitingCompletion := env_isAwaitingCompletion env;
  env_supportedModes := env_supportedModes env;
  env_videoRecordingState := env_videoRecordingState env;
  env_videoRecordingError := env_videoRecordingError env;
  env_nextFrameToSend := env_nextFrameToSend env;
  env_receivedFrame := env_receivedFrame env;
  env_receivedFrameNumber := env_receivedFrameNumber env;
  env_newViewport := env_newViewport env;
  env_newFrustum := env_newFrustum env;
  env_glGen := env_glGen env;
  env_framebufferComplete := env_framebufferComplete env;
  env_isControlKeyPressed := env_isControlKeyPressed env;
|}.

(** Connection [11] has standard mode active and is recording; a second
    connection [12] awaits acceptance, with no video recording
    available. *)
Definition env_second_connection : Env :=
  with_connectionState
    (fun c => if decide (c = 12) then ZV_CONNECTION_STATE_AWAITING_CONNECTION_ACCEPTANCE
              else ZV_CONNECTION_STATE_MODE_ACTIVE)
    (with_videoRecordingState
       (fun c => if decide (c = 12) then ZV_VIDEO_RECORDING_STATE_NOT_AVAILABLE
                 else ZV_VIDEO_RECORDING_STATE_RECORDING)
       env_standard_active).

(** Any event at all. *)
Definition any_event (e : Event) : Prop := True.


(** *** One active session *)

(** A statement keeps the invariant [single_active]. *)
Definition keeps_single_active (s s' : State) : Prop :=
  single_active s -> single_active s'.

(** A statement leaves the accepted connections and the active connection
    alone. *)
Definition keeps_sessions (s s' : State) : Prop :=
  emits not_acceptance s s' /\ keeps g_zViewActiveConnection s s'.

(** The runtime reports no connection with a null handle. *)
Definition connections_valid (env : Env) : Prop :=
  Forall (fun c => c ≠ NULL) (env_connections env).

(** What [processNewZviewConnection] does with a connection that awaits
    acceptance: nothing if it is the active connection already; with no
    active connection it accepts it and makes it the active connection;
    with another active connection it closes it as rejected, never accepts
    it and keeps the active connection. *)
Definition accepts_rejects_or_ignores (env : Env) (connection : ZVConnection)
    (s : State) : Prop :=
  let evs := events_of (processNewZviewConnection env connection) s in
  let active := g_zViewActiveConnection (globals s) in
  let active' :=
    g_zViewActiveConnection (globals (run (processNewZviewConnection env connection) s).2) in
  if decide (connection = active) then evs = [] /\ active' = active
  else if decide (active = NULL) then
    EvAcceptConnection connection ∈ evs /\ active' = connection
  else
    (exists message,
       EvCloseConnection connection ZV_CONNECTION_CLOSE_ACTION_NONE
         ZV_CONNECTION_CLOSE_REASON_CONNECTION_REJECTED message ∈ evs) /\
    (EvAcceptConnection connection ∉ evs) /\ active' = active.

(** An update of the active connection that finds it closed or in error
    clears the active connection. *)
Definition clears_active_when_closed (env : Env) (connection : ZVConnection)
    (s : State) : Prop :=
  zv_error env (ZvUpdateConnection connection) = ZV_ERROR_OK ->
  zv_error env (ZvGetConnectionState connection) = ZV_ERROR_OK ->
  is_closed (env_connectionState env connection) = true ->
  connection = g_zViewActiveConnection (globals s) ->
  g_zViewActiveConnection (globals (run (updateZviewConnection env connection) s).2) = NULL.


(** *** Rendering resources *)

(** What the program asks the zSpace Core API and OpenGL to create for a
    mode: viewports and named objects. *)
Inductive Resource : Type :=
  | ResViewport (h : ZCHandle)
  | ResGlObject (o : GlObject) (id : GLuint).

#[global] Instance GlObject_eq_dec : EqDecision GlObject.
Proof. solve_decision. Defined.

#[global] Instance GlObject_countable : Countable GlObject.
Proof.
  refine (inj_countable'
    (fun o => match o with
       | GlTexture => 0%nat | GlRenderbuffer => 1%nat | GlFramebuffer => 2%nat
       | GlVertexArray => 3%nat | GlBuffer => 4%nat
       end)
    (fun n => match n with
       | 0%nat => GlTexture | 1%nat => GlRenderbuffer | 2%nat => GlFramebuffer
       | 3%nat => GlVertexArray | _ => GlBuffer
       end) _).
  intros []; reflexivity.
Defined.

#[global] Instance Resource_eq_dec : EqDecision Resource.
Proof. solve_decision. Defined.

#[global] Instance Resource_countable : Countable Resource.
Proof.
  refine (inj_countable'
    (fun r => match r with
       | ResViewport h => inl h
       | ResGlObject o id => inr (o, id)
       end)
    (fun x => match x with
       | inl h => ResViewport h
       | inr (o, id) => ResGlObject o id
       end) _).
  intros []; reflexivity.
Defined.

(** The resource behind a handle or a name: [NULL] and the name [0] stand
    for none. *)
Definition viewport_of (h : ZCHandle) : gmultiset Resource :=
  if decide (h = NULL) then ∅ else {[+ ResViewport h +]}.

Definition object_of (o : GlObject) (id : GLuint) : gmultiset Resource :=
  if decide (id = 0) then ∅ else {[+ ResGlObject o id +]}.

(** The resources whose handles and names the globals of a mode hold. *)
Definition standard_resources (g : Globals) : gmultiset Resource :=
  let m := standardMode g in
  viewport_of (g_zViewStandardModeViewportHandle m)
  ⊎ object_of GlFramebuffer (g_zViewStandardModeGlFramebufferId m)
  ⊎ object_of GlTexture (g_zViewStandardModeColorGlTextureId m)
  ⊎ object_of GlRenderbuffer (g_zViewStandardModeDepthGlRenderbufferId m).

Definition augmented_reality_resources (g : Globals) : gmultiset Resource :=
  let m := augmentedRealityMode g in
  object_of GlVertexArray (g_zViewAugmentedRealityModeMaskVertexArrayId m)
  ⊎ object_of GlBuffer (g_zViewAugmentedRealityModeMaskVertexArrayBufferId m)
  ⊎ object_of GlVertexArray (g_zViewAugmentedRealityModeBackgroundVertexArrayId m)
  ⊎ object_of GlBuffer (g_zViewAugmentedRealityModeBackgroundVertexArrayBufferId m)
  ⊎ object_of GlFramebuffer (g_zViewAugmentedRealityModeMaskGlFramebufferId m)
  ⊎ object_of GlFramebuffer (g_zViewAugmentedRealityModeGlFramebufferId m)
  ⊎ object_of GlTexture (g_zViewAugmentedRealityModeColorGlTextureId m)
  ⊎ object_of GlRenderbuffer (g_zViewAugmentedRealityModeDepthStencilGlRenderbufferId m).

Definition held (g : Globals) : gmultiset Resource :=
  standard_resources g ⊎ augmented_reality_resources g.

(** The resources that the calls of a trace have created and not released
    since. *)
Definition live_step (acc : gmultiset Resource) (e : Event) : gmultiset Resource :=
  match e with
  | EvCreateViewport h => acc ⊎ viewport_of h
  | EvDestroyViewport h => acc ∖ viewport_of h
  | EvGlGen o id => acc ⊎ object_of o id
  | EvGlDelete o id => acc ∖ object_of o id
  | _ => acc
  end.

Definition live (trace : list Event) : gmultiset Resource := foldl live_step ∅ trace.

(** Nothing leaks: the resources that are live are those the globals
    hold. *)
Definition no_leak (s : State) : Prop := live (w_trace (world s)) = held (globals s).

(** A statement keeps that property. *)
Definition keeps_no_leak (s s' : State) : Prop := no_leak s -> no_leak s'.

(** The globals of a mode hold no resource. *)
Definition standard_released (g : Globals) : Prop :=
  let m := standardMode g in
  g_zViewStandardModeViewportHandle m = NULL /\
  g_zViewStandardModeGlFramebufferId m = 0 /\
  g_zViewStandardModeColorGlTextureId m = 0 /\
  g_zViewStandardModeDepthGlRenderbufferId m = 0.

Definition augmented_reality_released (g : Globals) : Prop :=
  let m := augmentedRealityMode g in
  g_zViewAugmentedRealityModeMaskVertexArrayId m = 0 /\
  g_zViewAugmentedRealityModeMaskVertexArrayBufferId m = 0 /\
  g_zViewAugmentedRealityModeBackgroundVertexArrayId m = 0 /\
  g_zViewAugmentedRealityModeBackgroundVertexArrayBufferId m = 0 /\
  g_zViewAugmentedRealityModeMaskGlFramebufferId m = 0 /\
  g_zViewAugmentedRealityModeGlFramebufferId m = 0 /\
  g_zViewAugmentedRealityModeColorGlTextureId m = 0 /\
  g_zViewAugmentedRealityModeDepthStencilGlRenderbufferId m = 0.

(** ** The window procedure and the keyboard commands

    [windowProc] and the handlers it calls that the session engine above
    does not need: [closeZviewConnectionAndExitViewer],
    [pauseResumeZviewMode], [switchZviewVideoRecordingQuality] and
    [processZviewVideoRecordingKeyPress]. *)

Definition closeZviewConnectionAndExitViewer (env : Env) : Fn :=
  active ← read g_zViewActiveConnection;
  (if decide (active = NULL) then return_ true else mret tt);;
  zvError ← zvCloseConnection env active
              ZV_CONNECTION_CLOSE_ACTION_EXIT_APPLICATION
              ZV_CONNECTION_CLOSE_REASON_USER_REQUESTED
              "User requested connection to close and viewer to exit";
  CHECK_ZV_ERROR zvError;;
  return_ true.

(** Modelled from the spec: the enumerators of [ZVVideoRecordingQuality];
    the header [zView.h] is not part of the sources, so that their values
    are not known. *)
Inductive ZVVideoRecordingQuality : Type :=
  | ZV_VIDEO_RECORDING_QUALITY_480P
  | ZV_VIDEO_RECORDING_QUALITY_720P
  | ZV_VIDEO_RECORDING_QUALITY_1080P.

#[global] Instance ZVVideoRecordingQuality_eq_dec : EqDecision ZVVideoRecordingQuality.
Proof. solve_decision. Defined.

(** The fallible calls that only the command handlers make. *)
Inductive WndCall : Type :=
  | ZvDoesConnectionSupportCapability (c : ZVConnection)
  | ZvGetSettingU32 (c : ZVConnection) (k : ZVSettingKey)
  | ZvSetSettingU32 (c : ZVConnection) (k : ZVSettingKey)
  | ZvPauseMode (c : ZVConnection)
  | ZvResumeMode (c : ZVConnection)
  | ZvStartVideoRecording (c : ZVConnection)
  | ZvPauseVideoRecording (c : ZVConnection)
  | ZvResumeVideoRecording (c : ZVConnection)
  | ZvFinishVideoRecording (c : ZVConnection)
  | ZvSaveVideoRecording (c : ZVConnection)
  | ZvDiscardVideoRecording (c : ZVConnection).

(** What the command handlers ask of the runtime and of the window system,
    and what they log. *)
Inductive Command : Type :=
  | CmdPrintLog (m : string)
  | CmdPrintLogVideoRecordingState (s : ZVVideoRecordingState)
  | CmdPostDestroyMessage
  | CmdConnectToDefaultViewer (context : ZVContext)
  | CmdPauseMode (c : ZVConnection)
  | CmdResumeMode (c : ZVConnection)
  | CmdStartVideoRecording (c : ZVConnection)
  | CmdPauseVideoRecording (c : ZVConnection)
  | CmdResumeVideoRecording (c : ZVConnection)
  | CmdFinishVideoRecording (c : ZVConnection)
  | CmdSaveVideoRecording (c : ZVConnection) (fileName : string)
  | CmdDiscardVideoRecording (c : ZVConnection).

(** What the libraries and the window system answer while one message is
    handled. *)
Record WndEnv : Type := {
  wnd_env : Env;
  wnd_zv_error : WndCall -> ZVError;
  env_isShiftKeyPressed : bool;
  env_isVideoRecordingCapabilitySupported : ZVConnection -> bool;
  env_videoRecordingQuality : ZVVideoRecordingQuality -> Z;   (* the enumerators' values *)
  env_moduleFilenameSize : Z;                                 (* GetModuleFileName *)
  env_modulePathNameSize : Z;                                 (* GetFullPathName *)
  env_fullModulePathName : string;
  env_fullModulePathNameFilePart : option nat;                (* offset; [None]: NULL *)
  env_clientRect : option (Z * Z * Z * Z);    (* GetClientRect: left, top, right, bottom *)
}.

(** The state of the program with the globals that only [windowProc]
    assigns and with the commands given so far, oldest first. *)
Record WndState : Type := {
  session : State;
  g_isCameraOrbitEnabled : bool;
  g_zViewAugmentedRealityModeShouldDrawBackground : bool;
  g_zViewAugmentedRealityModeShouldDrawMask : bool;
  commands : list Command;
}.

Definition with_session (s : State) (w : WndState) : WndState :=
  {| session := s;
     g_isCameraOrbitEnabled := g_isCameraOrbitEnabled w;
     g_zViewAugmentedRealityModeShouldDrawBackground :=
       g_zViewAugmentedRealityModeShouldDrawBackground w;
     g_zViewAugmentedRealityModeShouldDrawMask := g_zViewAugmentedRealityModeShouldDrawMask w;
     commands := commands w |}.

Inductive WndOutcome (A : Type) : Type :=
  | WndNext (a : A) (w : WndState)
  | WndReturn (b : bool) (w : WndState).
Arguments WndNext {A} a w.
Arguments WndReturn {A} b w.

(** The monad of the functions that give commands. *)
Definition W (A : Type) : Type := WndState -> WndOutcome A.

#[global] Instance W_ret : MRet W := fun A a w => WndNext a w.

#[global] Instance W_bind : MBind W := fun A B f m w =>
  match m w with
  | WndNext a w' => f a w'
  | WndReturn b w' => WndReturn b w'
  end.

(** A statement of the session engine. *)
Definition lift {A : Type} (m : M A) : W A := fun w =>
  match m (session w) with
  | Next a s => WndNext a (with_session s w)
  | Return b s => WndReturn b (with_session s w)
  end.

Definition WFn : Type := W Empty_set.

Definition wnd_call (f : WFn) : W bool := fun w =>
  match f w with
  | WndNext e _ => match e with end
  | WndReturn b w' => WndNext b w'
  end.

Definition wnd_run (f : WFn) (w : WndState) : bool * WndState :=
  match f w with
  | WndNext e _ => match e with end
  | WndReturn b w' => (b, w')
  end.

Definition command (c : Command) : W unit := fun w =>
  WndNext tt
    {| session := session w;
       g_isCameraOrbitEnabled := g_isCameraOrbitEnabled w;
       g_zViewAugmentedRealityModeShouldDrawBackground :=
         g_zViewAugmentedRealityModeShouldDrawBackground w;
       g_zViewAugmentedRealityModeShouldDrawMask :=
         g_zViewAugmentedRealityModeShouldDrawMask w;
       commands := commands w ++ [c] |}.

Definition wnd_printLog (m : string) : W unit := command (CmdPrintLog m).

(** A call of the runtime that only succeeds or fails, with the command
    of its success. *)
Definition wnd_zv_call (env : WndEnv) (c : WndCall) (effect : W unit) : W ZVError :=
  let error := wnd_zv_error env c in
  (if decide (error = ZV_ERROR_OK) then effect else mret tt);;
  mret error.

Definition zvPauseMode (env : WndEnv) (c : ZVConnection) : W ZVError :=
  wnd_zv_call env (ZvPauseMode c) (command (CmdPauseMode c)).

Definition zvResumeMode (env : WndEnv) (c : ZVConnection) : W ZVError :=
  wnd_zv_call env (ZvResumeMode c) (command (CmdResumeMode c)).

Definition zvStartVideoRecording (env : WndEnv) (c : ZVConnection) : W ZVError :=
  wnd_zv_call env (ZvStartVideoRecording c) (command (CmdStartVideoRecording c)).

Definition zvPauseVideoRecording (env : WndEnv) (c : ZVConnection) : W ZVError :=
  wnd_zv_call env (ZvPauseVideoRecording c) (command (CmdPauseVideoRecording c)).

Definition zvResumeVideoRecording (env : WndEnv) (c : ZVConnection) : W ZVError :=
  wnd_zv_call env (ZvResumeVideoRecording c) (command (CmdResumeVideoRecording c)).

Definition zvFinishVideoRecording (env : WndEnv) (c : ZVConnection) : W ZVError :=
  wnd_zv_call env (ZvFinishVideoRecording c) (command (CmdFinishVideoRecording c)).

Definition zvSaveVideoRecording (env : WndEnv) (c : ZVConnection) (fileName : string)
    : W ZVError :=
  wnd_zv_call env (ZvSaveVideoRecording c) (command (CmdSaveVideoRecording c fileName)).

Definition zvDiscardVideoRecording (env : WndEnv) (c : ZVConnection) : W ZVError :=
  wnd_zv_call env (ZvDiscardVideoRecording c) (command (CmdDiscardVideoRecording c)).

Definition zvDoesConnectionSupportCapability (env : WndEnv) (c : ZVConnection) (cur : bool)
    : W (ZVError * bool) :=
  let error := wnd_zv_error env (ZvDoesConnectionSupportCapability c) in
  if decide (error = ZV_ERROR_OK)
  then mret (error, env_isVideoRecordingCapabilitySupported env c)
  else mret (error, cur).

(** Modelled from the spec: the accessors of the settings store for
    32-bit values, as [zvGetSettingU16] and [zvSetSettingU16] above. *)
Definition zvGetSettingU32 (env : WndEnv) (c : ZVConnection) (k : ZVSettingKey) (cur : Z)
    : W (ZVError * Z) :=
  let error := wnd_zv_error env (ZvGetSettingU32 c k) in
  if decide (error = ZV_ERROR_OK) then
    w ← lift get_world;
    match st_values (w_settings w !!! c) !! k with
    | Some (SettingU32 v) => mret (error, v)
    | _ => mret (ZV_ERROR_FAILED, cur)
    end
  else mret (error, cur).

Definition zvSetSettingU32 (env : WndEnv) (c : ZVConnection) (k : ZVSettingKey) (v : Z)
    : W ZVError :=
  wnd_zv_call env (ZvSetSettingU32 c k) (lift (write_setting c k (SettingU32 v))).

(** [return b;] *)
Definition wnd_return {A : Type} (b : bool) : W A := fun w => WndReturn b w.

Definition switchZviewVideoRecordingQuality (env : WndEnv) : WFn :=
  let quality := env_videoRecordingQuality env in
  active ← lift (read g_zViewActiveConnection);
  (if decide (active = NULL) then wnd_return true else mret tt);;
  '(error, isVideoRecordingCapabilitySupported) ←
    zvDoesConnectionSupportCapability env active false;
  lift (CHECK_ZV_ERROR error);;
  (if negb isVideoRecordingCapabilitySupported then wnd_return true else mret tt);;
  '(error, curVideoRecordingQualityU32) ←
    zvGetSettingU32 env active ZV_SETTING_KEY_VIDEO_RECORDING_QUALITY
      (quality ZV_VIDEO_RECORDING_QUALITY_480P);
  lift (CHECK_ZV_ERROR error);;
  newVideoRecordingQuality ←
    (if decide (curVideoRecordingQualityU32 = quality ZV_VIDEO_RECORDING_QUALITY_480P) then
       wnd_printLog "Switching video recording quality from 480p to 720p...";;
       mret ZV_VIDEO_RECORDING_QUALITY_720P
     else if decide (curVideoRecordingQualityU32 = quality ZV_VIDEO_RECORDING_QUALITY_720P) then
       wnd_printLog "Switching video recording quality from 720p to 1080p...";;
       mret ZV_VIDEO_RECORDING_QUALITY_1080P
     else if decide (curVideoRecordingQualityU32 = quality ZV_VIDEO_RECORDING_QUALITY_1080P) then
       wnd_printLog "Switching video recording quality from 1080p to 480p...";;
       mret ZV_VIDEO_RECORDING_QUALITY_480P
     else
       wnd_printLog ("Current video recording quality unknown; leaving video recording "
                     ++ "quality unchanged");;
       wnd_return true);
  error ← zvSetSettingU32 env active ZV_SETTING_KEY_VIDEO_RECORDING_QUALITY
            (quality newVideoRecordingQuality);
  lift (CHECK_ZV_ERROR error);;
  wnd_return true.

Definition pauseResumeZviewMode (env : WndEnv) : WFn :=
  active ← lift (read g_zViewActiveConnection);
  (if decide (active = NULL) then wnd_return true else mret tt);;
  '(zvError, state) ←
    lift (zvGetConnectionState (wnd_env env) active ZV_CONNECTION_STATE_ERROR);
  lift (CHECK_ZV_ERROR zvError);;
  (if decide (state = ZV_CONNECTION_STATE_MODE_ACTIVE) then
     zvError ← zvPauseMode env active;
     lift (CHECK_ZV_ERROR zvError)
   else if decide (state = ZV_CONNECTION_STATE_MODE_PAUSED) then
     zvError ← zvResumeMode env active;
     lift (CHECK_ZV_ERROR zvError)
   else mret tt);;
  wnd_return true.

Definition ZVIEW_VIDEO_RECORDING_SAVE_NAME : string :=
  "BasicPresenterSampleVideoRecordingSave.mp4".

Definition MODULE_FILENAME_BUF_SIZE : Z := 1024.

Definition processZviewVideoRecordingKeyPress (env : WndEnv) (key : Z) : WFn :=
  wnd_printLog "Processing video recording key press...";;
  active ← lift (read g_zViewActiveConnection);
  (if decide (active = NULL) then wnd_return true else mret tt);;
  '(error, videoRecordingState) ←
    lift (zvGetVideoRecordingState (wnd_env env) active
            ZV_VIDEO_RECORDING_STATE_NOT_AVAILABLE);
  lift (CHECK_ZV_ERROR error);;
  command (CmdPrintLogVideoRecordingState videoRecordingState);;
  (if decide (videoRecordingState = ZV_VIDEO_RECORDING_STATE_NOT_AVAILABLE)
   then wnd_return true else mret tt);;
  (if negb (env_isShiftKeyPressed env) then wnd_return true else mret tt);;
  (if decide (key = VK "Q") then
     if decide (videoRecordingState = ZV_VIDEO_RECORDING_STATE_NOT_RECORDING) then
       ok ← wnd_call (switchZviewVideoRecordingQuality env);
       if negb ok then wnd_return false else mret tt
     else mret tt
   else if decide (key = VK "R") then
     if decide (videoRecordingState = ZV_VIDEO_RECORDING_STATE_NOT_RECORDING) then
       wnd_printLog "Starting video recording...";;
       error ← zvStartVideoRecording env active;
       lift (CHECK_ZV_ERROR error)
     else mret tt
   else if decide (key = VK "P") then
     if decide (videoRecordingState = ZV_VIDEO_RECORDING_STATE_RECORDING) then
       wnd_printLog "Pausing video recording...";;
       error ← zvPauseVideoRecording env active;
       lift (CHECK_ZV_ERROR error)
     else if decide (videoRecordingState = ZV_VIDEO_RECORDING_STATE_PAUSED) then
       wnd_printLog "Resuming video recording...";;
       error ← zvResumeVideoRecording env active;
       lift (CHECK_ZV_ERROR error)
     else mret tt
   else if decide (key = VK "F") then
     if decide (videoRecordingState = ZV_VIDEO_RECORDING_STATE_RECORDING ∨
                videoRecordingState = ZV_VIDEO_RECORDING_STATE_PAUSED) then
       wnd_printLog "Finishing video recording...";;
       error ← zvFinishVideoRecording env active;
       lift (CHECK_ZV_ERROR error)
     else mret tt
   else if decide (key = VK "S") then
     if decide (videoRecordingState = ZV_VIDEO_RECORDING_STATE_FINISHED) then
       wnd_printLog "Saving video recording...";;
       (if decide (env_moduleFilenameSize env = MODULE_FILENAME_BUF_SIZE) then
          wnd_printLog "Module filename too large";;
          wnd_return false
        else mret tt);;
       (if decide (MODULE_FILENAME_BUF_SIZE <= env_modulePathNameSize env) then
          wnd_printLog "Module path name too large";;
          wnd_return false
        else mret tt);;
       match env_fullModulePathNameFilePart env with
       | None =>
           wnd_printLog "Module path name does not contain file part";;
           wnd_return false
       | Some fullModulePathNameFilePart =>
           let fullModuleDirPath :=
             substring 0 fullModulePathNameFilePart (env_fullModulePathName env) in
           let saveFilePath :=
             (fullModuleDirPath ++ ZVIEW_VIDEO_RECORDING_SAVE_NAME)%string in
           error ← zvSaveVideoRecording env active saveFilePath;
           lift (CHECK_ZV_ERROR error)
       end
     else mret tt
   else if decide (key = VK "D") then
     if decide (videoRecordingState = ZV_VIDEO_RECORDING_STATE_FINISHED) then
       wnd_printLog "Discarding video recording...";;
       error ← zvDiscardVideoRecording env active;
       lift (CHECK_ZV_ERROR error)
     else mret tt
   else mret tt);;
  wnd_return true.

(** *** [windowProc] *)

Definition VK_ESCAPE : Z := 27.
Definition VK_SPACE : Z := 32.

(** The messages of [windowProc] that reach the session engine;
    [WM_CLOSE] and [WM_DESTROY] end the program. *)
Inductive Message : Type :=
  | WM_SIZE
  | WM_MOVE (x y : Z)          (* the position in [lParam] *)
  | WM_KEYDOWN (wParam : Z).

(** Assignments to the position and the size of the window. *)

Definition set_g_windowX (v : Z) (g : Globals) : Globals :=
  {| g_zSpaceContext := g_zSpaceContext g;
     g_windowX := v;
     g_windowY := g_windowY g;
     g_windowWidth := g_windowWidth g;
     g_windowHeight := g_windowHeight g;
     g_zViewContext := g_zViewContext g;
     g_zViewActiveConnection := g_zViewActiveConnection g;
     g_zViewStandardMode := g_zViewStandardMode g;
     g_zViewAugmentedRealityMode := g_zViewAugmentedRealityMode g;
     g_zViewLatestActiveConnectionMode := g_zViewLatestActiveConnectionMode g;
     g_zViewCurrentConnectionModeIndex := g_zViewCurrentConnectionModeIndex g;
     g_zViewVideoRecordingLatestState := g_zViewVideoRecordingLatestState g;
     standardMode := standardMode g;
     augmentedRealityMode := augmentedRealityMode g |}.

Definition set_g_windowY (v : Z) (g : Globals) : Globals :=
  {| g_zSpaceContext := g_zSpaceContext g;
     g_windowX := g_windowX g;
     g_windowY := v;
     g_windowWidth := g_windowWidth g;
     g_windowHeight := g_windowHeight g;
     g_zViewContext := g_zViewContext g;
     g_zViewActiveConnection := g_zViewActiveConnection g;
     g_zViewStandardMode := g_zViewStandardMode g;
     g_zViewAugmentedRealityMode := g_zViewAugmentedRealityMode g;
     g_zViewLatestActiveConnectionMode := g_zViewLatestActiveConnectionMode g;
     g_zViewCurrentConnectionModeIndex := g_zViewCurrentConnectionModeIndex g;
     g_zViewVideoRecordingLatestState := g_zViewVideoRecordingLatestState g;
     standardMode := standardMode g;
     augmentedRealityMode := augmentedRealityMode g |}.

Definition set_g_windowWidth (v : Z) (g : Globals) : Globals :=
  {| g_zSpaceContext := g_zSpaceContext g;
     g_windowX := g_windowX g;
     g_windowY := g_windowY g;
     g_windowWidth := v;
     g_windowHeight := g_windowHeight g;
     g_zViewContext := g_zViewContext g;
     g_zViewActiveConnection := g_zViewActiveConnection g;
     g_zViewStandardMode := g_zViewStandardMode g;
     g_zViewAugmentedRealityMode := g_zViewAugmentedRealityMode g;
     g_zViewLatestActiveConnectionMode := g_zViewLatestActiveConnectionMode g;
     g_zViewCurrentConnectionModeIndex := g_zViewCurrentConnectionModeIndex g;
     g_zViewVideoRecordingLatestState := g_zViewVideoRecordingLatestState g;
     standardMode := standardMode g;
     augmentedRealityMode := augmentedRealityMode g |}.

Definition set_g_windowHeight (v : Z) (g : Globals) : Globals :=
  {| g_zSpaceContext := g_zSpaceContext g;
     g_windowX := g_windowX g;
     g_windowY := g_windowY g;
     g_windowWidth := g_windowWidth g;
     g_windowHeight := v;
     g_zViewContext := g_zViewContext g;
     g_zViewActiveConnection := g_zViewActiveConnection g;
     g_zViewStandardMode := g_zViewStandardMode g;
     g_zViewAugmentedRealityMode := g_zViewAugmentedRealityMode g;
     g_zViewLatestActiveConnectionMode := g_zViewLatestActiveConnectionMode g;
     g_zViewCurrentConnectionModeIndex := g_zViewCurrentConnectionModeIndex g;
     g_zViewVideoRecordingLatestState := g_zViewVideoRecordingLatestState g;
     standardMode := standardMode g;
     augmentedRealityMode := augmentedRealityMode g |}.

(** [if (GetClientRect(hWnd, &rect)) { g_windowWidth = ...; g_windowHeight = ...; }] *)
Definition getClientRect (env : WndEnv) : W unit :=
  match env_clientRect env with
  | Some (rectLeft, rectTop, rectRight, rectBottom) =>
      lift (assign (set_g_windowWidth (rectRight - rectLeft)));;
      lift (assign (set_g_windowHeight (rectBottom - rectTop)))
  | None => mret tt
  end.

Definition toggle_isCameraOrbitEnabled : W unit := fun w =>
  WndNext tt
    {| session := session w;
       g_isCameraOrbitEnabled := negb (g_isCameraOrbitEnabled w);
       g_zViewAugmentedRealityModeShouldDrawBackground :=
         g_zViewAugmentedRealityModeShouldDrawBackground w;
       g_zViewAugmentedRealityModeShouldDrawMask :=
         g_zViewAugmentedRealityModeShouldDrawMask w;
       commands := commands w |}.

Definition toggle_zViewAugmentedRealityModeShouldDrawBackground : W unit := fun w =>
  WndNext tt
    {| session := session w;
       g_isCameraOrbitEnabled := g_isCameraOrbitEnabled w;
       g_zViewAugmentedRealityModeShouldDrawBackground :=
         negb (g_zViewAugmentedRealityModeShouldDrawBackground w);
       g_zViewAugmentedRealityModeShouldDrawMask :=
         g_zViewAugmentedRealityModeShouldDrawMask w;
       commands := commands w |}.

Definition toggle_zViewAugmentedRealityModeShouldDrawMask : W unit := fun w =>
  WndNext tt
    {| session := session w;
       g_isCameraOrbitEnabled := g_isCameraOrbitEnabled w;
       g_zViewAugmentedRealityModeShouldDrawBackground :=
         g_zViewAugmentedRealityModeShouldDrawBackground w;
       g_zViewAugmentedRealityModeShouldDrawMask :=
         negb (g_zViewAugmentedRealityModeShouldDrawMask w);
       commands := commands w |}.

(** The [WM_KEYDOWN] case of [windowProc]; the results of the handlers
    are not looked at. *)
Definition keyDown (env : WndEnv) (wParam : Z) : W unit :=
  let isControlKeyPressed := env_isControlKeyPressed (wnd_env env) in
  let isShiftKeyPressed := env_isShiftKeyPressed env in
  let overlay :=
    _ ← lift (call (processZviewAugmentedRealityModeOverlayControlKeyPress
                      (wnd_env env) wParam));
    mret tt in
  let videoRecording :=
    _ ← wnd_call (processZviewVideoRecordingKeyPress env wParam);
    mret tt in
  let overlayOnControl : W unit :=
    if isControlKeyPressed then overlay else mret tt in
  let videoRecordingOnShift : W unit :=
    if isShiftKeyPressed then videoRecording
    else if isControlKeyPressed then overlay
    else mret tt in
  if decide (wParam = VK_ESCAPE) then command CmdPostDestroyMessage
  else if decide (wParam = VK_SPACE) then toggle_isCameraOrbitEnabled
  else if decide (wParam = VK "A") then overlayOnControl
  else if decide (wParam = VK "B") then toggle_zViewAugmentedRealityModeShouldDrawBackground
  else if decide (wParam = VK "C") then
    active ← lift (read g_zViewActiveConnection);
    if decide (active = NULL) then
      wnd_printLog "Connecting to default viewer...";;
      context ← lift (read g_zViewContext);
      command (CmdConnectToDefaultViewer context)
    else mret tt
  else if decide (wParam = VK "D") then videoRecordingOnShift
  else if decide (wParam = VK "E") then
    if isControlKeyPressed then overlay
    else _ ← lift (call (closeZviewConnectionAndExitViewer (wnd_env env))); mret tt
  else if decide (wParam = VK "F") then videoRecordingOnShift
  else if decide (wParam = VK "G") then overlayOnControl
  else if decide (wParam = VK "H") then overlayOnControl
  else if decide (wParam = VK "M") then
    _ ← lift (call (switchZviewMode (wnd_env env))); mret tt
  else if decide (wParam = VK "P") then
    if isShiftKeyPressed then videoRecording
    else _ ← wnd_call (pauseResumeZviewMode env); mret tt
  else if decide (wParam = VK "Q") then videoRecordingOnShift
  else if decide (wParam = VK "R") then videoRecordingOnShift
  else if decide (wParam = VK "S") then videoRecordingOnShift
  else if decide (wParam = VK "T") then overlayOnControl
  else if decide (wParam = VK "V") then toggle_zViewAugmentedRealityModeShouldDrawMask
  else if decide (wParam = VK "W") then overlayOnControl
  else if decide (wParam = VK "Y") then overlayOnControl
  else mret tt.

(** [windowProc]: the scene functions [update] and [draw] that the
    [WM_SIZE] and [WM_MOVE] cases call do not touch the session engine. *)
Definition windowProc (env : WndEnv) (message : Message) : W unit :=
  match message with
  | WM_SIZE => getClientRect env
  | WM_MOVE x y =>
      getClientRect env;;
      lift (assign (set_g_windowX x));;
      lift (assign (set_g_windowY y))
  | WM_KEYDOWN wParam => keyDown env wParam
  end.

(** The state a statement leaves, however it ends. *)
Definition wnd_exec {A : Type} (m : W A) (w : WndState) : WndState :=
  match m w with
  | WndNext _ w' => w'
  | WndReturn _ w' => w'
  end.

(** What happens in the main loop of [WinMain], one after the other: a
    message is dispatched to [windowProc], [updateZview] is called,
    [drawZview] is called. *)
Inductive Step : Type :=
  | DispatchMessage (env : WndEnv) (message : Message)
  | UpdateZview (env : Env)
  | DrawZview (env : Env).

Definition step (w : WndState) (st : Step) : WndState :=
  match st with
  | DispatchMessage env message => wnd_exec (windowProc env message) w
  | UpdateZview env => with_session (run (updateZview env) (session w)).2 w
  | DrawZview env => with_session (run (drawZview env) (session w)).2 w
  end.

Definition steps (sts : list Step) (w : WndState) : WndState := foldl step w sts.

(** *** Vocabulary for the commands *)

(** The commands a statement adds when run from [w]. *)
Definition commands_of {A : Type} (m : W A) (w : WndState) : list Command :=
  drop (length (commands w)) (commands (wnd_exec m w)).

(** A relation between the states of the session engine, on the states
    of the window procedure. *)
Definition on_session (P : State -> State -> Prop) (w w' : WndState) : Prop :=
  P (session w) (session w').

(** The commands only grow, by commands that satisfy [φ]. *)
Definition issues (φ : Command -> Prop) (w w' : WndState) : Prop :=
  exists cmds, commands w' = commands w ++ cmds /\ Forall φ cmds.

(** The globals of the session engine that no window message changes:
    all but the position and size of the window and the mode index. *)
Definition engine_globals (g : Globals) :=
  (g_zViewContext g, g_zViewActiveConnection g, g_zViewStandardMode g,
   g_zViewAugmentedRealityMode g, g_zViewLatestActiveConnectionMode g,
   g_zViewVideoRecordingLatestState g, standardMode g, augmentedRealityMode g).

(** What a window message can make the program say to the libraries:
    queries of the connection and video-recording states, settings, a
    request for another mode, and the request to close the connection and
    exit the viewer. *)
Definition message_event (e : Event) : Prop :=
  match e with
  | EvConnectionState _ _ | EvVideoRecordingState _ _ | EvSettingsSent _ _
  | EvSetConnectionMode _ _ | EvPrintLog LogSwitchingModes
  | EvCloseConnection _ ZV_CONNECTION_CLOSE_ACTION_EXIT_APPLICATION
      ZV_CONNECTION_CLOSE_REASON_USER_REQUESTED _ => True
  | _ => False
  end.

(** The condition under which the [WM_KEYDOWN] case of [windowProc] for
    the key [key] gives the command [cmd]. *)
Definition justified (env : WndEnv) (w : WndState) (key : Z) (cmd : Command) : Prop :=
  let g := globals (session w) in
  let active := g_zViewActiveConnection g in
  let state := env_connectionState (wnd_env env) active in
  let recording := env_videoRecordingState (wnd_env env) active in
  let shift := env_isShiftKeyPressed env in
  match cmd with
  | CmdPrintLog _ | CmdPrintLogVideoRecordingState _ => True
  | CmdPostDestroyMessage => key = VK_ESCAPE
  | CmdConnectToDefaultViewer context =>
      key = VK "C" /\ active = NULL /\ context = g_zViewContext g
  | CmdPauseMode c =>
      key = VK "P" /\ shift = false /\ c = active /\ c ≠ NULL /\
      state = ZV_CONNECTION_STATE_MODE_ACTIVE
  | CmdResumeMode c =>
      key = VK "P" /\ shift = false /\ c = active /\ c ≠ NULL /\
      state = ZV_CONNECTION_STATE_MODE_PAUSED
  | CmdStartVideoRecording c =>
      key = VK "R" /\ shift = true /\ c = active /\ c ≠ NULL /\
      recording = ZV_VIDEO_RECORDING_STATE_NOT_RECORDING
  | CmdPauseVideoRecording c =>
      key = VK "P" /\ shift = true /\ c = active /\ c ≠ NULL /\
      recording = ZV_VIDEO_RECORDING_STATE_RECORDING
  | CmdResumeVideoRecording c =>
      key = VK "P" /\ shift = true /\ c = active /\ c ≠ NULL /\
      recording = ZV_VIDEO_RECORDING_STATE_PAUSED
  | CmdFinishVideoRecording c =>
      key = VK "F" /\ shift = true /\ c = active /\ c ≠ NULL /\
      (recording = ZV_VIDEO_RECORDING_STATE_RECORDING \/
       recording = ZV_VIDEO_RECORDING_STATE_PAUSED)
  | CmdSaveVideoRecording c fileName =>
      key = VK "S" /\ shift = true /\ c = active /\ c ≠ NULL /\
      recording = ZV_VIDEO_RECORDING_STATE_FINISHED /\
      exists filePart, env_fullModulePathNameFilePart env = Some filePart /\
        fileName = (substring 0 filePart (env_fullModulePathName env)
                    ++ ZVIEW_VIDEO_RECORDING_SAVE_NAME)%string
  | CmdDiscardVideoRecording c =>
      key = VK "D" /\ shift = true /\ c = active /\ c ≠ NULL /\
      recording = ZV_VIDEO_RECORDING_STATE_FINISHED
  end.

(** The commands that ask something of the zView runtime. *)
Definition runtime_command (cmd : Command) : bool :=
  match cmd with
  | CmdPrintLog _ | CmdPrintLogVideoRecordingState _ | CmdPostDestroyMessage => false
  | _ => true
  end.

Definition runtime_commands (cmds : list Command) : list Command :=
  List.filter runtime_command cmds.

(** *** The video-recording quality *)

(** The next quality, going round. *)
Definition next_quality (q : ZVVideoRecordingQuality) : ZVVideoRecordingQuality :=
  match q with
  | ZV_VIDEO_RECORDING_QUALITY_480P => ZV_VIDEO_RECORDING_QUALITY_720P
  | ZV_VIDEO_RECORDING_QUALITY_720P => ZV_VIDEO_RECORDING_QUALITY_1080P
  | ZV_VIDEO_RECORDING_QUALITY_1080P => ZV_VIDEO_RECORDING_QUALITY_480P
  end.

(** [switchZviewVideoRecordingQuality] has an active connection that
    supports video recording, the runtime answers, and the enumerators
    of the quality have different values. *)
Definition quality_ready (env : WndEnv) (w : WndState) : Prop :=
  let active := g_zViewActiveConnection (globals (session w)) in
  active ≠ NULL /\
  (forall call, wnd_zv_error env call = ZV_ERROR_OK) /\
  env_isVideoRecordingCapabilitySupported env active = true /\
  (forall q1 q2, env_videoRecordingQuality env q1 = env_videoRecordingQuality env q2 ->
     q1 = q2).

(** The quality command given once. *)
Definition switchZviewVideoRecordingQuality_press (env : WndEnv) (w : WndState) : WndState :=
  (wnd_run (switchZviewVideoRecordingQuality env) w).2.

(** *** Vocabulary for the command handlers *)

(** The weakest precondition of a statement of a command handler, with
    one postcondition for each way it ends. *)
Definition wnd_wp {A : Type} (m : W A) (w : WndState)
    (Q : A -> WndState -> Prop) (R : bool -> WndState -> Prop) : Prop :=
  match m w with
  | WndNext a w' => Q a w'
  | WndReturn b w' => R b w'
  end.

(** A command handler keeps a relation between the states before and
    after it, however it ends. *)
Definition wnd_preserves {A : Type} (P : WndState -> WndState -> Prop) (m : W A) : Prop :=
  forall w, wnd_wp m w (fun _ w' => P w w') (fun _ w' => P w w').

(** A window message makes the session engine say only what
    [message_event] allows and keeps the [engine_globals]. *)
Definition keeps_engine (s s' : State) : Prop :=
  emits message_event s s' /\ keeps engine_globals s s'.

(** The commands that only print. *)
Definition is_log (cmd : Command) : Prop :=
  match cmd with CmdPrintLog _ | CmdPrintLogVideoRecordingState _ => True | _ => False end.

(** The connection is ready for the quality key and stores the quality
    [q]. *)
Definition quality_is (env : WndEnv) (w : WndState) (q : ZVVideoRecordingQuality) : Prop :=
  quality_ready env w /\
  setting (session w) (g_zViewActiveConnection (globals (session w)))
    ZV_SETTING_KEY_VIDEO_RECORDING_QUALITY =
    Some (SettingU32 (env_videoRecordingQuality env q)).

(** The globals of the mode [m] hold no resource. *)
Definition mode_released (m : ZVMode) (g : Globals) : Prop :=
  (m = g_zViewStandardMode g -> standard_released g) /\
  (m ≠ g_zViewStandardMode g -> m = g_zViewAugmentedRealityMode g ->
   augmented_reality_released g).

(** The connection an event is about, if it is about one. *)
Definition event_connection (e : Event) : option ZVConnection :=
  match e with
  | EvConnectionState c _ | EvAcceptConnection c | EvCloseConnection c _ _ _
  | EvDestroyConnection c | EvVideoRecordingState c _ | EvClearVideoRecordingError c
  | EvCompleteModeSetupPhase c _ | EvSetConnectionMode c _ | EvSettingsSent c _ => Some c
  | _ => None
  end.

(** An event about one of the connections [cs], or about none. *)
Definition about (cs : list ZVConnection) (e : Event) : Prop :=
  forall c, event_connection e = Some c -> c ∈ cs.

(** The runtime answers the calls with which [updateZview] goes through
    its list of connections. *)
Definition connection_list_ready (env : Env) : Prop :=
  zv_error env ZvUpdateConnectionList = ZV_ERROR_OK /\
  zv_error env ZvGetNumConnections = ZV_ERROR_OK /\
  forall i, zv_error env (ZvGetConnection i) = ZV_ERROR_OK.

(** The framebuffers of the mode [m] are complete. *)
Definition framebuffers_complete (env : Env) (m : ZVMode) (g : Globals) : Prop :=
  (m = g_zViewStandardMode g ->
   env_framebufferComplete env (g_zViewStandardModeGlFramebufferId (standardMode g)) = true) /\
  (m ≠ g_zViewStandardMode g -> m = g_zViewAugmentedRealityMode g ->
   env_framebufferComplete env
     (g_zViewAugmentedRealityModeMaskGlFramebufferId (augmentedRealityMode g)) = true /\
   env_framebufferComplete env
     (g_zViewAugmentedRealityModeGlFramebufferId (augmentedRealityMode g)) = true).

Definition not_completion (e : Event) : Prop :=
  match e with EvCompleteModeSetupPhase _ _ => False | _ => True end.

(** *** More overlay keys *)

(** The keys that scale the overlay, each with the setting it adjusts and
    its step: horizontally [F] and [H], vertically [G] and [T]. *)
Definition overlay_scale_keys : list (ascii * ZVSettingKey * ZSFloat) :=
  [ ("F"%char, ZV_SETTING_KEY_OVERLAY_SCALE_X, F32.minus_hundredth);
    ("H"%char, ZV_SETTING_KEY_OVERLAY_SCALE_X, F32.hundredth);
    ("G"%char, ZV_SETTING_KEY_OVERLAY_SCALE_Y, F32.minus_hundredth);
    ("T"%char, ZV_SETTING_KEY_OVERLAY_SCALE_Y, F32.hundredth) ].

(** The keys that reset a setting of the overlay, each with the setting
    and the value it gets. *)
Definition overlay_reset_keys : list (ascii * ZVSettingKey * ZSFloat) :=
  [ ("Q"%char, ZV_SETTING_KEY_OVERLAY_OFFSET_X, F32.zero);
    ("E"%char, ZV_SETTING_KEY_OVERLAY_OFFSET_Y, F32.zero);
    ("R"%char, ZV_SETTING_KEY_OVERLAY_SCALE_X, F32.one);
    ("Y"%char, ZV_SETTING_KEY_OVERLAY_SCALE_Y, F32.one) ].

Definition overlay_keys : list (ascii * ZVSettingKey * ZSFloat) :=
  overlay_offset_keys ++ overlay_scale_keys ++ overlay_reset_keys.

(** *** Switching modes again and again *)

(** The switch-mode command given once for every environment of the
    list. *)
Fixpoint switchZviewMode_presses (envs : list Env) (s : State) : State :=
  match envs with
  | [] => s
  | env :: envs => switchZviewMode_presses envs (run (switchZviewMode env) s).2
  end.

(** The modes the program asked the runtime for, in order. *)
Definition requested_mode (e : Event) : option ZVMode :=
  match e with EvSetConnectionMode _ m => Some m | _ => None end.

Definition requested_modes (evs : list Event) : list ZVMode := omap requested_mode evs.

(** The modes at the [k] indices that follow [last], going round. *)
Fixpoint modes_after (modes : list ZVSupportedMode) (last : Z) (k : nat) : list ZVMode :=
  match k with
  | O => []
  | S k =>
      let i := after last (Z.of_nat (length modes)) 1 in
      match modes !! Z.to_nat i with
      | Some m => mode m :: modes_after modes i k
      | None => []
      end
  end.

(** *** More example inputs *)

(** The same answers, but with other error codes of the zView runtime or
    of the zSpace Core API. *)
Definition with_errors (zv : ZvCall -> ZVError) (zc : ZcCall -> ZCError) (env : Env) : Env := {|
  zv_error := zv;
  zc_error := zc;
  env_connections := env_connections env;
  env_connectionState := env_connectionState env;
  env_connectionMode := env_connectionMode env;
  env_modeSetupPhase := env_modeSetupPhase env;
  env_isAwaitingCompletion := env_isAwaitingCompletion env;
  env_supportedModes := env_supportedModes env;
  env_videoRecordingState := env_videoRecordingState env;
  env_videoRecordingError := env_videoRecordingError env;
  env_nextFrameToSend := env_nextFrameToSend env;
  env_receivedFrame := env_receivedFrame env;
  env_receivedFrameNumber := env_receivedFrameNumber env;
  env_newViewport := env_newViewport env;
  env_newFrustum := env_newFrustum env;
  env_glGen := env_glGen env;
  env_framebufferComplete := env_framebufferComplete env;
  env_isControlKeyPressed := env_isControlKeyPressed env;
|}.

(** The zSpace Core API refuses to destroy a viewport. *)
Definition env_viewport_stuck : Env :=
  with_errors (fun _ => ZV_ERROR_OK) (fun _ => 1) env_standard_active.

(** The update of connection [12] fails. *)
Definition env_second_update_fails : Env :=
  with_errors
    (fun call =>
       match call with
       | ZvUpdateConnection c => if decide (c = 12) then ZV_ERROR_FAILED else ZV_ERROR_OK
       | _ => ZV_ERROR_OK
       end)
    (fun _ => ZC_ERROR_OK) env_standard_active.

(** The runtime reports the connections closed. *)
Definition env_closed : Env :=
  example_env ZV_CONNECTION_STATE_CLOSED 100 ZV_MODE_SETUP_PHASE_COMPLETION
    ZV_VIDEO_RECORDING_STATE_NOT_RECORDING.

(** Connection [11] accepted, then standard mode through its first set-up
    phase. *)
Definition example_standard_initialized : State :=
  (run (updateZviewConnection (env_standard_setup ZV_MODE_SETUP_PHASE_INITIALIZATION) 11)
     example_connected).2.

(** What the window procedure finds around the session environment [env]:
    every call succeeds, the connection supports video recording, the
    executable is [C:\zSpace\BasicPresenterSample.exe] and the client area
    is 800 by 600. *)
Definition example_wnd_env (env : Env) (shift : bool) : WndEnv := {|
  wnd_env := env;
  wnd_zv_error := fun _ => ZV_ERROR_OK;
  env_isShiftKeyPressed := shift;
  env_isVideoRecordingCapabilitySupported := fun _ => true;
  env_videoRecordingQuality := fun q =>
    match q with
    | ZV_VIDEO_RECORDING_QUALITY_480P => 0
    | ZV_VIDEO_RECORDING_QUALITY_720P => 1
    | ZV_VIDEO_RECORDING_QUALITY_1080P => 2
    end;
  env_moduleFilenameSize := 34;
  env_modulePathNameSize := 34;
  env_fullModulePathName := "C:\zSpace\BasicPresenterSample.exe";
  env_fullModulePathNameFilePart := Some 10%nat;
  env_clientRect := Some (0, 0, 800, 600);
|}.

(** The window procedure's globals as the program initializes them. *)
Definition example_window (s : State) : WndState := {|
  session := s;
  g_isCameraOrbitEnabled := true;
  g_zViewAugmentedRealityModeShouldDrawBackground := true;
  g_zViewAugmentedRealityModeShouldDrawMask := false;
  commands := [];
|}.

(** A session from the first connection to its end: the connection is
    accepted, standard mode is set up and draws a frame, the user resizes
    the window, switches to augmented reality mode, which is set up and
    draws a frame, and the viewer closes the connection. *)
Definition example_session : list Step :=
  [ UpdateZview env_awaiting;
    UpdateZview (env_standard_setup ZV_MODE_SETUP_PHASE_INITIALIZATION);
    UpdateZview (env_standard_setup ZV_MODE_SETUP_PHASE_COMPLETION);
    DrawZview env_standard_active;
    DispatchMessage (example_wnd_env env_standard_active false) WM_SIZE;
    DrawZview env_standard_active;
    DispatchMessage (example_wnd_env env_standard_active false) (WM_KEYDOWN (VK "M"));
    UpdateZview (env_augmented_setup ZV_MODE_SETUP_PHASE_INITIALIZATION);
    UpdateZview (env_augmented_setup ZV_MODE_SETUP_PHASE_COMPLETION);
    DrawZview env_augmented_active ].

(** * Proofs *)

(** ** Rules of the weakest precondition *)

Section WpRules.
Context {A B : Type}.
Implicit Types (s : State) (R : bool -> State -> Prop).

Lemma wp_bind (m : M A) (f : A -> M B) s (Q : B -> State -> Prop) R :
  wp m s (fun a s' => wp (f a) s' Q R) R -> wp (m ≫= f) s Q R.
Proof. unfold wp, mbind, M_bind. destruct (m s); auto. Qed.

Lemma wp_mono (m : M A) s (Q Q' : A -> State -> Prop) R R' :
  wp m s Q R -> (forall a s', Q a s' -> Q' a s') -> (forall b s', R b s' -> R' b s') ->
  wp m s Q' R'.
Proof. unfold wp. destruct (m s); auto. Qed.

Lemma wp_mret (a : A) s (Q : A -> State -> Prop) R : Q a s -> wp (mret a) s Q R.
Proof. auto. Qed.

Lemma wp_return (b : bool) s (Q : A -> State -> Prop) R : R b s -> wp (return_ b) s Q R.
Proof. auto. Qed.

Lemma wp_read (var : Globals -> A) s (Q : A -> State -> Prop) R :
  Q (var (globals s)) s -> wp (read var) s Q R.
Proof. auto. Qed.
End WpRules.

Lemma wp_call (f : Fn) s (Q : bool -> State -> Prop) R :
  Q (run f s).1 (run f s).2 -> wp (call f) s Q R.
Proof. unfold wp, call, run. destruct (f s) as [[]|]; auto. Qed.

Lemma wp_run (f : Fn) s (R : bool -> State -> Prop) :
  wp f s (fun _ _ => False) R <-> R (run f s).1 (run f s).2.
Proof. unfold wp, run. destruct (f s) as [[]|]; simpl; tauto. Qed.

Lemma preserves_run (P : State -> State -> Prop) (f : Fn) s :
  preserves P f -> P s (run f s).2.
Proof. intros H. specialize (H s). unfold wp, run in *. destruct (f s) as [[]|]; auto. Qed.

(** ** Rules for relations that statements keep *)

Section PreservesRules.
Context (P : State -> State -> Prop) `{!PreOrder P}.

Lemma preserves_bind {A B : Type} (m : M A) (f : A -> M B) :
  preserves P m -> (forall a, preserves P (f a)) -> preserves P (m ≫= f).
Proof.
  intros Hm Hf s. specialize (Hm s). unfold wp, mbind, M_bind in *.
  destruct (m s) as [a s'|b s']; [|done].
  specialize (Hf a s'). unfold wp in Hf.
  destruct (f a s'); by etrans.
Qed.

Lemma preserves_mret {A : Type} (a : A) : preserves P (mret a).
Proof. intros s. unfold wp. simpl. reflexivity. Qed.

Lemma preserves_return {A : Type} (b : bool) : preserves P (@return_ A b).
Proof. intros s. unfold wp. simpl. reflexivity. Qed.

Lemma preserves_read {A : Type} (var : Globals -> A) : preserves P (read var).
Proof. intros s. unfold wp. simpl. reflexivity. Qed.

Lemma preserves_get_world : preserves P get_world.
Proof. intros s. unfold wp. simpl. reflexivity. Qed.

Lemma preserves_call (f : Fn) : preserves P f -> preserves P (call f).
Proof. intros H s. specialize (H s). unfold wp, call in *. by destruct (f s) as [[]|]. Qed.

Lemma preserves_CHECK_ZV_ERROR error : preserves P (CHECK_ZV_ERROR error).
Proof. intros s. unfold wp, CHECK_ZV_ERROR. case_decide; simpl; reflexivity. Qed.

Lemma preserves_CHECK_ZC_ERROR error : preserves P (CHECK_ZC_ERROR error).
Proof. intros s. unfold wp, CHECK_ZC_ERROR. case_decide; simpl; reflexivity. Qed.

Lemma preserves_zv_call env c effect :
  preserves P effect -> preserves P (zv_call env c effect).
Proof.
  intros H. unfold zv_call. apply preserves_bind.
  - case_decide; [done | apply preserves_mret].
  - intros _. apply preserves_mret.
Qed.

Lemma preserves_zc_call env c effect :
  preserves P effect -> preserves P (zc_call env c effect).
Proof.
  intros H. unfold zc_call. apply preserves_bind.
  - case_decide; [done | apply preserves_mret].
  - intros _. apply preserves_mret.
Qed.

Lemma preserves_zv_get {A : Type} env c (cur : A) value :
  preserves P value -> preserves P (zv_get env c cur value).
Proof.
  intros H. unfold zv_get. case_decide; [|apply preserves_mret].
  apply preserves_bind; [done | intros ?; apply preserves_mret].
Qed.

Lemma preserves_zc_get {A : Type} env c (cur : A) value :
  preserves P value -> preserves P (zc_get env c cur value).
Proof.
  intros H. unfold zc_get. case_decide; [|apply preserves_mret].
  apply preserves_bind; [done | intros ?; apply preserves_mret].
Qed.
End PreservesRules.

Lemma preserves_and {A : Type} (P1 P2 : State -> State -> Prop) (m : M A) :
  preserves P1 m -> preserves P2 m -> preserves (fun s s' => P1 s s' /\ P2 s s') m.
Proof. intros H1 H2 s. specialize (H1 s). specialize (H2 s). unfold wp in *. by destruct (m s). Qed.

#[global] Instance emits_preorder φ : PreOrder (emits φ).
Proof.
  split.
  - intros s. exists []. by rewrite app_nil_r.
  - intros s1 s2 s3 (evs1 & E1 & F1) (evs2 & E2 & F2).
    exists (evs1 ++ evs2). rewrite E2, E1, <-app_assoc. split; [done|].
    by apply Forall_app.
Qed.

#[global] Instance keeps_preorder {A : Type} (var : Globals -> A) : PreOrder (keeps var).
Proof.
  split; [by intros s|]. unfold keeps. intros s1 s2 s3 E1 E2. by rewrite E2.
Qed.

(** The primitive statements. *)

Lemma emits_assign φ set : preserves (emits φ) (assign set).
Proof. intros s. exists []. by rewrite app_nil_r. Qed.

Lemma emits_emit (φ : Event -> Prop) e : φ e -> preserves (emits φ) (emit e).
Proof. intros H s. exists [e]. split; [done|]. by constructor. Qed.

Lemma emits_put_settings φ c st : preserves (emits φ) (put_settings c st).
Proof. intros s. exists []. by rewrite app_nil_r. Qed.

Lemma emits_put_frameNumber φ f n : preserves (emits φ) (put_frameNumber f n).
Proof. intros s. exists []. by rewrite app_nil_r. Qed.

Lemma keeps_assign {A : Type} (var : Globals -> A) set :
  (forall g, var (set g) = var g) -> preserves (keeps var) (assign set).
Proof. intros H s. apply H. Qed.

Lemma keeps_emit {A : Type} (var : Globals -> A) e : preserves (keeps var) (emit e).
Proof. by intros s. Qed.

Lemma keeps_put_settings {A : Type} (var : Globals -> A) c st :
  preserves (keeps var) (put_settings c st).
Proof. by intros s. Qed.

Lemma keeps_put_frameNumber {A : Type} (var : Globals -> A) f n :
  preserves (keeps var) (put_frameNumber f n).
Proof. by intros s. Qed.

Create HintDb api.
Create HintDb emits.
Create HintDb keeps.

#[global] Hint Unfold
  zvGetNumConnections zvGetConnection zvUpdateConnection zvGetConnectionState
  zvAcceptConnection zvCloseConnection zvDestroyConnection zvSetNodeStatus
  zvGetVideoRecordingState zvGetVideoRecordingError zvClearVideoRecordingError
  zvGetConnectionMode zvSetConnectionMode zvGetConnectionModeSetupPhase
  zvCompleteModeSetupPhase zvGetNumConnectionSupportedModes
  zvGetConnectionSupportedMode zvGetSettingU16 zvGetSettingF32 write_setting
  zvSetSettingU16 zvSetSettingF32 zvBeginSettingsBatch zvEndSettingsBatch
  zvGetNextFrameToSend zvReceiveFrame zvGetFrameDataU64 zvGetFrameDataM4
  zvGetFrameDataF32 zvReleaseReceivedFrame zvSetFrameDataU64 zvGetFrameBuffer
  zvSendFrame zcCreateViewport zcGetFrustum zcSetViewportPosition
  zcSetViewportSize zcGetFrustumViewMatrix zcGetFrustumProjectionMatrix
  zcDestroyViewport glGen glDelete glCheckFramebufferStatus printLog release
  : api.

(** Going down the structure of a statement; [leaf] deals with the
    primitive statements and with calls of functions of the program. *)
Ltac preserves_step leaf :=
  lazymatch goal with
  | |- PreOrder _ => typeclasses eauto
  | |- preserves _ (mbind _ _) => apply preserves_bind; [| |intros ?]
  | |- preserves _ (mret _) => apply preserves_mret
  | |- preserves _ (return_ _) => apply preserves_return
  | |- preserves _ (read _) => apply preserves_read
  | |- preserves _ get_world => apply preserves_get_world
  | |- preserves _ (CHECK_ZV_ERROR _) => apply preserves_CHECK_ZV_ERROR
  | |- preserves _ (CHECK_ZC_ERROR _) => apply preserves_CHECK_ZC_ERROR
  | |- preserves _ (zv_call _ _ _) => apply preserves_zv_call
  | |- preserves _ (zc_call _ _ _) => apply preserves_zc_call
  | |- preserves _ (zv_get _ _ _ _) => apply preserves_zv_get
  | |- preserves _ (zc_get _ _ _ _) => apply preserves_zc_get
  | |- preserves _ (call _) => apply preserves_call; leaf
  | |- preserves _ (if ?b then _ else _) => destruct b
  | |- preserves _ (match ?x with _ => _ end) => destruct x
  | |- preserves _ (let _ := _ in _) => cbv zeta
  | |- preserves _ _ => first [leaf | progress autounfold with api]
  end.

Ltac preserves_go leaf := repeat (preserves_step leaf).

Lemma preserves_mono {A : Type} (P Q : State -> State -> Prop) (m : M A) :
  (forall s s', P s s' -> Q s s') -> preserves P m -> preserves Q m.
Proof. intros HPQ H s. specialize (H s). unfold wp in *. destruct (m s); auto. Qed.

Lemma emits_mono (φ ψ : Event -> Prop) s s' :
  (forall e, φ e -> ψ e) -> emits φ s s' -> emits ψ s s'.
Proof. intros H (evs & E & F). exists evs. split; [done|]. eapply Forall_impl; eauto. Qed.

Ltac emits_leaf :=
  first
    [ apply emits_assign
    | apply emits_put_settings
    | apply emits_put_frameNumber
    | apply emits_emit; simpl; tauto
    | solve [eauto with emits]
    | solve [eapply preserves_mono; [|eauto with emits];
             intros ? ?; apply emits_mono; intros []; simpl; tauto] ].

Ltac keeps_leaf :=
  first
    [ apply keeps_assign; intros ?; reflexivity
    | apply keeps_emit
    | apply keeps_put_settings
    | apply keeps_put_frameNumber
    | solve [eauto with keeps] ].

(** ** The events of tear-down, set-up and video-recording polling *)

Lemma tearDownZviewStandardMode_emits env :
  preserves (emits resource_event) (tearDownZviewStandardMode env).
Proof. unfold tearDownZviewStandardMode. preserves_go emits_leaf. Qed.

Lemma tearDownZviewAugmentedRealityMode_emits env :
  preserves (emits resource_event) (tearDownZviewAugmentedRealityMode env).
Proof. unfold tearDownZviewAugmentedRealityMode. preserves_go emits_leaf. Qed.

#[global] Hint Resolve tearDownZviewStandardMode_emits
  tearDownZviewAugmentedRealityMode_emits : emits.

Lemma tearDownZviewMode_emits env :
  preserves (emits resource_event) (tearDownZviewMode env).
Proof. unfold tearDownZviewMode. preserves_go emits_leaf. Qed.

Lemma setUpZviewStandardMode_emits env c :
  preserves (emits resource_event) (setUpZviewStandardMode env c).
Proof. unfold setUpZviewStandardMode. preserves_go emits_leaf. Qed.

Lemma setUpZviewAugmentedRealityMode_emits env c :
  preserves (emits resource_event) (setUpZviewAugmentedRealityMode env c).
Proof. unfold setUpZviewAugmentedRealityMode. preserves_go emits_leaf. Qed.

#[global] Hint Resolve tearDownZviewMode_emits setUpZviewStandardMode_emits
  setUpZviewAugmentedRealityMode_emits : emits.

Lemma setUpZviewMode_emits env c :
  preserves (emits setup_event) (setUpZviewMode env c).
Proof. unfold setUpZviewMode. preserves_go emits_leaf. Qed.

Lemma processZviewVideoRecording_emits env c :
  preserves (emits video_recording_event) (processZviewVideoRecording env c).
Proof. unfold processZviewVideoRecording. preserves_go emits_leaf. Qed.

#[global] Hint Resolve setUpZviewMode_emits processZviewVideoRecording_emits : emits.


(** ** The globals that tear-down, set-up and video-recording polling keep *)

Lemma tearDownZviewStandardMode_keeps env :
  preserves (keeps session_globals) (tearDownZviewStandardMode env).
Proof. unfold tearDownZviewStandardMode. preserves_go keeps_leaf. Qed.

Lemma tearDownZviewAugmentedRealityMode_keeps env :
  preserves (keeps session_globals) (tearDownZviewAugmentedRealityMode env).
Proof. unfold tearDownZviewAugmentedRealityMode. preserves_go keeps_leaf. Qed.

#[global] Hint Resolve tearDownZviewStandardMode_keeps
  tearDownZviewAugmentedRealityMode_keeps : keeps.

Lemma tearDownZviewMode_keeps env :
  preserves (keeps session_globals) (tearDownZviewMode env).
Proof. unfold tearDownZviewMode. preserves_go keeps_leaf. Qed.

Lemma setUpZviewStandardMode_keeps env c :
  preserves (keeps session_globals) (setUpZviewStandardMode env c).
Proof. unfold setUpZviewStandardMode. preserves_go keeps_leaf. Qed.

Lemma setUpZviewAugmentedRealityMode_keeps env c :
  preserves (keeps session_globals) (setUpZviewAugmentedRealityMode env c).
Proof. unfold setUpZviewAugmentedRealityMode. preserves_go keeps_leaf. Qed.

#[global] Hint Resolve tearDownZviewMode_keeps setUpZviewStandardMode_keeps
  setUpZviewAugmentedRealityMode_keeps : keeps.

Lemma setUpZviewMode_keeps env c :
  preserves (keeps session_globals) (setUpZviewMode env c).
Proof. unfold setUpZviewMode. preserves_go keeps_leaf. Qed.

Lemma processZviewVideoRecording_keeps env c :
  preserves (keeps session_globals) (processZviewVideoRecording env c).
Proof. unfold processZviewVideoRecording. preserves_go keeps_leaf. Qed.

#[global] Hint Resolve setUpZviewMode_keeps processZviewVideoRecording_keeps : keeps.

(** ** Symbolic execution *)

Lemma wp_assign (set : Globals -> Globals) s (Q : unit -> State -> Prop) R :
  Q tt {| globals := set (globals s); world := world s |} -> wp (assign set) s Q R.
Proof. auto. Qed.

Lemma wp_CHECK_ZV_ERROR error s (Q : unit -> State -> Prop) (R : bool -> State -> Prop) :
  (error = ZV_ERROR_OK -> Q tt s) -> (error ≠ ZV_ERROR_OK -> R false s) ->
  wp (CHECK_ZV_ERROR error) s Q R.
Proof. unfold wp, CHECK_ZV_ERROR. case_decide; simpl; auto. Qed.

Lemma wp_CHECK_ZC_ERROR error s (Q : unit -> State -> Prop) (R : bool -> State -> Prop) :
  (error = ZC_ERROR_OK -> Q tt s) -> (error ≠ ZC_ERROR_OK -> R false s) ->
  wp (CHECK_ZC_ERROR error) s Q R.
Proof. unfold wp, CHECK_ZC_ERROR. case_decide; simpl; auto. Qed.

Ltac wp_step :=
  lazymatch goal with
  | |- wp (mbind _ _) _ _ _ => apply wp_bind
  | |- wp (mret _) _ _ _ => apply wp_mret
  | |- wp (return_ _) _ _ _ => apply wp_return
  | |- wp (read _) _ _ _ => apply wp_read
  | |- wp (assign _) _ _ _ => apply wp_assign
  | |- wp (CHECK_ZV_ERROR _) _ _ _ => apply wp_CHECK_ZV_ERROR; intros ?
  | |- wp (CHECK_ZC_ERROR _) _ _ _ => apply wp_CHECK_ZC_ERROR; intros ?
  | |- wp (call _) _ _ _ => apply wp_call
  | |- wp (if decide ?P then _ else _) _ _ _ => destruct (decide P)
  | |- wp (if negb ?b then _ else _) _ _ _ => destruct b eqn:?; simpl negb; cbv iota
  | |- wp (let _ := _ in _) _ _ _ => cbv zeta
  end.

(** ** Tear-down is idempotent *)

Lemma tearDownZviewMode_latest env s s' :
  run (tearDownZviewMode env) s = (true, s') ->
  g_zViewLatestActiveConnectionMode (globals s') = NULL.
Proof.
  intros Hrun.
  assert (H : wp (tearDownZviewMode env) s (fun _ _ => False)
    (fun b s' => b = true -> g_zViewLatestActiveConnectionMode (globals s') = NULL)).
  { unfold tearDownZviewMode. repeat wp_step; try done.
    all: destruct (run _ _) as [ok s1]; simpl in *; subst; repeat wp_step; done. }
  apply wp_run in H. rewrite Hrun in H. by apply H.
Qed.

Lemma run_intro (f : Fn) s b s' :
  wp f s (fun _ _ => False) (fun b0 s0 => b0 = b /\ s0 = s') -> run f s = (b, s').
Proof.
  intros H. apply wp_run in H. destruct (run f s). simpl in H. by destruct H as [-> ->].
Qed.

(** C5. Mode tear-down is idempotent: once [tearDownZviewMode] has
    succeeded, calling it again with no set-up in between succeeds without
    a single call to a library and leaves the whole state -- the latest
    active mode, the viewport and frustum handles, the framebuffer, texture,
    renderbuffer and vertex-array names, and the trace -- as the first call
    left it.  The mode handles are the valid handles that [initializeZview]
    stored. *)
Theorem tearDownZviewMode_idempotent env1 env2 s s1 :
  g_zViewStandardMode (globals s) ≠ NULL ->
  g_zViewAugmentedRealityMode (globals s) ≠ NULL ->
  run (tearDownZviewMode env1) s = (true, s1) ->
  run (tearDownZviewMode env2) s1 = (true, s1).
Proof.
  intros Hstd Har Hrun.
  pose proof (tearDownZviewMode_latest _ _ _ Hrun) as Hlatest.
  pose proof (preserves_run _ _ s (tearDownZviewMode_keeps env1)) as Hkeep.
  rewrite Hrun in Hkeep. unfold keeps, session_globals in Hkeep. simpl in Hkeep.
  apply run_intro. unfold tearDownZviewMode. repeat wp_step.
  all: simplify_eq/=; try congruence.
  destruct s1 as [[] ?]; simpl in *; subst; done.
Qed.

Lemma tearDownZviewMode_idempotent_witness :
  let s1 := (run (tearDownZviewMode env_standard_active) example_standard).2 in
  g_zViewStandardModeGlFramebufferId (standardMode (globals example_standard)) = 1 /\
  run (tearDownZviewMode env_standard_active) s1 = (true, s1).
Proof.
  split; [reflexivity|].
  apply (tearDownZviewMode_idempotent env_standard_active env_standard_active
           example_standard).
  - vm_compute. lia.
  - vm_compute. lia.
  - vm_compute. reflexivity.
Defined.

(** ** The frame pump in standard mode *)

Lemma wp_emit e s (Q : unit -> State -> Prop) R :
  Q tt {| globals := globals s;
          world := {| w_settings := w_settings (world s);
                      w_frameNumber := w_frameNumber (world s);
                      w_trace := w_trace (world s) ++ [e] |} |} ->
  wp (emit e) s Q R.
Proof. auto. Qed.

Lemma wp_get_world s (Q : World -> State -> Prop) R : Q (world s) s -> wp get_world s Q R.
Proof. auto. Qed.

Lemma wp_put_settings c st s (Q : unit -> State -> Prop) R :
  Q tt {| globals := globals s;
          world := {| w_settings := <[c := st]> (w_settings (world s));
                      w_frameNumber := w_frameNumber (world s);
                      w_trace := w_trace (world s) |} |} ->
  wp (put_settings c st) s Q R.
Proof. auto. Qed.

Lemma wp_put_frameNumber f n s (Q : unit -> State -> Prop) R :
  Q tt {| globals := globals s;
          world := {| w_settings := w_settings (world s);
                      w_frameNumber := <[f := n]> (w_frameNumber (world s));
                      w_trace := w_trace (world s) |} |} ->
  wp (put_frameNumber f n) s Q R.
Proof. auto. Qed.

#[global] Hint Unfold zv_call zc_call zv_get zc_get : api.

(** One step of symbolic execution; [at_call] is run on a call of a
    function of the program. *)
Ltac prune :=
  try solve [exfalso; congruence | exfalso; eauto 3 | exfalso; simpl in *; congruence].

Ltac exec_step at_call :=
  lazymatch goal with
  | |- wp (mbind _ _) _ _ _ => apply wp_bind
  | |- wp (mret _) _ _ _ => apply wp_mret
  | |- wp (return_ _) _ _ _ => apply wp_return
  | |- wp (read _) _ _ _ => apply wp_read
  | |- wp (assign _) _ _ _ => apply wp_assign
  | |- wp (emit _) _ _ _ => apply wp_emit
  | |- wp get_world _ _ _ => apply wp_get_world
  | |- wp (put_settings _ _) _ _ _ => apply wp_put_settings
  | |- wp (put_frameNumber _ _) _ _ _ => apply wp_put_frameNumber
  | |- wp (CHECK_ZV_ERROR _) _ _ _ => apply wp_CHECK_ZV_ERROR; intros ?; prune
  | |- wp (CHECK_ZC_ERROR _) _ _ _ => apply wp_CHECK_ZC_ERROR; intros ?; prune
  | |- wp (call _) _ _ _ => apply wp_call; at_call
  | |- wp (if decide ?P then _ else _) _ _ _ => destruct (decide P); prune
  | |- wp (if negb ?b then _ else _) _ _ _ =>
      destruct b eqn:?; simpl negb; cbv iota; prune
  | |- wp (if ?b then _ else _) _ _ _ => destruct b eqn:?; prune
  | |- wp (match ?x with _ => _ end) _ _ _ =>
      first [progress cbv beta iota | destruct x eqn:?; prune]
  | |- wp _ _ _ _ => first [progress cbv beta zeta | progress autounfold with api]
  end.

Ltac exec at_call :=
  repeat (exec_step at_call; simpl globals; simpl world;
          simpl w_settings; simpl w_frameNumber; simpl w_trace;
          rewrite ?lookup_total_insert_eq; simpl st_batch; simpl st_values).

Lemma drawZviewStandardMode_ok env s :
  (forall c, zc_error env c = ZC_ERROR_OK) ->
  run (drawZviewStandardMode env) s = (true, s).
Proof.
  intros Hok. apply run_intro. unfold drawZviewStandardMode.
  exec idtac; done.
Qed.

Lemma handleZviewStandardModeImageResolutionChange_emits env :
  preserves (emits settings_sent_event) (handleZviewStandardModeImageResolutionChange env).
Proof. unfold handleZviewStandardModeImageResolutionChange. preserves_go emits_leaf. Qed.

Lemma handleZviewStandardModeImageResolutionChange_keeps env :
  preserves (keeps pump_globals) (handleZviewStandardModeImageResolutionChange env).
Proof. unfold handleZviewStandardModeImageResolutionChange. preserves_go keeps_leaf. Qed.

Lemma sent_tags_app evs1 evs2 : sent_tags (evs1 ++ evs2) = sent_tags evs1 ++ sent_tags evs2.
Proof. apply omap_app. Qed.

Lemma sent_tags_not_sent evs :
  Forall (fun e => sent_tag e = None) evs -> sent_tags evs = [].
Proof.
  induction 1 as [|e evs He _ IH]; [done|]. unfold sent_tags in *. simpl. by rewrite He.
Qed.

(** A tick without a frame slot changes no global and sends nothing. *)
Lemma drawZview_no_frame_slot env s :
  no_frame_slot (globals s) env ->
  exists s', run (drawZview env) s = (true, s') /\
    globals s' = globals s /\
    sent_tags (w_trace (world s')) = sent_tags (w_trace (world s)).
Proof.
  intros ((Hctx & Hact & E1 & Hst & E2 & Hmode & E3) & Hframe).
  eexists. split.
  - apply run_intro. unfold drawZview.
    exec idtac; try congruence. split; reflexivity.
  - simpl. split; [done|]. by rewrite sent_tags_app, app_nil_r.
Qed.
Ltac pump_call :=
  lazymatch goal with
  | H : forall c, zc_error ?env c = ZC_ERROR_OK |- context [run (drawZviewStandardMode ?env) ?s] =>
      rewrite (drawZviewStandardMode_ok env s H); simpl fst; simpl snd
  | |- context [run (handleZviewStandardModeImageResolutionChange ?env) ?s] =>
      let He := fresh "Hemits" in
      let Hk := fresh "Hkeeps" in
      pose proof (preserves_run _ _ s
        (handleZviewStandardModeImageResolutionChange_emits env)) as He;
      pose proof (preserves_run _ _ s
        (handleZviewStandardModeImageResolutionChange_keeps env)) as Hk;
      destruct (run (handleZviewStandardModeImageResolutionChange env) s) as [? ?];
      simpl fst in *; simpl snd in *
  end.

Lemma drawZview_frame_slot env s :
  frame_slot (globals s) env ->
  wp (drawZview env) s (fun _ _ => False) (fun _ s' =>
    session_globals (globals s') = session_globals (globals s) /\
    g_zViewStandardModeFrameNumber (standardMode (globals s')) =
      to_u64 (g_zViewStandardModeFrameNumber (standardMode (globals s)) + 1) /\
    sent_tags (w_trace (world s')) =
      sent_tags (w_trace (world s)) ++
      [Some (g_zViewStandardModeFrameNumber (standardMode (globals s)))]).
Proof.
  intros H. unfold frame_slot, standard_mode_tick in H. cbv zeta in H.
  destruct H as ((Hctx & Hact & E1 & Hst & E2 & Hmode & E3) & Hframe & E4 & Hzc & E5 & E6).
  unfold drawZview. exec ltac:(try pump_call).
  all: destruct Hemits as (evs & Htr & Hevs); unfold keeps, pump_globals in Hkeeps;
    simpl in Htr, Hkeeps; simplify_eq.
  all: split_and!; [unfold session_globals; congruence|congruence|].
  all: rewrite Htr, !sent_tags_app, lookup_insert_eq; simpl.
  all: rewrite (sent_tags_not_sent evs), ?app_nil_r; [done|].
  all: eapply Forall_impl; [done|]; by intros [].
Qed.

Lemma frame_slot_session_globals g g' env :
  session_globals g = session_globals g' -> frame_slot g env -> frame_slot g' env.
Proof.
  unfold session_globals, frame_slot, standard_mode_tick. intros E. simplify_eq.
  cbv zeta. by repeat match goal with H : _ = _ |- _ => rewrite <-H end.
Qed.

Lemma drawZview_ticks_no_frame_slot skipped s :
  Forall (no_frame_slot (globals s)) skipped ->
  globals (drawZview_ticks skipped s) = globals s /\
  sent_tags (w_trace (world (drawZview_ticks skipped s))) = sent_tags (w_trace (world s)).
Proof.
  revert s. induction skipped as [|env skipped IH]; intros s Hall; [done|].
  apply Forall_cons in Hall as [Henv Hall]. simpl.
  destruct (drawZview_no_frame_slot env s Henv) as (s' & -> & Hg & Ht). simpl.
  rewrite <-Hg in Hall. destruct (IH s' Hall) as [IHg IHt]. split; congruence.
Qed.

Lemma drawZview_ticks_frame_slot sends s :
  Forall (frame_slot (globals s)) sends ->
  let n := g_zViewStandardModeFrameNumber (standardMode (globals s)) in
  let s' := drawZview_ticks sends s in
  sent_tags (w_trace (world s')) = sent_tags (w_trace (world s)) ++ tags_from n (length sends) /\
  g_zViewStandardModeFrameNumber (standardMode (globals s')) =
    Nat.iter (length sends) next_frame_number n.
Proof.
  revert s. induction sends as [|env sends IH]; intros s Hall; simpl.
  { by rewrite app_nil_r. }
  apply Forall_cons in Hall as [Henv Hall].
  pose proof (drawZview_frame_slot env s Henv) as H. apply wp_run in H.
  destruct H as (Hg & Hn & Ht).
  assert (Hall' : Forall (frame_slot (globals (run (drawZview env) s).2)) sends).
  { eapply Forall_impl; [done|]. intros ?. by apply frame_slot_session_globals. }
  destruct (IH _ Hall') as [IHt IHn]. rewrite IHt, IHn, Ht, Hn, <-app_assoc. simpl.
  split; [done|]. fold (next_frame_number
    (g_zViewStandardModeFrameNumber (standardMode (globals s)))).
  apply Nat.iter_swap.
Qed.

(** C8. In standard mode, ticks without an outgoing frame slot send nothing
    and leave the frame counter (indeed every global) alone, however many
    of them follow each other; the frames sent once slots are available are
    tagged with the counter's value [n], then with [n + 1] (as a 64-bit
    unsigned number), and so on, the counter going up by one per frame
    sent. *)
Theorem standard_mode_frame_counter skipped sends s :
  Forall (no_frame_slot (globals s)) skipped ->
  Forall (frame_slot (globals s)) sends ->
  let n := g_zViewStandardModeFrameNumber (standardMode (globals s)) in
  let s1 := drawZview_ticks skipped s in
  let s2 := drawZview_ticks sends s1 in
  (globals s1 = globals s /\
   sent_tags (w_trace (world s1)) = sent_tags (w_trace (world s))) /\
  (sent_tags (w_trace (world s2)) =
     sent_tags (w_trace (world s)) ++ tags_from n (length sends) /\
   g_zViewStandardModeFrameNumber (standardMode (globals s2)) =
     Nat.iter (length sends) next_frame_number n).
Proof.
  intros Hskipped Hsends. cbv zeta.
  destruct (drawZview_ticks_no_frame_slot skipped s Hskipped) as [Hg Ht].
  split; [done|].
  rewrite <-Hg in Hsends.
  destruct (drawZview_ticks_frame_slot sends _ Hsends) as [Ht' Hn'].
  rewrite Ht', Hn', Ht, Hg. done.
Qed.

Lemma standard_mode_frame_counter_witness :
  let skipped := [without_frame_slot env_standard_active;
                  without_frame_slot env_standard_active] in
  let sends := [env_standard_active; env_standard_active; env_standard_active] in
  let s1 := drawZview_ticks skipped example_standard in
  let s2 := drawZview_ticks sends s1 in
  (Forall (no_frame_slot (globals example_standard)) skipped /\
   Forall (frame_slot (globals example_standard)) sends) /\
  (globals s1 = globals example_standard /\
   sent_tags (w_trace (world s1)) = []) /\
  (sent_tags (w_trace (world s2)) = [] ++ [Some 0; Some 1; Some 2] /\
   g_zViewStandardModeFrameNumber (standardMode (globals s2)) = 3).
Proof.
  assert (H1 : Forall (no_frame_slot (globals example_standard))
            [without_frame_slot env_standard_active;
             without_frame_slot env_standard_active]).
  { repeat constructor; vm_compute; lia. }
  assert (H2 : Forall (frame_slot (globals example_standard))
            [env_standard_active; env_standard_active; env_standard_active]).
  { repeat constructor; vm_compute; lia. }
  split; [exact (conj H1 H2)|].
  exact (standard_mode_frame_counter _ _ example_standard H1 H2).
Defined.

(** ** Standard-mode set-up and the frame counter *)

(** Forgetting what a called function does. *)
Ltac forget_call :=
  idtac; lazymatch goal with
  | |- context [run ?f ?s] =>
      destruct (run f s) as [? ?] eqn:?; simpl fst in *; simpl snd in *
  end.

(** Remembering that a called function keeps the session globals. *)
Ltac keeps_call lem :=
  idtac; lazymatch goal with
  | |- context [run ?f ?s] =>
      let Hk := fresh "Hkeeps" in
      pose proof (preserves_run _ f s lem) as Hk;
      unfold keeps, session_globals in Hk;
      destruct (run f s) as [? ?] eqn:?; simpl in Hk; simplify_eq
  end.

Lemma setUpZviewStandardMode_frame_number env c s :
  wp (setUpZviewStandardMode env c) s (fun _ _ => False) (fun b s' =>
    b = true -> g_zViewStandardModeFrameNumber (standardMode (globals s')) = 0).
Proof. unfold setUpZviewStandardMode. exec forget_call; done. Qed.

Lemma setUpZviewMode_frame_number env c s :
  env_connectionMode env c = g_zViewStandardMode (globals s) ->
  env_modeSetupPhase env c = ZV_MODE_SETUP_PHASE_COMPLETION ->
  env_isAwaitingCompletion env c = false ->
  wp (setUpZviewMode env c) s (fun _ _ => False) (fun b s' =>
    b = true -> g_zViewStandardModeFrameNumber (standardMode (globals s')) = 0).
Proof.
  intros Hmode Hphase Hawait. unfold setUpZviewMode.
  exec ltac:(first
    [ keeps_call (tearDownZviewMode_keeps env)
    | lazymatch goal with
      | |- context [run (setUpZviewStandardMode ?env ?c) ?s] =>
          let H := fresh in
          pose proof (setUpZviewStandardMode_frame_number env c s) as H;
          apply wp_run in H; forget_call
      end
    | forget_call ]).
  all: done.
Qed.

Lemma sent_tags_emits (φ : Event -> Prop) s s' :
  (forall e, φ e -> sent_tag e = None) -> emits φ s s' ->
  sent_tags (w_trace (world s')) = sent_tags (w_trace (world s)).
Proof.
  intros Hφ (evs & -> & Hevs). rewrite sent_tags_app, (sent_tags_not_sent evs).
  - by rewrite app_nil_r.
  - eapply Forall_impl; eauto.
Qed.

(** C10. Standard-mode set-up resets the outgoing frame counter: whenever
    the completion phase of set-up runs for standard mode and succeeds --
    whatever the counter was, so also after a switch away and back or after
    a change of resolution -- the counter is 0, set-up itself has sent no
    frame, and the frames sent next are tagged 0, 1, ...: the tags restart
    with every activation. *)
Theorem standard_mode_setup_resets_frame_counter env connection s s' sends :
  env_connectionMode env connection = g_zViewStandardMode (globals s) ->
  env_modeSetupPhase env connection = ZV_MODE_SETUP_PHASE_COMPLETION ->
  env_isAwaitingCompletion env connection = false ->
  run (setUpZviewMode env connection) s = (true, s') ->
  Forall (frame_slot (globals s')) sends ->
  g_zViewStandardModeFrameNumber (standardMode (globals s')) = 0 /\
  sent_tags (w_trace (world s')) = sent_tags (w_trace (world s)) /\
  sent_tags (w_trace (world (drawZview_ticks sends s'))) =
    sent_tags (w_trace (world s')) ++ tags_from 0 (length sends).
Proof.
  intros Hmode Hphase Hawait Hrun Hsends.
  pose proof (setUpZviewMode_frame_number env connection s Hmode Hphase Hawait) as H0.
  apply wp_run in H0. rewrite Hrun in H0. specialize (H0 eq_refl). simpl in H0.
  pose proof (preserves_run _ _ s (setUpZviewMode_emits env connection)) as He.
  rewrite Hrun in He. simpl in He.
  split_and!; [done| |].
  - eapply sent_tags_emits; [|done]. by intros [].
  - destruct (drawZview_ticks_frame_slot sends s' Hsends) as [Ht _]. by rewrite Ht, H0.
Qed.

Lemma standard_mode_setup_resets_frame_counter_witness :
  let env := env_standard_setup ZV_MODE_SETUP_PHASE_COMPLETION in
  let s := example_two_frames_sent in
  let s' := (run (setUpZviewMode env 11) s).2 in
  let sends := [env_standard_active; env_standard_active] in
  (g_zViewStandardModeFrameNumber (standardMode (globals s)) = 2 /\
   sent_tags (w_trace (world s)) = [Some 0; Some 1] /\
   env_connectionMode env 11 = g_zViewStandardMode (globals s) /\
   env_modeSetupPhase env 11 = ZV_MODE_SETUP_PHASE_COMPLETION /\
   env_isAwaitingCompletion env 11 = false /\
   run (setUpZviewMode env 11) s = (true, s') /\
   Forall (frame_slot (globals s')) sends) /\
  g_zViewStandardModeFrameNumber (standardMode (globals s')) = 0 /\
  sent_tags (w_trace (world s')) = sent_tags (w_trace (world s)) /\
  sent_tags (w_trace (world (drawZview_ticks sends s'))) =
    sent_tags (w_trace (world s')) ++ [Some 0; Some 1].
Proof.
  assert (Hs : Forall (frame_slot (globals
      (run (setUpZviewMode (env_standard_setup ZV_MODE_SETUP_PHASE_COMPLETION) 11)
         example_two_frames_sent).2)) [env_standard_active; env_standard_active]).
  { repeat constructor; vm_compute; lia. }
  split.
  - split_and!; [reflexivity|reflexivity|reflexivity|reflexivity|reflexivity| |exact Hs].
    vm_compute. reflexivity.
  - apply (standard_mode_setup_resets_frame_counter
             (env_standard_setup ZV_MODE_SETUP_PHASE_COMPLETION) 11
             example_two_frames_sent _ [env_standard_active; env_standard_active]);
      [reflexivity|reflexivity|reflexivity| |exact Hs].
    vm_compute. reflexivity.
Defined.

(** The tags of the frames sent before and after a second set-up. *)
Example frame_tags_restart :
  let env := env_standard_setup ZV_MODE_SETUP_PHASE_COMPLETION in
  let s' := (run (updateZviewConnection env 11) example_two_frames_sent).2 in
  sent_tags (w_trace (world (drawZview_ticks [env_standard_active] s'))) =
  [Some 0; Some 1; Some 0].
Proof. vm_compute. reflexivity. Qed.

(** ** The frame pump in augmented reality mode *)

Lemma events_of_app (f : Fn) s evs :
  w_trace (world (run f s).2) = w_trace (world s) ++ evs -> events_of f s = evs.
Proof. intros E. unfold events_of. rewrite E. by rewrite drop_app_length. Qed.

(** Membership in a list that is written out. *)
Ltac elem_of_cases H :=
  repeat
    (first
       [ apply elem_of_app in H as [H|H]
       | apply elem_of_cons in H as [H|H]
       | apply elem_of_nil in H; destruct H ]);
  try discriminate H.

Lemma drawZview_augmented_reality env s :
  augmented_reality_tick (globals s) env ->
  wp (drawZview env) s (fun _ _ => False) (fun _ s' =>
    exists evs, w_trace (world s') = w_trace (world s) ++ evs /\
      forall f tag, EvSendFrame f tag ∈ evs ->
        tag = Some (received_tag (globals s) env) /\
        EvReceiveFrame (env_receivedFrame env (g_zViewActiveConnection (globals s)))
          (received_tag (globals s) env) ∈ evs).
Proof.
  intros [Hmode Hne]. unfold received_tag, drawZview.
  exec ltac:(unfold drawZviewAugmentedRealityMode, run, return_; simpl).
  all: eexists;
    (split; [first [rewrite <-?app_assoc; reflexivity | symmetry; apply app_nil_r]|]).
  all: intros f tag Hin; elem_of_cases Hin.
  rewrite lookup_insert_eq in Hin. simplify_eq. split; [done|]. set_solver.
Qed.

(** C3. Frame tag echo: whatever the state at the start of a tick --
    whatever earlier ticks left in the frame number of the outgoing frame
    and whatever the standard-mode counter holds --, every frame that
    [drawZview] sends while the runtime reports augmented reality mode
    carries the frame number of the frame received in that tick. *)
Theorem augmented_reality_frame_tag_echo env s f tag :
  augmented_reality_tick (globals s) env ->
  EvSendFrame f tag ∈ events_of (drawZview env) s ->
  tag = Some (received_tag (globals s) env) /\
  EvReceiveFrame (env_receivedFrame env (g_zViewActiveConnection (globals s)))
    (received_tag (globals s) env) ∈ events_of (drawZview env) s.
Proof.
  intros Htick Hin.
  pose proof (drawZview_augmented_reality env s Htick) as H. apply wp_run in H.
  destruct H as (evs & Htrace & H). apply (events_of_app (drawZview env)) in Htrace.
  rewrite Htrace in *. by apply (H f).
Qed.

Lemma augmented_reality_frame_tag_echo_witness :
  (augmented_reality_tick (globals example_augmented) env_augmented_active /\
   EvSendFrame 55 (Some 4242) ∈ events_of (drawZview env_augmented_active) example_augmented) /\
  Some 4242 = Some (received_tag (globals example_augmented) env_augmented_active) /\
  EvReceiveFrame (env_receivedFrame env_augmented_active
                    (g_zViewActiveConnection (globals example_augmented)))
    (received_tag (globals example_augmented) env_augmented_active)
    ∈ events_of (drawZview env_augmented_active) example_augmented.
Proof.
  assert (H1 : augmented_reality_tick (globals example_augmented) env_augmented_active).
  { vm_compute. split; [reflexivity | lia]. }
  assert (H2 : EvSendFrame 55 (Some 4242)
                 ∈ events_of (drawZview env_augmented_active) example_augmented).
  { vm_compute. repeat constructor. }
  split; [exact (conj H1 H2)|].
  exact (augmented_reality_frame_tag_echo env_augmented_active example_augmented
           55 (Some 4242) H1 H2).
Defined.

(** ** The image size reaches the remote side in one piece *)

Lemma remote_view_app c p q r :
  remote_view c (p ++ q) r = remote_view c q (remote_view c p r).
Proof. apply foldl_app. Qed.

Lemma remote_view_not_sent c evs r :
  Forall not_settings_sent evs -> remote_view c evs r = r.
Proof.
  intros H. revert r. induction H as [|e evs He _ IH]; intros r; [done|].
  change (remote_view c (e :: evs) r) with (remote_view c evs (remote_step c r e)).
  rewrite IH. by destruct e.
Qed.

Lemma atomic_update_not_sent g c evs :
  Forall not_settings_sent evs -> atomic_update g c evs.
Proof.
  intros H p r [k ->]. left. apply remote_view_not_sent.
  by apply Forall_app in H as [H _].
Qed.

Lemma atomic_update_app g c evs1 evs2 :
  atomic_update g c evs1 -> atomic_update g c evs2 -> atomic_update g c (evs1 ++ evs2).
Proof.
  intros H1 H2 p r [k E]. apply app_eq_inv in E as [(k' & -> & ->)|(k' & -> & ->)].
  - apply H1. by exists k'.
  - rewrite remote_view_app.
    destruct (H1 evs1 r) as [->|Hshows]; [done| |].
    + apply H2. by exists k.
    + destruct (H2 k' (remote_view c evs1 r)) as [->|?]; [by exists k|by right|by right].
Qed.

Lemma apply_writes_app r ws1 ws2 :
  apply_writes (apply_writes r ws1) ws2 = apply_writes r (ws1 ++ ws2).
Proof. unfold apply_writes. by rewrite foldl_app. Qed.

Lemma atomic_update_sent g c ws :
  atomic_update g c
    [EvSettingsSent c
       (ws ++ [(ZV_SETTING_KEY_IMAGE_WIDTH, SettingU16 (to_u16 (g_windowWidth g)));
               (ZV_SETTING_KEY_IMAGE_HEIGHT, SettingU16 (to_u16 (g_windowHeight g)))])].
Proof.
  intros p r [k E]. destruct p as [|e p]; [by left|]. right.
  destruct p; [|by destruct k]. simplify_eq/=.
  unfold remote_view, shows_window_size. simpl. rewrite decide_True by done.
  rewrite <-apply_writes_app. simpl.
  split; [by rewrite lookup_insert_ne, lookup_insert_eq | by rewrite lookup_insert_eq].
Qed.

Lemma atomic_update_nil g c : atomic_update g c [].
Proof. apply atomic_update_not_sent. constructor. Qed.

Lemma atomic_update_other g c e : not_settings_sent e -> atomic_update g c [e].
Proof. intros H. apply atomic_update_not_sent. by repeat constructor. Qed.

Lemma atomic_update_resource g c evs :
  Forall resource_event evs -> atomic_update g c evs.
Proof.
  intros H. apply atomic_update_not_sent. eapply Forall_impl; [done|]. by intros [].
Qed.

Lemma updates_atomically_refl g c s : updates_atomically g c s s.
Proof. exists []. split; [by rewrite app_nil_r | apply atomic_update_nil]. Qed.

Lemma updates_atomically_snoc g c s tr e :
  (exists evs, tr = w_trace (world s) ++ evs /\ atomic_update g c evs) ->
  atomic_update g c [e] ->
  exists evs, tr ++ [e] = w_trace (world s) ++ evs /\ atomic_update g c evs.
Proof.
  intros (evs & -> & H) He. exists (evs ++ [e]).
  split; [by rewrite app_assoc | by apply atomic_update_app].
Qed.

Lemma updates_atomically_app g c s tr evs' :
  (exists evs, tr = w_trace (world s) ++ evs /\ atomic_update g c evs) ->
  atomic_update g c evs' ->
  exists evs, tr ++ evs' = w_trace (world s) ++ evs /\ atomic_update g c evs.
Proof.
  intros (evs & -> & H) He. exists (evs ++ evs').
  split; [by rewrite app_assoc | by apply atomic_update_app].
Qed.

Ltac atomic_tac :=
  repeat
    (first
       [ apply updates_atomically_snoc;
         [|first [rewrite <-app_assoc; apply atomic_update_sent
                 | apply atomic_update_other; exact I]]
       | apply updates_atomically_app; [|by apply atomic_update_resource]
       | by (exists []; split; [by rewrite app_nil_r | apply atomic_update_nil]) ]).

Lemma handleZviewStandardModeImageResolutionChange_atomic env s :
  wp (handleZviewStandardModeImageResolutionChange env) s (fun _ _ => False)
    (fun _ s' => exists evs, w_trace (world s') = w_trace (world s) ++ evs /\
       atomic_update (globals s) (g_zViewActiveConnection (globals s)) evs).
Proof.
  unfold handleZviewStandardModeImageResolutionChange. exec forget_call.
  all: atomic_tac.
Qed.

Ltac call1 lem :=
  idtac; lazymatch goal with
  | |- context [run ?f ?s] =>
      let H1 := fresh "Hcall" in
      pose proof (preserves_run _ f s lem) as H1;
      destruct (run f s) as [? ?]; simpl in H1
  end.

Ltac call2 lem1 lem2 :=
  idtac; lazymatch goal with
  | |- context [run ?f ?s] =>
      let H1 := fresh "Hcall" in
      let H2 := fresh "Hcall" in
      pose proof (preserves_run _ f s lem1) as H1;
      pose proof (preserves_run _ f s lem2) as H2;
      destruct (run f s) as [? ?]; simpl in H1, H2;
      try (unfold keeps, session_globals in H2; simpl in H2; simplify_eq)
  end.

Lemma setUpZviewMode_atomic env c s :
  wp (setUpZviewMode env c) s (fun _ _ => False)
    (fun _ s' => exists evs, w_trace (world s') = w_trace (world s) ++ evs /\
       atomic_update (globals s) c evs).
Proof.
  unfold setUpZviewMode.
  exec ltac:(first
    [ call2 (tearDownZviewMode_emits env) (tearDownZviewMode_keeps env)
    | call1 (setUpZviewStandardMode_emits env c)
    | call1 (setUpZviewAugmentedRealityMode_emits env c) ]).
  all: repeat match goal with
       | H : emits _ _ _ |- _ => destruct H as (? & H & ?); simpl in H
       | H : keeps session_globals _ _ |- _ =>
           unfold keeps, session_globals in H; simpl in H; simplify_eq
       end.
  all: repeat match goal with
       | H : w_trace _ = _ |- _ => rewrite H; clear H
       | H : g_windowWidth _ = _ |- _ => rewrite H; clear H
       | H : g_windowHeight _ = _ |- _ => rewrite H; clear H
       end.
  all: atomic_tac.
Qed.

Lemma remote_view_sent g c ws r :
  shows_window_size g
    (remote_view c
       [EvSettingsSent c
          (ws ++ [(ZV_SETTING_KEY_IMAGE_WIDTH, SettingU16 (to_u16 (g_windowWidth g)));
                  (ZV_SETTING_KEY_IMAGE_HEIGHT, SettingU16 (to_u16 (g_windowHeight g)))])] r).
Proof.
  unfold remote_view, shows_window_size. simpl. rewrite decide_True by done.
  rewrite <-!apply_writes_app. simpl.
  split; [by rewrite lookup_insert_ne, lookup_insert_eq | by rewrite lookup_insert_eq].
Qed.

Ltac trace_facts :=
  repeat match goal with
    | H : emits _ _ _ |- _ => destruct H as (? & H & ?); simpl in H
    | H : keeps session_globals _ _ |- _ =>
        unfold keeps, session_globals in H; simpl in H; simplify_eq
    end;
  repeat match goal with
    | H : w_trace _ = _ |- _ => rewrite H; clear H
    | H : g_windowWidth _ = _ |- _ => rewrite H; clear H
    | H : g_windowHeight _ = _ |- _ => rewrite H; clear H
    end.

Lemma setUpZviewMode_sends_image_size env c s :
  env_connectionMode env c = g_zViewStandardMode (globals s) ->
  env_modeSetupPhase env c = ZV_MODE_SETUP_PHASE_INITIALIZATION ->
  env_isAwaitingCompletion env c = false ->
  wp (setUpZviewMode env c) s (fun _ _ => False)
    (fun b s' => b = true -> exists evs, w_trace (world s') = w_trace (world s) ++ evs /\
       forall r, shows_window_size (globals s) (remote_view c evs r)).
Proof.
  intros Hmode Hphase Hawait. unfold setUpZviewMode.
  exec ltac:(first
    [ call2 (tearDownZviewMode_emits env) (tearDownZviewMode_keeps env)
    | call1 (setUpZviewStandardMode_emits env c)
    | call1 (setUpZviewAugmentedRealityMode_emits env c) ]).
  all: try done.
  all: intros _; trace_facts.
  all: rewrite <-?app_assoc; eexists; (split; [reflexivity|]); intros r.
  all: rewrite ?remote_view_app.
  all: change (remote_view c [EvCompleteModeSetupPhase c ZV_MODE_SETUP_PHASE_INITIALIZATION] ?r)
         with r.
  all: apply remote_view_sent.
Qed.

Lemma handleZviewStandardModeImageResolutionChange_sends_image_size env s :
  g_zViewActiveConnection (globals s) ≠ NULL ->
  ~ (g_zViewStandardModeImageWidth (standardMode (globals s)) = g_windowWidth (globals s) /\
     g_zViewStandardModeImageHeight (standardMode (globals s)) = g_windowHeight (globals s)) ->
  wp (handleZviewStandardModeImageResolutionChange env) s (fun _ _ => False)
    (fun b s' => b = true -> exists evs, w_trace (world s') = w_trace (world s) ++ evs /\
       forall r, shows_window_size (globals s)
                   (remote_view (g_zViewActiveConnection (globals s)) evs r)).
Proof.
  intros Hactive Hsize. unfold handleZviewStandardModeImageResolutionChange.
  exec forget_call.
  all: try done.
  all: intros _; rewrite <-?app_assoc; eexists; (split; [reflexivity|]); intros r.
  all: apply remote_view_sent.
Qed.


(** C2. The image width and height are written inside one settings batch,
    in mode set-up as on a change of the window size: whenever a remote
    reader looks at the settings while [setUpZviewMode] or
    [handleZviewStandardModeImageResolutionChange] runs -- that is, after
    any prefix of the events of the call, and also when a call fails half
    way -- it sees them as they were before the call or with both the width
    and the height of the window; and when the standard-mode initialization
    phase, or the handling of a changed window size, succeeds, the remote
    side has both. *)
Theorem image_size_written_atomically env connection s :
  let active := g_zViewActiveConnection (globals s) in
  (atomic_update (globals s) connection (events_of (setUpZviewMode env connection) s) /\
   (env_connectionMode env connection = g_zViewStandardMode (globals s) ->
    env_modeSetupPhase env connection = ZV_MODE_SETUP_PHASE_INITIALIZATION ->
    env_isAwaitingCompletion env connection = false ->
    (run (setUpZviewMode env connection) s).1 = true ->
    forall r, shows_window_size (globals s)
      (remote_view connection (events_of (setUpZviewMode env connection) s) r))) /\
  (atomic_update (globals s) active
     (events_of (handleZviewStandardModeImageResolutionChange env) s) /\
   (active ≠ NULL ->
    ~ (g_zViewStandardModeImageWidth (standardMode (globals s)) = g_windowWidth (globals s) /\
       g_zViewStandardModeImageHeight (standardMode (globals s)) =
         g_windowHeight (globals s)) ->
    (run (handleZviewStandardModeImageResolutionChange env) s).1 = true ->
    forall r, shows_window_size (globals s)
      (remote_view active
         (events_of (handleZviewStandardModeImageResolutionChange env) s) r))).
Proof.
  cbv zeta. split; split.
  - pose proof (setUpZviewMode_atomic env connection s) as H. apply wp_run in H.
    destruct H as (evs & Htrace & H).
    by rewrite (events_of_app _ _ _ Htrace).
  - intros Hmode Hphase Hawait Hok.
    pose proof (setUpZviewMode_sends_image_size env connection s Hmode Hphase Hawait) as H.
    apply wp_run in H. destruct (H Hok) as (evs & Htrace & Hshows).
    by rewrite (events_of_app _ _ _ Htrace).
  - pose proof (handleZviewStandardModeImageResolutionChange_atomic env s) as H.
    apply wp_run in H. destruct H as (evs & Htrace & H).
    by rewrite (events_of_app _ _ _ Htrace).
  - intros Hactive Hsize Hok.
    pose proof (handleZviewStandardModeImageResolutionChange_sends_image_size
                  env s Hactive Hsize) as H.
    apply wp_run in H. destruct (H Hok) as (evs & Htrace & Hshows).
    by rewrite (events_of_app _ _ _ Htrace).
Qed.

Lemma image_size_written_atomically_witness :
  let env := env_standard_setup ZV_MODE_SETUP_PHASE_INITIALIZATION in
  let s := set_windowSize 800 600 example_standard in
  (forall r, shows_window_size (globals s)
     (remote_view 11 (events_of (setUpZviewMode env 11) s) r)) /\
  (forall r, shows_window_size (globals s)
     (remote_view 11 (events_of (handleZviewStandardModeImageResolutionChange env) s) r)).
Proof.
  destruct (image_size_written_atomically
              (env_standard_setup ZV_MODE_SETUP_PHASE_INITIALIZATION) 11
              (set_windowSize 800 600 example_standard)) as [[_ H1] [_ H2]].
  split.
  - apply H1; reflexivity.
  - apply H2; [vm_compute; lia | vm_compute; lia | reflexivity].
Defined.
(** ** Switching modes *)

Lemma after_succ last n k : 0 < n -> after (after last n 1) n k = after last n (1 + k).
Proof.
  intros Hn. unfold after. rewrite Zplus_mod_idemp_l. f_equal. lia.
Qed.

Lemma after_range last n k : 0 < n -> 0 <= after last n k < n.
Proof. intros Hn. unfold after. by apply Z.mod_pos_bound. Qed.

Lemma switched_switched i j evs1 evs2 s :
  switched j evs2 (switched i evs1 s) = switched j (evs1 ++ evs2) s.
Proof.
  destruct s as [g w]. unfold switched. simpl. rewrite app_assoc.
  by destruct g.
Qed.

Lemma modeIndex_set_same s :
  set_g_zViewCurrentConnectionModeIndex (g_zViewCurrentConnectionModeIndex (globals s))
    (globals s) = globals s.
Proof. by destruct s as [[] ?]. Qed.

Lemma switched_index i evs s :
  g_zViewCurrentConnectionModeIndex (globals (switched i evs s)) = i.
Proof. by destruct s as [[] ?]. Qed.

Lemma modeIndex_set i g :
  g_zViewCurrentConnectionModeIndex (set_g_zViewCurrentConnectionModeIndex i g) = i.
Proof. by destruct g. Qed.

Lemma modeIndex_set_set i j g :
  set_g_zViewCurrentConnectionModeIndex j (set_g_zViewCurrentConnectionModeIndex i g)
  = set_g_zViewCurrentConnectionModeIndex j g.
Proof. by destruct g. Qed.

Section SwitchLoop.
Context (env : Env) (active : ZVConnection).
Let modes := env_supportedModes env active.
Let n := Z.of_nat (length modes).
Context (Hget : forall i, zv_error env (ZvGetConnectionSupportedMode active i) = ZV_ERROR_OK).
Context (Hset : zv_error env (ZvSetConnectionMode active) = ZV_ERROR_OK).

Lemma switchZviewMode_loop_step tried todo s R :
  tried < n -> 0 <= tried ->
  0 <= g_zViewCurrentConnectionModeIndex (globals s) ->
  (forall z,
     modes !! Z.to_nat (after (g_zViewCurrentConnectionModeIndex (globals s)) n 1) = Some z ->
     if decide (availability z = ZV_MODE_AVAILABILITY_AVAILABLE) then
       R true (switched (after (g_zViewCurrentConnectionModeIndex (globals s)) n 1)
                 [EvPrintLog LogSwitchingModes; EvSetConnectionMode active (mode z)] s)
     else
       wp (switchZviewMode_loop env active n (tried + 1) todo)
         (switched (after (g_zViewCurrentConnectionModeIndex (globals s)) n 1) [] s)
         (fun _ _ => False) R) ->
  wp (switchZviewMode_loop env active n tried (S todo)) s (fun _ _ => False) R.
Proof.
  intros Hlt Htried Hidx Hstep.
  assert (Hn : 0 < n) by lia.
  pose proof (after_range (g_zViewCurrentConnectionModeIndex (globals s)) n 1 Hn) as Hi.
  assert (Hrem : (g_zViewCurrentConnectionModeIndex (globals s) + 1) `rem` n
                 = after (g_zViewCurrentConnectionModeIndex (globals s)) n 1).
  { unfold after. apply Z.rem_mod_nonneg; lia. }
  destruct (lookup_lt_is_Some_2 modes
    (Z.to_nat (after (g_zViewCurrentConnectionModeIndex (globals s)) n 1))) as [z Hz];
    [subst n; lia|].
  specialize (Hstep z Hz). unfold switched in Hstep.
  cbn [switchZviewMode_loop].
  rewrite decide_True by done.
  exec idtac.
  all: rewrite ?modeIndex_set, ?modeIndex_set_set in *; rewrite ?Hrem in *.
  all: try rewrite decide_True in * by lia.
  all: subst modes; simplify_eq.
  - rewrite decide_True in Hstep by done. by rewrite <-app_assoc.
  - rewrite decide_False in Hstep by done. rewrite app_nil_r in Hstep.
    by destruct s as [g []].
Qed.

Lemma switchZviewMode_loop_found todo : forall tried s k m,
  0 <= tried -> Z.of_nat todo = n - tried ->
  0 <= g_zViewCurrentConnectionModeIndex (globals s) ->
  1 <= k <= Z.of_nat todo ->
  modes !! Z.to_nat (after (g_zViewCurrentConnectionModeIndex (globals s)) n k) = Some m ->
  availability m = ZV_MODE_AVAILABILITY_AVAILABLE ->
  (forall j, 1 <= j < k ->
     ~ available_at modes (after (g_zViewCurrentConnectionModeIndex (globals s)) n j)) ->
  wp (switchZviewMode_loop env active n tried todo) s (fun _ _ => False)
    (fun b s' => b = true /\
       s' = switched (after (g_zViewCurrentConnectionModeIndex (globals s)) n k)
              [EvPrintLog LogSwitchingModes; EvSetConnectionMode active (mode m)] s).
Proof.
  induction todo as [|todo IH]; intros tried s k m Htried Htodo Hidx Hk Hm Havail Hskip;
    [exfalso; lia|].
  assert (Hn : 0 < n) by lia.
  apply switchZviewMode_loop_step; [lia..|]. intros z Hz.
  destruct (decide (k = 1)) as [->|Hk1].
  - rewrite Hz in Hm. simplify_eq. by rewrite decide_True.
  - rewrite decide_False by (intros Hav; apply (Hskip 1); [lia|by exists z]).
    pose proof (after_range (g_zViewCurrentConnectionModeIndex (globals s)) n 1 Hn).
    eapply wp_mono; [apply (IH (tried + 1) _ (k - 1) m)|..];
      rewrite ?switched_index.
    + lia.
    + lia.
    + lia.
    + lia.
    + rewrite after_succ by done. by replace (1 + (k - 1)) with k by lia.
    + done.
    + intros j Hj. rewrite after_succ by done. apply Hskip. lia.
    + done.
    + simpl. intros b s' [-> ->]. rewrite switched_switched, after_succ by done. simpl.
      by replace (1 + (k - 1)) with k by lia.
Qed.

Lemma switchZviewMode_loop_none todo : forall tried s,
  0 <= tried -> Z.of_nat todo = n - tried ->
  0 <= g_zViewCurrentConnectionModeIndex (globals s) ->
  (forall j, 1 <= j <= Z.of_nat todo ->
     ~ available_at modes (after (g_zViewCurrentConnectionModeIndex (globals s)) n j)) ->
  wp (switchZviewMode_loop env active n tried todo) s (fun _ _ => False)
    (fun b s' => b = true /\ world s' = world s /\
       0 <= g_zViewCurrentConnectionModeIndex (globals s')).
Proof.
  induction todo as [|todo IH]; intros tried s Htried Htodo Hidx Hskip; [done|].
  assert (Hn : 0 < n) by lia.
  apply switchZviewMode_loop_step; [lia..|]. intros z Hz.
  rewrite decide_False by (intros Hav; apply (Hskip 1); [lia|by exists z]).
  pose proof (after_range (g_zViewCurrentConnectionModeIndex (globals s)) n 1 Hn).
  eapply wp_mono; [apply (IH (tried + 1))|..]; rewrite ?switched_index.
  + lia.
  + lia.
  + lia.
  + intros j Hj. rewrite after_succ by done. apply Hskip. lia.
  + done.
  + simpl. intros b s' (-> & -> & ?). split; [done|]. split; [|done].
    destruct s as [g []]. simpl. by rewrite app_nil_r.
Qed.
End SwitchLoop.

Lemma switchZviewMode_enters_loop env s R :
  switch_ready env s ->
  let active := g_zViewActiveConnection (globals s) in
  let n := Z.of_nat (length (env_supportedModes env active)) in
  wp (switchZviewMode_loop env active n 0 (Z.to_nat n))
    (switched (g_zViewCurrentConnectionModeIndex (globals s))
       [EvConnectionState active (env_connectionState env active)] s)
    (fun _ _ => False) R ->
  wp (switchZviewMode env) s (fun _ _ => False) R.
Proof.
  intros (Hactive & Hstate & Hst & Hnum & Hget & Hset & Hidx) active n Hloop.
  unfold switchZviewMode. exec idtac.
  all: try solve [exfalso; intuition congruence].
  revert Hloop. unfold switched. by rewrite modeIndex_set_same.
Qed.

(** C6. The switch-mode command, with an active connection in the state
    [NO_MODE] or [MODE_ACTIVE] and a runtime that answers: the mode index
    goes to the first index after the last-used one, going round the list
    of supported modes, whose mode is available -- the entries before it
    are not -- and the program asks the runtime for that mode, once; with
    no available mode, or no supported mode at all, it asks for no mode
    change. *)
Theorem switchZviewMode_next_available env s :
  switch_ready env s ->
  let active := g_zViewActiveConnection (globals s) in
  let modes := env_supportedModes env active in
  let n := Z.of_nat (length modes) in
  let last := g_zViewCurrentConnectionModeIndex (globals s) in
  (forall k m,
     1 <= k <= n ->
     (forall j, 1 <= j < k -> ~ available_at modes (after last n j)) ->
     modes !! Z.to_nat (after last n k) = Some m ->
     availability m = ZV_MODE_AVAILABILITY_AVAILABLE ->
     run (switchZviewMode env) s =
       (true, switched (after last n k)
                [EvConnectionState active (env_connectionState env active);
                 EvPrintLog LogSwitchingModes;
                 EvSetConnectionMode active (mode m)] s)) /\
  ((forall k, 1 <= k <= n -> ~ available_at modes (after last n k)) ->
   (run (switchZviewMode env) s).1 = true /\
   events_of (switchZviewMode env) s =
     [EvConnectionState active (env_connectionState env active)]).
Proof.
  intros Hready active modes n last.
  pose proof Hready as (Hactive & Hstate & Hst & Hnum & Hget & Hset & Hidx).
  split.
  - intros k m Hk Hskip Hm Havail. apply run_intro.
    apply switchZviewMode_enters_loop; [done|].
    eapply wp_mono;
      [apply (switchZviewMode_loop_found env active Hget Hset _ 0 _ k m)|..];
      rewrite ?switched_index; try done; try (subst n modes active; lia).
    simpl. intros b s' [-> ->]. by rewrite switched_switched.
  - intros Hnone. unfold events_of.
    apply (wp_run (switchZviewMode env) s (fun b s' => b = true /\
      drop (length (w_trace (world s))) (w_trace (world s')) =
        [EvConnectionState active (env_connectionState env active)])).
    apply switchZviewMode_enters_loop; [done|].
    eapply wp_mono;
      [apply (switchZviewMode_loop_none env active Hget Hset _ 0)|..];
      rewrite ?switched_index; try done; try (subst n modes active; lia).
    + intros j Hj. apply Hnone. subst n modes active; lia.
    + simpl. intros b s' (-> & -> & _). split; [done|]. simpl.
      by rewrite drop_app_length.
Qed.

Lemma switchZviewMode_next_available_witness :
  (switch_ready env_first_available example_standard /\
   run (switchZviewMode env_first_available) example_standard =
     (true, switched 0 [EvConnectionState 11 ZV_CONNECTION_STATE_MODE_ACTIVE;
                        EvPrintLog LogSwitchingModes;
                        EvSetConnectionMode 11 100] example_standard)) /\
  (switch_ready env_none_available example_standard /\
   events_of (switchZviewMode env_none_available) example_standard =
     [EvConnectionState 11 ZV_CONNECTION_STATE_MODE_ACTIVE]).
Proof.
  assert (Hready : forall modes,
    switch_ready (with_supportedModes modes env_standard_active) example_standard).
  { intros modes. vm_compute. repeat split; try discriminate; auto. }
  split; (split; [apply Hready|]).
  - apply (proj1 (switchZviewMode_next_available env_first_available example_standard
             (Hready _)) 3 {| mode := 100; availability := ZV_MODE_AVAILABILITY_AVAILABLE |});
      [done| |reflexivity..].
    intros j Hj (m & Hm & Hav).
    assert (j = 1 \/ j = 2) as [-> | ->] by lia; vm_compute in Hm; by simplify_eq.
  - apply (proj2 (switchZviewMode_next_available env_none_available example_standard
             (Hready _))).
    intros k Hk (m & Hm & Hav).
    assert (k = 1 \/ k = 2) as [-> | ->] by (change (1 <= k <= 2) in Hk; lia);
      vm_compute in Hm; by simplify_eq.
Defined.


(** ** Binary32 arithmetic *)

Lemma dig_spec p : 2 ^ (dig p - 1) <= Zpos p < 2 ^ dig p.
Proof.
  unfold dig. induction p as [p IH|p IH|]; cbn [digits2_pos].
  - rewrite Pos2Z.inj_succ.
    replace (Z.succ (Z.pos (digits2_pos p)) - 1) with (Z.succ (Z.pos (digits2_pos p) - 1)) by lia.
    rewrite !Z.pow_succ_r by lia. lia.
  - rewrite Pos2Z.inj_succ.
    replace (Z.succ (Z.pos (digits2_pos p)) - 1) with (Z.succ (Z.pos (digits2_pos p) - 1)) by lia.
    rewrite !Z.pow_succ_r by lia. lia.
  - simpl. lia.
Qed.

Lemma dig_pos p : 0 < dig p.
Proof. unfold dig. lia. Qed.

Lemma dig_le a b k : 0 <= k -> Zpos a <= Zpos b * 2 ^ k -> dig a <= dig b + k.
Proof.
  intros Hk Hle. pose proof (dig_spec a) as Ha. pose proof (dig_spec b) as Hb.
  pose proof (dig_pos a). pose proof (dig_pos b).
  assert (2 ^ (dig a - 1) < 2 ^ (dig b + k)) as Hlt.
  { rewrite Z.pow_add_r by lia. nia. }
  apply Z.pow_lt_mono_r_iff in Hlt; lia.
Qed.

Lemma dig_ge a b k : 0 <= k -> Zpos b * 2 ^ k <= Zpos a -> dig b + k <= dig a.
Proof.
  intros Hk Hle. pose proof (dig_spec a) as Ha. pose proof (dig_spec b) as Hb.
  pose proof (dig_pos a). pose proof (dig_pos b).
  assert (2 ^ (dig b - 1 + k) < 2 ^ dig a) as Hlt.
  { rewrite Z.pow_add_r by lia. nia. }
  apply Z.pow_lt_mono_r_iff in Hlt; lia.
Qed.

Lemma shl_align_spec m e e' :
  exists mz, Zpos mz = Zpos m * 2 ^ Z.max 0 (e - e') /\
    shl_align m e e' = (mz, e - Z.max 0 (e - e')).
Proof.
  unfold shl_align. destruct (e' - e) as [|p|p] eqn:Hd.
  - exists m. replace (Z.max 0 (e - e')) with 0 by lia. split; [lia|f_equal; lia].
  - exists m. replace (Z.max 0 (e - e')) with 0 by lia. split; [lia|f_equal; lia].
  - exists (Pos.iter xO m p). replace (Z.max 0 (e - e')) with (Zpos p) by lia.
    split; [|f_equal; lia].
    change (Pos.iter xO m p) with (shift_pos p m).
    rewrite shift_pos_correct, Zpower_pos_nat, Zpower_nat_Z, positive_nat_Z. lia.
Qed.

Lemma iter_pos_nat {A : Type} (f : A -> A) p : forall x,
  SpecFloat.iter_pos f p x = Nat.iter (Pos.to_nat p) f x.
Proof.
  induction p as [p IH|p IH|]; intros x; cbn [SpecFloat.iter_pos].
  - rewrite !IH, Pos2Nat.inj_xI.
    replace (2 * Pos.to_nat p)%nat with (Pos.to_nat p + Pos.to_nat p)%nat by lia.
    by rewrite Nat.iter_succ, Nat.iter_add, !Nat.iter_swap.
  - rewrite !IH, Pos2Nat.inj_xO.
    replace (2 * Pos.to_nat p)%nat with (Pos.to_nat p + Pos.to_nat p)%nat by lia.
    by rewrite Nat.iter_add.
  - reflexivity.
Qed.

Lemma shr_1_spec mrs :
  0 <= shr_m mrs ->
  shr_m (shr_1 mrs) = shr_m mrs / 2 /\
  shr_r (shr_1 mrs) = Z.odd (shr_m mrs) /\
  shr_s (shr_1 mrs) = shr_r mrs || shr_s mrs.
Proof.
  destruct mrs as [m r s]. simpl. intros Hm. rewrite <-Z.div2_div.
  by destruct m as [|[]|].
Qed.

Lemma shr_iter_spec m k :
  0 <= m ->
  let mrs := Nat.iter k shr_1 (Build_shr_record m false false) in
  shr_m mrs = m / 2 ^ Z.of_nat k /\
  (m mod 2 ^ Z.of_nat k = 0 -> loc_of_shr_record mrs = loc_Exact).
Proof.
  intros Hm. cbv zeta. induction k as [|k [IHm IHx]].
  - simpl. by rewrite Z.div_1_r.
  - set (mrs := Nat.iter k shr_1 _) in *.
    change (Nat.iter (S k) shr_1 _) with (shr_1 mrs).
    assert (0 <= shr_m mrs) as Hq by (rewrite IHm; apply Z.div_pos; lia).
    destruct (shr_1_spec mrs Hq) as (Hm' & Hr' & Hs').
    rewrite Nat2Z.inj_succ, Z.pow_succ_r by lia. split.
    + rewrite Hm', IHm, Z.div_div by lia. f_equal. lia.
    + intros Hmod. apply Z.mod_divide in Hmod as [c Hc]; [|lia].
      assert (m = (2 * c) * 2 ^ Z.of_nat k) as Hm2 by lia.
      assert (loc_of_shr_record mrs = loc_Exact) as Hloc.
      { apply IHx. rewrite Hm2. apply Z.mod_mul. lia. }
      assert (shr_m mrs = 2 * c) as Hq2.
      { rewrite IHm, Hm2. apply Z.div_mul. lia. }
      destruct (shr_1 mrs) as [m1 r1 s1], mrs as [m0 r0 s0]. simpl in *.
      subst r1 s1. rewrite Hq2, Z.odd_mul. simpl.
      by destruct r0, s0.
Qed.

Lemma shr_spec m e n :
  0 <= m ->
  exists mrs,
    shr (Build_shr_record m false false) e n = (mrs, e + Z.max 0 n) /\
    shr_m mrs = m / 2 ^ Z.max 0 n /\
    (m mod 2 ^ Z.max 0 n = 0 -> loc_of_shr_record mrs = loc_Exact).
Proof.
  intros Hm. unfold shr. destruct n as [|p|p].
  - eexists. split; [f_equal; lia|]. simpl. by rewrite Z.div_1_r.
  - eexists. split; [f_equal; lia|]. rewrite iter_pos_nat.
    replace (Z.max 0 (Zpos p)) with (Z.of_nat (Pos.to_nat p)) by lia.
    by apply shr_iter_spec.
  - eexists. split; [f_equal; lia|]. simpl. by rewrite Z.div_1_r.
Qed.

Lemma round_nearest_even_spec q l :
  (round_nearest_even q l = q \/ round_nearest_even q l = q + 1) /\
  (l = loc_Exact -> round_nearest_even q l = q).
Proof.
  destruct l as [|[]]; simpl; try destruct (Z.even q); (split; [auto|by intros]).
Qed.

Lemma fexp_eq x : fexp F32.prec F32.emax x = Z.max (x - 24) (-149).
Proof. reflexivity. Qed.

Lemma Zdigits2_pos p : Zdigits2 (Zpos p) = dig p.
Proof. reflexivity. Qed.

(** What [binary_round] computes: the mantissa [m] at exponent [e] is
    brought to the exponent [E] of its magnitude, there truncated to [q]
    and rounded to [m1]; a carry into one more digit costs one more
    shift. *)
Lemma binary_round_spec s m e :
  let E := Z.max (dig m + e - 24) (-149) in
  let d := Z.max 0 (e - E) in
  let n := Z.max 0 (E - e) in
  let q := (Zpos m * 2 ^ d) / 2 ^ n in
  exists m1,
    (m1 = q \/ m1 = q + 1) /\
    ((Zpos m * 2 ^ d) mod 2 ^ n = 0 -> m1 = q) /\
    binary_round F32.prec F32.emax s m e =
      let n2 := Z.max 0 (Z.max (Zdigits2 m1 + E - 24) (-149) - E) in
      match m1 / 2 ^ n2 with
      | Z0 => S754_zero s
      | Zpos m2 =>
          if E + n2 <=? 104 then S754_finite s m2 (E + n2) else S754_infinity s
      | Zneg _ => S754_nan
      end.
Proof.
  intros E d n q. unfold binary_round, binary_round_aux, shr_fexp.
  change (fexp F32.prec F32.emax) with (fun x => Z.max (x - 24) (-149)).
  change (F32.emax - F32.prec) with 104. cbv beta.
  change (Z.pos (digits2_pos m)) with (dig m). fold E.
  destruct (shl_align_spec m e E) as (mz & Hmz & ->). fold d in Hmz |- *.
  assert (Hd : 0 <= d) by lia.
  assert (Hdig : dig mz = dig m + d).
  { apply Z.le_antisymm; [apply dig_le|apply dig_ge]; lia. }
  rewrite Zdigits2_pos, Hdig.
  replace (dig m + d + (e - d)) with (dig m + e) by lia. fold E.
  cbn [shr_record_of_loc].
  destruct (shr_spec (Zpos mz) (e - d) (E - (e - d))) as (mrs & -> & Hq & Hx); [lia|].
  replace (Z.max 0 (E - (e - d))) with n in * by lia.
  replace (e - d + n) with E by lia.
  set (m1 := round_nearest_even (shr_m mrs) (loc_of_shr_record mrs)).
  assert (Hq0 : 0 <= q) by (apply Z.div_pos; lia).
  rewrite Hmz in Hq, Hx. fold q in Hq.
  destruct (round_nearest_even_spec (shr_m mrs) (loc_of_shr_record mrs)) as [Hm1 Hex].
  fold m1 in Hm1, Hex. rewrite Hq in Hm1, Hex.
  exists m1. split; [done|]. split; [auto|].
  destruct (shr_spec m1 E (Z.max (Zdigits2 m1 + E - 24) (-149) - E))
    as (mrs2 & -> & Hq2 & _); [lia|].
  by rewrite Hq2.
Qed.

Lemma bounded_spec mx ex :
  bounded F32.prec F32.emax mx ex = true ->
  Z.max (dig mx + ex - 24) (-149) = ex /\ ex <= 104.
Proof.
  unfold bounded, canonical_mantissa. rewrite fexp_eq. fold (dig mx).
  intros [H1 H2]%andb_true_iff. apply Z.eqb_eq in H1. apply Z.leb_le in H2.
  change (F32.emax - F32.prec) with 104 in H2. lia.
Qed.

Lemma pow2_pos k : 0 < 2 ^ k \/ (k < 0 /\ 2 ^ k = 0).
Proof.
  destruct (Z.le_gt_cases 0 k).
  - left. by apply Z.pow_pos_nonneg.
  - right. split; [done|]. by apply Z.pow_neg_r.
Qed.

(** Dropping fewer digits than a number has leaves something. *)
Lemma div_pow2_pos p k : 0 <= k < dig p -> 0 < Zpos p / 2 ^ k.
Proof.
  intros Hk. apply Z.div_str_pos. split; [apply Z.pow_pos_nonneg; lia|].
  pose proof (dig_spec p) as [Hp _].
  etrans; [|exact Hp]. apply Z.pow_le_mono_r; lia.
Qed.

Lemma binary_round_ge s m e mx ex :
  bounded F32.prec F32.emax mx ex = true ->
  e <= ex -> Zpos mx * 2 ^ (ex - e) <= Zpos m ->
  binary_round F32.prec F32.emax s m e = S754_infinity s \/
  exists m2 e2,
    binary_round F32.prec F32.emax s m e = S754_finite s m2 e2 /\
    (ex < e2 \/ (e2 = ex /\ Zpos mx <= Zpos m2)).
Proof.
  intros [Hcan Hex]%bounded_spec He Hle.
  destruct (binary_round_spec s m e) as (m1 & Hm1 & _ & ->).
  pose proof (dig_ge m mx (ex - e) ltac:(lia) Hle) as Hdig.
  cbv zeta. set (E := Z.max (dig m + e - 24) (-149)) in *.
  assert (HE : ex <= E) by lia.
  replace (Z.max 0 (e - E)) with 0 in * by lia.
  replace (Z.max 0 (E - e)) with (E - e) in * by lia.
  rewrite Z.pow_0_r, Z.mul_1_r in Hm1.
  set (q := Zpos m / 2 ^ (E - e)) in *.
  assert (0 < q /\ (E = ex -> Zpos mx <= q)) as [Hq0 Hqx].
  { destruct (decide (E = ex)) as [->|HEx].
    - assert (Zpos mx <= q); [|lia].
      apply Z.div_le_lower_bound; [apply Z.pow_pos_nonneg; lia|lia].
    - split; [|done]. apply div_pow2_pos. pose proof (dig_pos m). lia. }
  assert (Hm1' : q <= m1) by lia.
  destruct m1 as [|p1|p1]; try lia.
  rewrite Zdigits2_pos. set (n2 := Z.max 0 (Z.max (dig p1 + E - 24) (-149) - E)).
  pose proof (div_pow2_pos p1 n2 ltac:(pose proof (dig_pos p1); lia)) as Hm2.
  destruct (Zpos p1 / 2 ^ n2) as [|m2|m2] eqn:Hdiv; try lia.
  destruct (E + n2 <=? 104); [|by left].
  right. exists m2, (E + n2). split; [done|].
  destruct (decide (n2 = 0)) as [Hn2|Hn2]; [|lia].
  rewrite Hn2, Z.div_1_r in Hdiv. lia.
Qed.

Lemma binary_round_le s m e mx ex :
  bounded F32.prec F32.emax mx ex = true ->
  e <= ex -> Zpos m <= Zpos mx * 2 ^ (ex - e) ->
  binary_round F32.prec F32.emax s m e = S754_zero s \/
  exists m2 e2,
    binary_round F32.prec F32.emax s m e = S754_finite s m2 e2 /\
    (e2 < ex \/ (e2 = ex /\ Zpos m2 <= Zpos mx)).
Proof.
  intros [Hcan Hex]%bounded_spec He Hle.
  destruct (binary_round_spec s m e) as (m1 & Hm1 & Hexact & ->).
  pose proof (dig_le m mx (ex - e) ltac:(lia) Hle) as Hdig.
  cbv zeta. set (E := Z.max (dig m + e - 24) (-149)) in *.
  assert (HE : E <= ex) by lia.
  set (d := Z.max 0 (e - E)) in *. set (n := Z.max 0 (E - e)) in *.
  set (q := Zpos m * 2 ^ d / 2 ^ n) in *.
  set (G := Zpos mx * 2 ^ (ex - E)).
  assert (Hpd : 0 < 2 ^ d) by (apply Z.pow_pos_nonneg; lia).
  assert (Hpn : 0 < 2 ^ n) by (apply Z.pow_pos_nonneg; lia).
  assert (HpG : 0 < 2 ^ (ex - E)) by (apply Z.pow_pos_nonneg; lia).
  assert (HG : Zpos m * 2 ^ d <= G * 2 ^ n).
  { unfold G. rewrite <-Z.mul_assoc, <-Z.pow_add_r by lia.
    etrans; [apply Z.mul_le_mono_nonneg_r; [lia|exact Hle]|].
    rewrite <-Z.mul_assoc, <-Z.pow_add_r by lia.
    replace (ex - e + d) with (ex - E + n) by lia. done. }
  assert (Hm1G : 0 <= m1 <= G).
  { assert (0 <= q) by (apply Z.div_pos; lia).
    assert (q <= G) by (apply Z.div_le_upper_bound; lia).
    destruct (decide (q = G)) as [HqG|HqG]; [|lia].
    rewrite Hexact; [lia|].
    pose proof (Z.mul_div_le (Zpos m * 2 ^ d) (2 ^ n) Hpn) as Hfloor. fold q in Hfloor.
    assert (Zpos m * 2 ^ d = G * 2 ^ n) as -> by lia.
    by apply Z.mod_mul, Z.neq_sym, Z.lt_neq. }
  destruct m1 as [|p1|p1]; [by left| |lia].
  rewrite Zdigits2_pos.
  pose proof (dig_le p1 mx (ex - E) ltac:(lia) ltac:(fold G; lia)) as Hdig1.
  set (n2 := Z.max 0 (Z.max (dig p1 + E - 24) (-149) - E)).
  assert (Hn2 : 0 <= n2 /\ E + n2 <= ex) by lia.
  assert (Hp2 : 0 < 2 ^ n2) by (apply Z.pow_pos_nonneg; lia).
  assert (Hdiv : 0 <= Zpos p1 / 2 ^ n2) by (apply Z.div_pos; lia).
  destruct (Zpos p1 / 2 ^ n2) as [|m2|m2] eqn:Hm2; [by left| |lia].
  rewrite (proj2 (Z.leb_le _ _)) by lia.
  right. exists m2, (E + n2). split; [done|].
  destruct (decide (E + n2 = ex)) as [Hlast|Hlast]; [|lia].
  right. split; [done|]. rewrite <-Hm2.
  apply Z.div_le_upper_bound; [done|].
  replace n2 with (ex - E) by lia. fold G. lia.
Qed.

(** A rounded number keeps its sign and is never a NaN. *)
Lemma binary_round_sign s m e :
  binary_round F32.prec F32.emax s m e = S754_zero s \/
  binary_round F32.prec F32.emax s m e = S754_infinity s \/
  exists m2 e2, binary_round F32.prec F32.emax s m e = S754_finite s m2 e2.
Proof.
  destruct (binary_round_spec s m e) as (m1 & Hm1 & _ & ->). cbv zeta.
  set (q := _ / _) in Hm1. set (n2 := Z.max 0 _).
  assert (0 <= q).
  { apply Z.div_pos; [|apply Z.pow_pos_nonneg; lia].
    pose proof (Z.pow_nonneg 2 (Z.max 0 (e - Z.max (dig m + e - 24) (-149)))). lia. }
  assert (0 <= m1 / 2 ^ n2) by (apply Z.div_pos; [|apply Z.pow_pos_nonneg]; lia).
  destruct (m1 / 2 ^ n2) as [|m2|m2]; [by left| |lia].
  destruct (_ <=? _); eauto.
Qed.

(** The order of two finite numbers of the same sign, the magnitude of the
    first being at most that of the second. *)
Lemma SFleb_finite m1 e1 m2 e2 :
  e1 < e2 \/ (e2 = e1 /\ Zpos m1 <= Zpos m2) ->
  SFleb (S754_finite false m1 e1) (S754_finite false m2 e2) = true /\
  SFleb (S754_finite true m2 e2) (S754_finite true m1 e1) = true.
Proof.
  unfold SFleb, SFcompare.
  change (Pos.compare_cont Eq m1 m2) with (m1 ?= m2)%positive.
  change (Pos.compare_cont Eq m2 m1) with (m2 ?= m1)%positive.
  rewrite (Z.compare_antisym e1 e2), (Pos.compare_antisym m1 m2).
  intros [Hlt|[-> Hle]].
  - apply Z.compare_lt_iff in Hlt. by rewrite Hlt.
  - rewrite Z.compare_refl. simpl.
    apply Pos2Z.pos_le_pos, Pos.compare_le_iff in Hle.
    by destruct (m1 ?= m2)%positive.
Qed.

Lemma add_not_nan v inc :
  F32.is_nan v = false -> F32.is_finite inc = true -> F32.is_nan (F32.add v inc) = false.
Proof.
  unfold F32.add, SFadd.
  destruct v as [sv|sv| |sv mv ev], inc as [si|si| |si mi ei]; try done.
  - by destruct sv, si.
  - intros _ _. unfold binary_normalize.
    destruct (_ + _) as [|p|p]; [done|..].
    + by destruct (binary_round_sign false p (Z.min ev ei)) as [->|[->|(? & ? & ->)]].
    + by destruct (binary_round_sign true p (Z.min ev ei)) as [->|[->|(? & ? & ->)]].
Qed.

(** Adding a positive number does not make a number smaller, and adding a
    negative number does not make it larger: rounding to nearest cannot
    cross the number itself, which is representable. *)
Lemma add_monotone v mi ei :
  F32.valid v = true -> F32.is_nan v = false ->
  F32.valid (S754_finite false mi ei) = true ->
  F32.leb v (F32.add v (S754_finite false mi ei)) = true /\
  F32.leb (F32.add v (S754_finite true mi ei)) v = true.
Proof.
  intros Hv Hnan Hi. destruct v as [sv|sv| |sv mv ev]; try done.
  { by destruct sv. }
  unfold F32.leb, F32.add, SFadd, F32.valid, valid_binary in *.
  - set (ez := Z.min ev ei).
    destruct (shl_align_spec mv ev ez) as (av & Hav & ->).
    destruct (shl_align_spec mi ei ez) as (ai & Hai & ->). cbn [fst].
    replace (Z.max 0 (ev - ez)) with (ev - ez) in Hav by lia.
    assert (Hez : ez <= ev) by lia. clearbody ez.
    unfold binary_normalize. split.
    + destruct sv; cbn [cond_Zopp].
      * destruct (- Zpos av + Zpos ai) as [|p|p] eqn:Hp; [done|..].
        -- by destruct (binary_round_sign false p ez) as [->|[->|(? & ? & ->)]].
        -- destruct (binary_round_le true p ez mv ev Hv Hez ltac:(lia))
             as [->|(m2 & e2 & -> & Hle)]; [done|].
           apply SFleb_finite; lia.
      * change (Zpos av + Zpos ai) with (Zpos (av + ai)).
        destruct (binary_round_ge false (av + ai) ez mv ev Hv Hez ltac:(lia))
          as [->|(m2 & e2 & -> & Hle)]; [done|].
        apply SFleb_finite; lia.
    + destruct sv; cbn [cond_Zopp].
      * change (- Zpos av + - Zpos ai) with (Zneg (av + ai)).
        destruct (binary_round_ge true (av + ai) ez mv ev Hv Hez ltac:(lia))
          as [->|(m2 & e2 & -> & Hle)]; [done|].
        apply SFleb_finite; lia.
      * destruct (Zpos av + - Zpos ai) as [|p|p] eqn:Hp; [done|..].
        -- destruct (binary_round_le false p ez mv ev Hv Hez ltac:(lia))
             as [->|(m2 & e2 & -> & Hle)]; [done|].
           apply SFleb_finite; lia.
        -- by destruct (binary_round_sign true p ez) as [->|[->|(? & ? & ->)]].
Qed.

(** Dropping [k] of the digits of a number leaves the other digits. *)
Lemma dig_div p k :
  0 <= k < dig p -> exists p', Zpos p / 2 ^ k = Zpos p' /\ dig p' = dig p - k.
Proof.
  intros Hk. pose proof (div_pow2_pos p k Hk) as Hpos.
  destruct (Zpos p / 2 ^ k) as [|p'|p'] eqn:Hdiv; try lia.
  exists p'. split; [done|].
  assert (Hpk : 0 < 2 ^ k) by (apply Z.pow_pos_nonneg; lia).
  pose proof (Z.mul_div_le (Zpos p) (2 ^ k) Hpk) as Hlo.
  pose proof (Z.mul_succ_div_gt (Zpos p) (2 ^ k) Hpk) as Hhi.
  rewrite Hdiv in Hlo, Hhi.
  pose proof (dig_pos p').
  pose proof (dig_ge p p' k ltac:(lia) ltac:(lia)).
  pose proof (dig_spec p) as [Hp _]. pose proof (dig_spec p') as [_ Hp'].
  assert (2 ^ (dig p - 1) < 2 ^ (dig p' + k)) as Hlt.
  { rewrite Z.pow_add_r by lia. nia. }
  apply Z.pow_lt_mono_r_iff in Hlt; lia.
Qed.

Lemma binary_round_valid s m e :
  valid_binary F32.prec F32.emax (binary_round F32.prec F32.emax s m e) = true.
Proof.
  destruct (binary_round_spec s m e) as (m1 & Hm1 & _ & ->). cbv zeta.
  set (E := Z.max (dig m + e - 24) (-149)) in *.
  set (d := Z.max 0 (e - E)) in *. set (n := Z.max 0 (E - e)) in *.
  set (q := _ / _) in Hm1. set (n2 := Z.max 0 _).
  assert (0 <= q /\ (-149 < E -> 2 ^ 23 <= q)) as [Hq0 Hq23].
  { assert (exists mz, Zpos mz = Zpos m * 2 ^ d /\ dig mz = dig m + d) as (mz & Hmz & Hdig).
    { exists (Z.to_pos (Zpos m * 2 ^ d)).
      assert (0 < 2 ^ d) by (apply Z.pow_pos_nonneg; lia).
      assert (Hmz : Zpos (Z.to_pos (Zpos m * 2 ^ d)) = Zpos m * 2 ^ d) by (apply Z2Pos.id; lia).
      split; [done|].
      apply Z.le_antisymm; [apply dig_le|apply dig_ge]; lia. }
    unfold q. rewrite <-Hmz. split; [apply Z.div_pos; [lia|apply Z.pow_pos_nonneg; lia]|].
    intros HE. destruct (dig_div mz n) as (p' & -> & Hp'); [pose proof (dig_pos m); lia|].
    pose proof (dig_spec p') as [Hlo _]. replace (dig p' - 1) with 23 in Hlo by lia. done. }
  destruct m1 as [|p1|p1]; try lia.
  { rewrite Z.div_0_l; [done|]. apply Z.neq_sym, Z.lt_neq, Z.pow_pos_nonneg; lia. }
  subst n2. rewrite Zdigits2_pos. set (n2 := Z.max 0 _).
  assert (Hp1 : -149 < E -> 24 <= dig p1).
  { intros HE. specialize (Hq23 HE). pose proof (dig_spec p1) as [_ Hhi].
    assert (2 ^ 23 < 2 ^ dig p1) as Hlt by lia.
    apply Z.pow_lt_mono_r_iff in Hlt; pose proof (dig_pos p1); lia. }
  destruct (dig_div p1 n2) as (p2 & -> & Hp2); [pose proof (dig_pos p1); lia|].
  destruct (E + n2 <=? 104) eqn:Hmax; [|done].
  unfold valid_binary, bounded, canonical_mantissa. rewrite fexp_eq. fold (dig p2).
  apply andb_true_iff. split; [apply Z.eqb_eq; lia|done].
Qed.

Lemma add_valid v inc :
  F32.valid v = true -> F32.valid inc = true -> F32.valid (F32.add v inc) = true.
Proof.
  unfold F32.valid, F32.add, SFadd.
  destruct v as [sv|sv| |sv mv ev], inc as [si|si| |si mi ei]; try done.
  - by destruct sv, si.
  - by destruct sv, si.
  - intros _ _. unfold binary_normalize. destruct (_ + _); [done|..];
      apply binary_round_valid.
Qed.

(** ** Comparisons and clamping *)

Lemma SFcompare_antisym x y : SFcompare y x = CompOpp <$> SFcompare x y.
Proof.
  destruct x as [[]|[]| |[] mx ex], y as [[]|[]| |[] my ey]; simpl; try reflexivity.
  all: rewrite (Z.compare_antisym ex ey); destruct (ex ?= ey); simpl; try reflexivity.
  all: change (Pos.compare_cont Eq my mx) with (my ?= mx)%positive;
    change (Pos.compare_cont Eq mx my) with (mx ?= my)%positive.
  all: rewrite (Pos.compare_antisym mx my); destruct (mx ?= my)%positive; reflexivity.
Qed.

Lemma SFcompare_refl x : F32.is_nan x = false -> SFcompare x x = Some Eq.
Proof.
  destruct x as [[]|[]| |[] mx ex]; simpl; try done; intros _.
  all: change (Pos.compare_cont Eq mx mx) with (mx ?= mx)%positive.
  all: by rewrite Z.compare_refl, Pos.compare_refl.
Qed.

Lemma SFcompare_nan x y : SFcompare x y ≠ None -> F32.is_nan x = false /\ F32.is_nan y = false.
Proof. destruct x as [[]|[]| |[] mx ex], y as [[]|[]| |[] my ey]; simpl; done. Qed.

Lemma SFcompare_total x y :
  F32.is_nan x = false -> F32.is_nan y = false -> SFcompare x y ≠ None.
Proof.
  destruct x as [[]|[]| |[] mx ex], y as [[]|[]| |[] my ey]; simpl; try done.
  all: intros _ _; destruct (ex ?= ey); try done.
Qed.

Lemma leb_refl x : F32.is_nan x = false -> F32.leb x x = true.
Proof. intros H. unfold F32.leb, SFleb. by rewrite SFcompare_refl. Qed.

Lemma leb_not_nan x y : F32.leb x y = true -> F32.is_nan x = false /\ F32.is_nan y = false.
Proof.
  unfold F32.leb, SFleb. intros H. apply SFcompare_nan. by destruct (SFcompare x y).
Qed.

Lemma not_ltb_leb x y :
  F32.is_nan x = false -> F32.is_nan y = false -> F32.ltb x y = false -> F32.leb y x = true.
Proof.
  intros Hx Hy. unfold F32.ltb, F32.leb, SFltb, SFleb. rewrite (SFcompare_antisym x y).
  pose proof (SFcompare_total x y Hx Hy).
  by destruct (SFcompare x y) as [[]|].
Qed.

Lemma clamp_within x min max :
  F32.leb min max = true -> F32.is_nan x = false -> within min max (clamp x min max).
Proof.
  intros Hle Hx. destruct (leb_not_nan _ _ Hle) as [Hmin Hmax].
  unfold clamp, within, F32.gtb.
  destruct (F32.ltb x min) eqn:Hlt; [by rewrite leb_refl|].
  destruct (SFltb max x) eqn:Hgt; [by rewrite leb_refl|].
  split; by apply not_ltb_leb.
Qed.

Lemma clamp_cases x min max :
  clamp x min max = x \/ clamp x min max = min \/ clamp x min max = max.
Proof. unfold clamp. destruct (F32.ltb x min), (F32.gtb x max); auto. Qed.


(** ** The overlay keys *)

Lemma incrementZviewSettingClampedF32_run env c k inc min max s v :
  (forall call, zv_error env call = ZV_ERROR_OK) ->
  setting s c k = Some (SettingF32 v) ->
  exists s',
    run (incrementZviewSettingClampedF32 env c k inc min max) s = (true, s') /\
    globals s' = globals s /\
    setting s' c k = Some (SettingF32 (clamp (F32.add v inc) min max)).
Proof.
  intros Hok Hv. unfold setting in Hv.
  assert (Hrun : wp (incrementZviewSettingClampedF32 env c k inc min max) s (fun _ _ => False)
    (fun b s' => b = true /\ globals s' = globals s /\
       setting s' c k = Some (SettingF32 (clamp (F32.add v inc) min max)))).
  { unfold incrementZviewSettingClampedF32. exec idtac.
    all: simplify_eq; unfold setting; simpl.
    all: by rewrite lookup_total_insert_eq; simpl; rewrite lookup_insert_eq. }
  apply wp_run in Hrun. destruct (run _ s) as [b s']. simpl in Hrun.
  destruct Hrun as (-> & ? & ?). by exists s'.
Qed.


Lemma overlay_offset_key_press env s letter k step v :
  overlay_ready env s ->
  (letter, k, step) ∈ overlay_offset_keys ->
  let active := g_zViewActiveConnection (globals s) in
  let imageWidth :=
    g_zViewAugmentedRealityModeImageWidth (augmentedRealityMode (globals s)) in
  setting s active k = Some (SettingF32 v) ->
  wp (processZviewAugmentedRealityModeOverlayControlKeyPress env (VK letter)) s
    (fun _ _ => False)
    (fun b s' => b = true /\
       setting s' active k =
         Some (SettingF32 (clamp (F32.add v step)
                             (F32.of_Z (- imageWidth)) (F32.of_Z imageWidth)))).
Proof.
  intros (Hactive & Hok & Hstate & Hmode & Hctrl) Hin active imageWidth Hv.
  unfold overlay_offset_keys in Hin.
  repeat (apply elem_of_cons in Hin as [Hin|Hin]; [simplify_eq|]); [..|by apply elem_of_nil in Hin].
  all: unfold processZviewAugmentedRealityModeOverlayControlKeyPress.
  all: exec ltac:(idtac;
    lazymatch goal with
    | |- context [run (incrementZviewSettingClampedF32 ?env ?c ?k ?inc ?min ?max) ?s] =>
        let s' := fresh "s'" in
        destruct (incrementZviewSettingClampedF32_run env c k inc min max s v Hok Hv)
          as (s' & -> & ? & ?); simpl fst; simpl snd
    end).
  all: by split.
Qed.


Lemma of_Z_opp_le w : 0 <= w -> F32.leb (F32.of_Z (- w)) (F32.of_Z w) = true.
Proof.
  intros Hw. unfold F32.leb, F32.of_Z, binary_normalize.
  destruct w as [|p|p]; [done| |lia]. change (- Zpos p) with (Zneg p). cbv iota.
  by destruct (binary_round_sign true p 0) as [->|[->|(? & ? & ->)]],
       (binary_round_sign false p 0) as [->|[->|(? & ? & ->)]].
Qed.

Lemma with_imageHeight_ready env imageHeight s :
  overlay_ready env s -> overlay_ready env (with_imageHeight imageHeight s).
Proof. done. Qed.

(** C9. The keys that move the overlay of the augmented reality mode, [S]
    and [W] for the vertical offset as well as [A] and [D] for the
    horizontal one, write the stored offset plus or minus one, clamped
    between minus the width and plus the width of the augmented reality
    image: the new value lies between these two bounds whenever the stored
    one is a number, and it is the same whatever the height of the image
    is. *)
Theorem overlay_offset_clamped_by_width env s letter k step v :
  overlay_ready env s ->
  (letter, k, step) ∈ overlay_offset_keys ->
  let active := g_zViewActiveConnection (globals s) in
  let imageWidth :=
    g_zViewAugmentedRealityModeImageWidth (augmentedRealityMode (globals s)) in
  let press := run (processZviewAugmentedRealityModeOverlayControlKeyPress env (VK letter)) in
  let v' := clamp (F32.add v step) (F32.of_Z (- imageWidth)) (F32.of_Z imageWidth) in
  0 <= imageWidth ->
  setting s active k = Some (SettingF32 v) ->
  (press s).1 = true /\
  setting (press s).2 active k = Some (SettingF32 v') /\
  (F32.is_nan v = false -> within (F32.of_Z (- imageWidth)) (F32.of_Z imageWidth) v') /\
  (forall imageHeight,
     setting (press (with_imageHeight imageHeight s)).2 active k = Some (SettingF32 v')).
Proof.
  intros Hready Hin active imageWidth press v' Hwidth Hv.
  pose proof (overlay_offset_key_press env s letter k step v Hready Hin Hv) as Hs.
  apply wp_run in Hs as [Hok Hset].
  split; [done|]. split; [done|]. split.
  - intros Hnan. apply clamp_within; [by apply of_Z_opp_le|].
    apply add_not_nan; [done|].
    unfold overlay_offset_keys in Hin.
    repeat (apply elem_of_cons in Hin as [Hin|Hin]; [by simplify_eq|]).
    by apply elem_of_nil in Hin.
  - intros imageHeight.
    pose proof (overlay_offset_key_press env (with_imageHeight imageHeight s)
                  letter k step v (with_imageHeight_ready _ _ _ Hready) Hin Hv) as Hs'.
    by apply wp_run in Hs' as [_ Hset'].
Qed.

Lemma overlay_offset_clamped_by_width_witness :
  let s := remote_setting 11 ZV_SETTING_KEY_OVERLAY_OFFSET_Y
             (SettingF32 (F32.of_Z 640)) example_augmented in
  let press := run (processZviewAugmentedRealityModeOverlayControlKeyPress
                      env_augmented_active (VK "W")) in
  overlay_ready env_augmented_active s /\
  g_zViewAugmentedRealityModeImageWidth (augmentedRealityMode (globals s)) = 640 /\
  g_zViewAugmentedRealityModeImageHeight (augmentedRealityMode (globals s)) = 480 /\
  setting (press s).2 11 ZV_SETTING_KEY_OVERLAY_OFFSET_Y = Some (SettingF32 (F32.of_Z 640)).
Proof.
  intros s press.
  assert (Hready : overlay_ready env_augmented_active s).
  { vm_compute. repeat split; try discriminate; auto. }
  split; [exact Hready|]. split; [by vm_compute|]. split; [by vm_compute|].
  assert (Hin : ("W"%char, ZV_SETTING_KEY_OVERLAY_OFFSET_Y, F32.one) ∈ overlay_offset_keys).
  { unfold overlay_offset_keys. repeat constructor. }
  destruct (overlay_offset_clamped_by_width env_augmented_active s "W"
              ZV_SETTING_KEY_OVERLAY_OFFSET_Y F32.one (F32.of_Z 640) Hready Hin)
    as (_ & Hset & _); [by vm_compute|by vm_compute|].
  vm_compute in Hset |- *. exact Hset.
Defined.

(** ** Clamped increments *)

Lemma clamp_not_nan x min max :
  F32.is_nan x = false -> F32.is_nan min = false -> F32.is_nan max = false ->
  F32.is_nan (clamp x min max) = false.
Proof. intros. by destruct (clamp_cases x min max) as [->|[->| ->]]. Qed.

Lemma clamp_valid x min max :
  F32.valid x = true -> F32.valid min = true -> F32.valid max = true ->
  F32.valid (clamp x min max) = true.
Proof. intros. by destruct (clamp_cases x min max) as [->|[->| ->]]. Qed.

(** The increments with a sign are the finite numbers other than zero. *)
Lemma clamp_add_direction v inc min max :
  F32.valid v = true -> F32.is_nan v = false -> finite_increment inc ->
  let r := clamp (F32.add v inc) min max in
  (F32.ltb F32.zero inc = true -> F32.leb v r = true \/ r = min \/ r = max) /\
  (F32.ltb inc F32.zero = true -> F32.leb r v = true \/ r = min \/ r = max).
Proof.
  intros Hv Hnan [Hfin Hinc] r.
  destruct (clamp_cases (F32.add v inc) min max) as [Hr|[Hr|Hr]]; fold r in Hr; auto.
  rewrite Hr. destruct inc as [si|si| |si mi ei]; try done.
  destruct (add_monotone v mi ei Hv Hnan Hinc) as [Hup Hdown].
  destruct si; split; try done; auto.
Qed.

(** C4. Clamped increments of a stored number that is not a NaN, by
    finite increments and between bounds [min <= max]: every increment
    reads the stored value, adds the increment, clamps the sum and writes
    it back; after every increment of a sequence the stored value lies
    between the bounds, and it is not below the value before a positive
    increment, nor above the value before a negative one, unless it is one
    of the bounds. *)
Theorem clamped_increments_bounded env c k min max incs : forall s v,
  (forall call, zv_error env call = ZV_ERROR_OK) ->
  F32.leb min max = true -> F32.valid min = true -> F32.valid max = true ->
  setting s c k = Some (SettingF32 v) ->
  F32.is_nan v = false -> F32.valid v = true ->
  Forall finite_increment incs ->
  Forall (clamped_step min max) (clamped_increments env c k min max incs s).
Proof.
  induction incs as [|inc incs IH]; intros s v Hok Hle Hmin Hmax Hs Hnan Hv Hincs;
    cbn [clamped_increments]; [constructor|].
  apply Forall_cons in Hincs as [Hinc Hincs].
  destruct (incrementZviewSettingClampedF32_run env c k inc min max s v Hok Hs)
    as (s' & -> & _ & Hs'). cbn [snd].
  destruct (leb_not_nan _ _ Hle) as [Hmin_nan Hmax_nan].
  assert (Hsum : F32.is_nan (F32.add v inc) = false) by (apply add_not_nan; [done|apply Hinc]).
  constructor.
  - exists v, (clamp (F32.add v inc) min max).
    split; [done|]. split; [done|]. split; [done|].
    split; [by apply clamp_within|].
    by apply clamp_add_direction.
  - apply (IH s' (clamp (F32.add v inc) min max)); try done.
    + by apply clamp_not_nan.
    + apply clamp_valid; try done. apply add_valid; [done|apply Hinc].
Qed.

Lemma clamped_increments_bounded_witness :
  let s := remote_setting 11 ZV_SETTING_KEY_OVERLAY_OFFSET_X
             (SettingF32 (F32.of_Z 639)) example_augmented in
  let incs := [F32.one; F32.one; F32.minus_one] in
  Forall finite_increment incs /\
  clamped_increments env_augmented_active 11 ZV_SETTING_KEY_OVERLAY_OFFSET_X
    (F32.of_Z (-640)) (F32.of_Z 640) incs s =
    [ (Some (SettingF32 (F32.of_Z 639)), F32.one, Some (SettingF32 (F32.of_Z 640)));
      (Some (SettingF32 (F32.of_Z 640)), F32.one, Some (SettingF32 (F32.of_Z 640)));
      (Some (SettingF32 (F32.of_Z 640)), F32.minus_one, Some (SettingF32 (F32.of_Z 639))) ] /\
  Forall (clamped_step (F32.of_Z (-640)) (F32.of_Z 640))
    (clamped_increments env_augmented_active 11 ZV_SETTING_KEY_OVERLAY_OFFSET_X
       (F32.of_Z (-640)) (F32.of_Z 640) incs s).
Proof.
  intros s incs.
  assert (Hincs : Forall finite_increment incs) by (repeat constructor).
  split; [exact Hincs|]. split; [vm_compute; reflexivity|].
  apply (clamped_increments_bounded env_augmented_active 11 ZV_SETTING_KEY_OVERLAY_OFFSET_X
           (F32.of_Z (-640)) (F32.of_Z 640) incs s (F32.of_Z 639));
    first [exact Hincs | vm_compute; reflexivity].
Defined.

(** Without the condition on the stored value the bounds do not hold: a
    stored NaN stays a NaN, which compares with neither bound.  And a
    stored number does not always move: [2^24 + 1] rounds to [2^24], so the
    increment [1] leaves the stored [2^24] where it is, away from both
    bounds. *)
Lemma clamped_increments_nan_and_absorption :
  ~ (forall env c k min max incs s v,
       (forall call, zv_error env call = ZV_ERROR_OK) ->
       F32.leb min max = true ->
       setting s c k = Some (SettingF32 v) ->
       Forall finite_increment incs ->
       Forall (clamped_step min max) (clamped_increments env c k min max incs s)) /\
  clamped_increments env_augmented_active 11 ZV_SETTING_KEY_OVERLAY_OFFSET_X
    (F32.of_Z (-33554432)) (F32.of_Z 33554432) [F32.one]
    (remote_setting 11 ZV_SETTING_KEY_OVERLAY_OFFSET_X
       (SettingF32 (F32.of_Z 16777216)) example_augmented) =
    [ (Some (SettingF32 (F32.of_Z 16777216)), F32.one,
       Some (SettingF32 (F32.of_Z 16777216))) ].
Proof.
  split; [|vm_compute; reflexivity].
  intros H.
  specialize (H env_augmented_active 11 ZV_SETTING_KEY_OVERLAY_OFFSET_X
                (F32.of_Z (-640)) (F32.of_Z 640) [F32.one]
                (remote_setting 11 ZV_SETTING_KEY_OVERLAY_OFFSET_X
                   (SettingF32 S754_nan) example_augmented) S754_nan).
  assert (Hstep : Forall (clamped_step (F32.of_Z (-640)) (F32.of_Z 640))
            (clamped_increments env_augmented_active 11 ZV_SETTING_KEY_OVERLAY_OFFSET_X
               (F32.of_Z (-640)) (F32.of_Z 640) [F32.one]
               (remote_setting 11 ZV_SETTING_KEY_OVERLAY_OFFSET_X
                  (SettingF32 S754_nan) example_augmented))).
  { apply H; first [reflexivity | vm_compute; reflexivity | repeat constructor]. }
  clear H. cbn [clamped_increments] in Hstep.
  apply Forall_cons in Hstep as [(v & r & Hv & Hr & _ & [Hlo _] & _) _].
  vm_compute in Hr. injection Hr as <-. vm_compute in Hlo. discriminate.
Qed.

(** ** Video-recording polling *)

Lemma processZviewVideoRecording_run env c s :
  video_recording_ready env c ->
  run (processZviewVideoRecording env c) s = (true, polled env c s).
Proof.
  intros (Hstate & Herror & Hclear). apply run_intro.
  unfold processZviewVideoRecording, polled, poll_events. exec idtac.
  all: split; [done|]; simpl; rewrite <-?app_assoc; simpl; done.
Qed.

Lemma emits_any (φ : Event -> Prop) {A : Type} (m : M A) :
  preserves (emits φ) m -> preserves (emits any_event) m.
Proof. apply preserves_mono. intros s s'. by apply emits_mono. Qed.

Lemma processNewZviewConnection_emits env c :
  preserves (emits any_event) (processNewZviewConnection env c).
Proof.
  unfold processNewZviewConnection.
  preserves_go ltac:(first [emits_leaf | apply emits_emit; exact I]).
Qed.

Lemma emits_trace φ s s1 s2 evs :
  emits φ s s1 -> w_trace (world s2) = w_trace (world s1) ++ evs -> Forall φ evs ->
  emits φ s s2.
Proof.
  intros (evs1 & Htrace & Hevs1) Htrace2 Hevs. exists (evs1 ++ evs).
  rewrite Htrace2, Htrace, app_assoc. split; [done|]. by apply Forall_app.
Qed.

Ltac emits_chain :=
  first
    [ reflexivity
    | match goal with
      | H : emits _ ?a ?b |- emits _ _ ?b => etrans; [|exact H]; emits_chain
      end
    | eapply emits_trace; cycle 1;
      [ first [simpl; rewrite <-?app_assoc; reflexivity | symmetry; apply app_nil_r]
      | repeat constructor
      | emits_chain ] ].

Lemma updateZviewConnection_polls env c s :
  wp (updateZviewConnection env c) s (fun _ _ => False)
    (fun b s' => b = true ->
       exists s2, emits any_event s s2 /\
         run (processZviewVideoRecording env c) s2 = (true, s')).
Proof.
  unfold updateZviewConnection, closedOrError.
  exec ltac:(first
    [ idtac; lazymatch goal with
      | |- context [run (processZviewVideoRecording ?env ?c) ?s] =>
          destruct (run (processZviewVideoRecording env c) s) as [? ?] eqn:Hpoll;
          simpl fst; simpl snd
      end
    | call1 (emits_any _ _ (tearDownZviewMode_emits env))
    | call1 (emits_any _ _ (setUpZviewMode_emits env c))
    | call1 (processNewZviewConnection_emits env c) ]).
  all: try done.
  all: intros _; eexists; (split; [|exact Hpoll]).
  all: emits_chain.
Qed.

Lemma events_of_run f s s' evs :
  run f s = (true, s') -> w_trace (world s') = w_trace (world s) ++ evs ->
  events_of f s = evs.
Proof.
  intros Hrun Htrace. unfold events_of. rewrite Hrun. simpl.
  by rewrite Htrace, drop_app_length.
Qed.

Lemma processZviewVideoRecording_polls env c s :
  wp (processZviewVideoRecording env c) s (fun _ _ => False)
    (fun b s' => b = true ->
       exists evs, w_trace (world s') = w_trace (world s) ++ evs /\ polls env evs c).
Proof.
  unfold processZviewVideoRecording, polls. exec idtac. all: try done.
  all: intros _; eexists; (split; [rewrite <-?app_assoc; reflexivity|]).
  all: repeat constructor.
Qed.

Lemma updateZviewConnection_polls_state env c s :
  wp (updateZviewConnection env c) s (fun _ _ => False)
    (fun b s' => b = true ->
       exists evs, w_trace (world s') = w_trace (world s) ++ evs /\ polls env evs c).
Proof.
  eapply wp_mono; [apply updateZviewConnection_polls|done|].
  intros b s' Hupdate Hb. destruct (Hupdate Hb) as (s2 & (evs1 & Htrace1 & _) & Hpoll).
  pose proof (processZviewVideoRecording_polls env c s2) as H2.
  apply wp_run in H2. rewrite Hpoll in H2. destruct (H2 eq_refl) as (evs2 & Htrace2 & Hin).
  exists (evs1 ++ evs2). simpl in Htrace2. rewrite Htrace2, Htrace1, app_assoc.
  split; [done|]. unfold polls in *. apply elem_of_app. by right.
Qed.

Lemma updateZview_loop_polls env : forall todo i s,
  wp (updateZview_loop env i todo) s (fun _ _ => False)
    (fun b s' => b = true ->
       exists evs, w_trace (world s') = w_trace (world s) ++ evs /\
         forall j, (i <= j < i + todo)%nat ->
           polls env evs (nth j (env_connections env) NULL)).
Proof.
  induction todo as [|todo IH]; intros i s; cbn [updateZview_loop].
  { apply wp_return. intros _. exists []. rewrite app_nil_r. split; [done|]. lia. }
  exec ltac:(idtac; lazymatch goal with
    | |- context [run (updateZviewConnection ?env ?c) ?s] =>
        let H := fresh "Hupdate" in
        pose proof (updateZviewConnection_polls_state env c s) as H;
        apply wp_run in H;
        destruct (run (updateZviewConnection env c) s) as [? ?];
        simpl fst in *; simpl snd in *
    end).
  all: try done.
  destruct (Hupdate eq_refl) as (evs1 & Htrace1 & Hin1).
  eapply wp_mono; [apply IH|done|].
  intros b' s' Hrest Hb'. destruct (Hrest Hb') as (evs2 & Htrace2 & Hin2).
  exists (evs1 ++ evs2). rewrite Htrace2, Htrace1, app_assoc. split; [done|].
  intros j Hj. unfold polls in *. apply elem_of_app.
  destruct (decide (j = i)) as [->|Hne]; [by left|].
  right. apply Hin2. lia.
Qed.

Lemma updateZview_polls env s :
  g_zViewContext (globals s) ≠ NULL ->
  (run (updateZview env) s).1 = true ->
  forall c, c ∈ env_connections env -> polls env (events_of (updateZview env) s) c.
Proof.
  intros Hcontext Hrun c Hc. revert Hrun. unfold events_of.
  apply (wp_run (updateZview env) s (fun b s' => b = true ->
    polls env (drop (length (w_trace (world s))) (w_trace (world s'))) c)).
  unfold updateZview. exec idtac. all: try done.
  eapply wp_mono; [apply updateZview_loop_polls|done|].
  intros b s' Hloop Hb. destruct (Hloop Hb) as (evs & Htrace & Hin).
  simpl in Htrace. rewrite Htrace, drop_app_length.
  apply list_elem_of_lookup in Hc as [j Hj].
  rewrite <-(nth_lookup_Some _ _ NULL _ Hj). apply Hin.
  apply lookup_lt_Some in Hj. lia.
Qed.

(** C7. Video-recording polling, when the runtime answers: on every tick
    that succeeds every connection is polled; a poll of a connection reads
    its video-recording state; it logs a transition exactly when that
    state differs from the last-known state, which is one global variable
    for all the connections; if the state is the error state it logs the
    error code and clears the error; it then remembers the state as the
    last-known one.  Every update of a connection that succeeds ends with
    such a poll. *)
Theorem processZviewVideoRecording_shared_latest_state env c s :
  video_recording_ready env c ->
  let observed := env_videoRecordingState env c in
  let latest := g_zViewVideoRecordingLatestState (globals s) in
  let evs := events_of (processZviewVideoRecording env c) s in
  run (processZviewVideoRecording env c) s = (true, polled env c s) /\
  (logs_transition evs <-> observed ≠ latest) /\
  (observed = ZV_VIDEO_RECORDING_STATE_ERROR ->
   EvPrintLog (LogVideoRecordingError (env_videoRecordingError env c)) ∈ evs /\
   EvClearVideoRecordingError c ∈ evs) /\
  g_zViewVideoRecordingLatestState (globals (polled env c s)) = observed /\
  (forall s', run (updateZviewConnection env c) s = (true, s') ->
     exists s2, emits any_event s s2 /\ s' = polled env c s2) /\
  (forall s0, g_zViewContext (globals s0) ≠ NULL ->
     (run (updateZview env) s0).1 = true ->
     forall c0, c0 ∈ env_connections env ->
       polls env (events_of (updateZview env) s0) c0).
Proof.
  intros Hready observed latest evs.
  pose proof (processZviewVideoRecording_run env c s Hready) as Hrun.
  assert (Hevs : evs = poll_events env c latest) by (by apply (events_of_run _ _ _ _ Hrun)).
  split; [done|]. rewrite Hevs. unfold poll_events. fold observed.
  repeat split.
  - intros (a & b & Hin). elem_of_cases Hin.
    destruct (decide (observed ≠ latest)); [done|]. elem_of_cases Hin.
    destruct (decide (observed = _)); elem_of_cases Hin.
  - intros Hne. exists latest, observed. rewrite decide_True by done. set_solver.
  - rewrite (decide_True (P := observed = _)) by done. set_solver.
  - rewrite (decide_True (P := observed = _)) by done. set_solver.
  - intros s' Hupdate.
    pose proof (updateZviewConnection_polls env c s) as Hpolls.
    apply wp_run in Hpolls. rewrite Hupdate in Hpolls.
    destruct (Hpolls eq_refl) as (s2 & Hemits & Hpoll).
    exists s2. split; [done|].
    rewrite (processZviewVideoRecording_run env c s2 Hready) in Hpoll. by simplify_eq.
  - intros s0. apply updateZview_polls.
Qed.

Lemma processZviewVideoRecording_shared_latest_state_witness :
  let s := (run (updateZview env_second_connection) example_standard).2 in
  video_recording_ready env_second_connection 11 /\
  g_zViewVideoRecordingLatestState (globals s) = ZV_VIDEO_RECORDING_STATE_NOT_AVAILABLE /\
  events_of (processZviewVideoRecording env_second_connection 11) s =
    [EvVideoRecordingState 11 ZV_VIDEO_RECORDING_STATE_RECORDING;
     EvPrintLog (LogVideoRecordingStateTransition
                   ZV_VIDEO_RECORDING_STATE_NOT_AVAILABLE
                   ZV_VIDEO_RECORDING_STATE_RECORDING)].
Proof.
  intros s.
  assert (Hready : video_recording_ready env_second_connection 11) by done.
  split; [done|]. split; [vm_compute; reflexivity|].
  destruct (processZviewVideoRecording_shared_latest_state env_second_connection 11 s Hready)
    as (Hrun & _).
  apply (events_of_run _ _ _ _ Hrun). vm_compute. reflexivity.
Defined.

(** With a second connection around, a transition is logged for a
    connection whose own state has not changed since the previous tick. *)
Lemma video_recording_latest_state_shared :
  ~ per_session_edge_triggered env_second_connection env_second_connection 11
      (run (updateZview env_second_connection) example_standard).2.
Proof.
  intros [Hlogs _]. apply Hlogs; [|reflexivity].
  exists ZV_VIDEO_RECORDING_STATE_NOT_AVAILABLE, ZV_VIDEO_RECORDING_STATE_RECORDING.
  vm_compute. repeat constructor.
Qed.

(** ** One active session *)

#[global] Instance keeps_single_active_preorder : PreOrder keeps_single_active.
Proof. split; unfold keeps_single_active; [by intros s|intros s1 s2 s3; auto]. Qed.

#[global] Instance keeps_sessions_preorder : PreOrder keeps_sessions.
Proof.
  split.
  - intros s. split; reflexivity.
  - intros s1 s2 s3 [] []. split; etrans; eauto.
Qed.

Lemma accepted_app t evs : accepted (t ++ evs) = foldl accepted_step (accepted t) evs.
Proof. apply foldl_app. Qed.

Lemma accepted_not_acceptance acc evs :
  Forall not_acceptance evs -> foldl accepted_step acc evs = acc.
Proof.
  intros H. revert acc. induction H as [|e evs He _ IH]; intros acc; [done|].
  simpl. rewrite IH. by destruct e.
Qed.

Lemma keeps_sessions_accepted s s' :
  keeps_sessions s s' ->
  accepted (w_trace (world s')) = accepted (w_trace (world s)) /\
  g_zViewActiveConnection (globals s') = g_zViewActiveConnection (globals s).
Proof.
  intros [(evs & -> & Hevs) Hactive]. split; [|done].
  by rewrite accepted_app, accepted_not_acceptance.
Qed.

Lemma keeps_sessions_single_active s s' :
  keeps_sessions s s' -> keeps_single_active s s'.
Proof.
  intros [Hacc Hactive]%keeps_sessions_accepted Hs c. rewrite Hacc, Hactive. apply Hs.
Qed.

Lemma keeps_sessions_intro {A : Type} (φ : Event -> Prop) (m : M A) :
  (forall e, φ e -> not_acceptance e) ->
  preserves (emits φ) m -> preserves (keeps session_globals) m ->
  preserves keeps_sessions m.
Proof.
  intros Hφ Hemits Hkeeps.
  eapply preserves_mono; [|apply (preserves_and _ _ _ Hemits Hkeeps)].
  intros s s' [He Hk]. split; [by eapply emits_mono|].
  unfold keeps, session_globals in *. by simplify_eq.
Qed.

Lemma tearDownZviewMode_sessions env : preserves keeps_sessions (tearDownZviewMode env).
Proof.
  eapply keeps_sessions_intro;
    [|apply tearDownZviewMode_emits|apply tearDownZviewMode_keeps]. by intros [].
Qed.

Lemma setUpZviewMode_sessions env c : preserves keeps_sessions (setUpZviewMode env c).
Proof.
  eapply keeps_sessions_intro;
    [|apply setUpZviewMode_emits|apply setUpZviewMode_keeps]. by intros [].
Qed.

Lemma processZviewVideoRecording_sessions env c :
  preserves keeps_sessions (processZviewVideoRecording env c).
Proof.
  eapply keeps_sessions_intro;
    [|apply processZviewVideoRecording_emits|apply processZviewVideoRecording_keeps].
  by intros [].
Qed.

(** With no active connection there is no accepted connection. *)
Lemma single_active_null s :
  single_active s -> g_zViewActiveConnection (globals s) = NULL ->
  accepted (w_trace (world s)) = ∅.
Proof.
  intros Hs Hnull. apply set_eq. intros c. split; [|set_solver].
  intros [Hc Hne]%Hs. congruence.
Qed.

Lemma processNewZviewConnection_single_active env c :
  c ≠ NULL -> preserves keeps_single_active (processNewZviewConnection env c).
Proof.
  intros Hc s. unfold processNewZviewConnection. exec idtac.
  all: intros Hs; try done.
  all: intros c'; cbn [globals world w_trace]; rewrite ?accepted_app;
    cbn [foldl accepted_step].
  1,2: rewrite (single_active_null s Hs) by done;
    intros [Hin|Hin]%elem_of_union;
    [by apply elem_of_empty in Hin|apply elem_of_singleton in Hin; by subst].
  apply Hs.
Qed.

Lemma active_set_active c g :
  g_zViewActiveConnection (set_g_zViewActiveConnection c g) = c.
Proof. by destruct g. Qed.

(** Remembering what a called function keeps. *)
Ltac session_call lem :=
  idtac; lazymatch goal with
  | |- context [run ?f ?s] =>
      let H1 := fresh "Hcall" in
      pose proof (preserves_run _ f s lem) as H1;
      destruct (run f s) as [? ?]; simpl fst in *; simpl snd in *
  end.

Ltac single_active_basic :=
  repeat match goal with
  | H : keeps_sessions _ _ |- _ =>
      apply keeps_sessions_accepted in H; cbn [globals world w_trace] in H;
      destruct H as [? ?]
  end;
  unfold single_active in *;
  repeat first
    [ progress cbn [globals world w_trace foldl accepted_step is_closed]
    | rewrite accepted_app
    | rewrite active_set_active
    | match goal with
      | H : accepted (w_trace (world ?x)) = _ |- _ => rewrite H
      | H : g_zViewActiveConnection (globals ?x) = _ |- _ => rewrite H
      end ];
  try done;
  let c := fresh "c" in
  let Hin := fresh "Hin" in
  let Hs := fresh "Hs" in
  intros c Hin;
  try (apply elem_of_difference in Hin as [Hin ?]);
  match goal with
  | H : forall c', c' ∈ _ -> _ |- _ => destruct (H c Hin) as [Hs ?]
  end;
  first [done | split; [congruence|done] | exfalso; set_solver].

Ltac single_active_tac :=
  repeat match goal with
  | H : keeps_single_active ?a _ |- _ =>
      let Ha := fresh in
      assert (Ha : single_active a) by single_active_basic;
      specialize (H Ha); clear Ha
  end;
  single_active_basic.

Lemma updateZviewConnection_single_active env c :
  c ≠ NULL -> preserves keeps_single_active (updateZviewConnection env c).
Proof.
  intros Hc s. unfold updateZviewConnection, closedOrError.
  exec ltac:(first
    [ session_call (processNewZviewConnection_single_active env c Hc)
    | session_call (tearDownZviewMode_sessions env)
    | session_call (setUpZviewMode_sessions env c)
    | session_call (processZviewVideoRecording_sessions env c) ]).
  all: intros Hs; try done.
  all: try (rewrite Heqz in *).
  all: single_active_tac.
Qed.

Lemma wp_preserves {A : Type} (P : State -> State -> Prop) `{!PreOrder P}
    (m : M A) s s1 :
  P s s1 -> preserves P m ->
  wp m s1 (fun _ s' => P s s') (fun _ s' => P s s').
Proof.
  intros Hs Hm. eapply wp_mono; [apply Hm|..]; intros; by etrans.
Qed.

Lemma updateZview_loop_single_active env :
  connections_valid env -> forall todo i,
  (i + todo <= length (env_connections env))%nat ->
  preserves keeps_single_active (updateZview_loop env i todo).
Proof.
  intros Hvalid. induction todo as [|todo IH]; intros i Hi s; cbn [updateZview_loop].
  { by apply wp_return. }
  assert (Hc : nth i (env_connections env) NULL ≠ NULL).
  { unfold connections_valid in Hvalid. rewrite Forall_forall in Hvalid.
    apply Hvalid, list_elem_of_In, nth_In. lia. }
  exec ltac:(session_call (updateZviewConnection_single_active env _ Hc)).
  all: try done.
  apply wp_preserves; [typeclasses eauto|done|]. apply IH. lia.
Qed.

Lemma updateZview_single_active env :
  connections_valid env -> preserves keeps_single_active (updateZview env).
Proof.
  intros Hvalid s. unfold updateZview. exec idtac. all: try done.
  apply wp_preserves; [typeclasses eauto|done|].
  apply updateZview_loop_single_active; [done|]. lia.
Qed.

Lemma updateZview_ticks_single_active envs : forall s,
  Forall connections_valid envs -> single_active s ->
  single_active (updateZview_ticks envs s).
Proof.
  induction envs as [|env envs IH]; intros s Hvalid Hs; [done|].
  apply Forall_cons in Hvalid as [Henv Henvs]. cbn [updateZview_ticks].
  apply IH; [done|].
  by apply (preserves_run _ _ s (updateZview_single_active env Henv)).
Qed.

Lemma single_active_size s :
  single_active s -> (size (accepted (w_trace (world s))) <= 1)%nat.
Proof.
  intros Hs.
  assert (accepted (w_trace (world s)) ⊆ {[g_zViewActiveConnection (globals s)]}) as Hsub.
  { intros c [-> _]%Hs. by apply elem_of_singleton. }
  apply subseteq_size in Hsub. rewrite size_singleton in Hsub. lia.
Qed.


Lemma processNewZviewConnection_rule env c s :
  (forall call, zv_error env call = ZV_ERROR_OK) -> accepts_rejects_or_ignores env c s.
Proof.
  intros Hok. unfold accepts_rejects_or_ignores, events_of.
  apply (wp_run (processNewZviewConnection env c) s (fun _ s' =>
    let evs := drop (length (w_trace (world s))) (w_trace (world s')) in
    let active := g_zViewActiveConnection (globals s) in
    let active' := g_zViewActiveConnection (globals s') in
    if decide (c = active) then evs = [] /\ active' = active
    else if decide (active = NULL) then EvAcceptConnection c ∈ evs /\ active' = c
    else
      (exists message,
         EvCloseConnection c ZV_CONNECTION_CLOSE_ACTION_NONE
           ZV_CONNECTION_CLOSE_REASON_CONNECTION_REJECTED message ∈ evs) /\
      (EvAcceptConnection c ∉ evs) /\ active' = active)).
  unfold processNewZviewConnection. exec idtac.
  all: cbv zeta; cbn [globals world w_trace]; rewrite <-?app_assoc, ?drop_app_length.
  all: rewrite ?active_set_active.
  - by rewrite drop_all.
  - split; [|done]. repeat constructor.
  - split; [eexists; repeat constructor|].
    split; [|done]. by intros [=]%list_elem_of_singleton.
Qed.

Lemma updateZviewConnection_clears_active env c s : clears_active_when_closed env c s.
Proof.
  intros Hupdate Hstate Hclosed Hactive.
  apply (wp_run (updateZviewConnection env c) s
           (fun _ s' => g_zViewActiveConnection (globals s') = NULL)).
  unfold updateZviewConnection, closedOrError.
  exec ltac:(first
    [ session_call (tearDownZviewMode_sessions env)
    | session_call (processZviewVideoRecording_sessions env c) ]).
  all: try (rewrite Heqz in Hclosed; discriminate Hclosed).
  all: repeat match goal with
       | H : keeps_sessions _ _ |- _ =>
           apply keeps_sessions_accepted in H as [_ H]; cbn [globals] in H
       end.
  all: cbn [globals]; rewrite ?active_set_active in *; congruence.
Qed.

(** C1. One active session.  A connection that awaits acceptance is
    left alone if it is the active connection already, accepted and made
    the active connection if there is none, and closed as rejected, never
    accepted, if another connection is active; an update that finds the
    active connection closed or in error clears the active connection; so
    over any sequence of ticks every connection in accepted status is the
    active connection, and there is at most one. *)
Theorem single_active_session :
  (forall env connection s,
     (forall call, zv_error env call = ZV_ERROR_OK) ->
     accepts_rejects_or_ignores env connection s) /\
  (forall env connection s, clears_active_when_closed env connection s) /\
  (forall envs s,
     Forall connections_valid envs -> single_active s ->
     single_active (updateZview_ticks envs s) /\
     (size (accepted (w_trace (world (updateZview_ticks envs s)))) <= 1)%nat).
Proof.
  split; [exact processNewZviewConnection_rule|].
  split; [exact updateZviewConnection_clears_active|].
  intros envs s Hvalid Hs.
  pose proof (updateZview_ticks_single_active envs s Hvalid Hs) as Hs'.
  split; [done|]. by apply single_active_size.
Qed.

Lemma single_active_session_witness :
  let envs := [env_awaiting; env_second_connection; env_second_connection] in
  Forall connections_valid envs /\
  single_active example_state /\
  accepted (w_trace (world (updateZview_ticks envs example_state))) = {[11]} /\
  single_active (updateZview_ticks envs example_state).
Proof.
  intros envs.
  assert (Hvalid : Forall connections_valid envs).
  { repeat constructor; discriminate. }
  assert (Hs : single_active example_state).
  { intros c Hc. by apply elem_of_empty in Hc. }
  split; [done|]. split; [done|]. split; [vm_compute; reflexivity|].
  apply (proj2 (proj2 single_active_session) envs example_state Hvalid Hs).
Defined.

(** A connection that is the active connection already and still awaits
    acceptance is neither accepted nor closed. *)
Lemma active_connection_not_rejected :
  ~ accepts_or_rejects env_awaiting 11 example_connected.
Proof.
  unfold accepts_or_rejects. rewrite decide_False by (vm_compute; discriminate).
  intros (message & Hin). vm_compute in Hin. by apply elem_of_nil in Hin.
Qed.

#[global] Instance keeps_no_leak_preorder : PreOrder keeps_no_leak.
Proof. split; [intros s H; exact H|]. unfold keeps_no_leak. intros s1 s2 s3; tauto. Qed.

Lemma live_app t evs : live (t ++ evs) = foldl live_step (live t) evs.
Proof. apply foldl_app. Qed.

Lemma viewport_of_NULL : viewport_of NULL = ∅.
Proof. done. Qed.

Lemma object_of_0 o : object_of o 0 = ∅.
Proof. done. Qed.

Ltac multiset_lia :=
  apply gmultiset_eq; intros ?;
  rewrite ?multiplicity_difference, ?multiplicity_disj_union, ?multiplicity_empty; lia.

Ltac no_leak_tac :=
  unfold no_leak; cbn [globals world w_trace];
  rewrite ?live_app; cbn [foldl live_step];
  unfold held, standard_resources, augmented_reality_resources;
  cbn -[viewport_of object_of];
  rewrite ?viewport_of_NULL, ?object_of_0.

Lemma tearDownZviewStandardMode_no_leak env :
  preserves keeps_no_leak (tearDownZviewStandardMode env).
Proof.
  intros s. unfold tearDownZviewStandardMode. exec idtac.
  all: unfold keeps_no_leak; no_leak_tac.
  all: repeat match goal with
       | H : ¬ (_ ≠ _) |- _ => apply dec_stable in H; simpl in H; rewrite ?H
       end.
  all: rewrite ?viewport_of_NULL, ?object_of_0.
  all: intros ->; multiset_lia.
Qed.

Lemma release_no_leak o var set :
  (forall g, held (set 0 g) ⊎ object_of o (var (augmentedRealityMode g)) = held g) ->
  preserves keeps_no_leak (release o var set).
Proof.
  intros Hset s. unfold release. exec idtac.
  - unfold keeps_no_leak, no_leak. cbn [globals world w_trace].
    rewrite live_app. cbn [foldl live_step]. intros ->.
    rewrite <-(Hset (globals s)). unfold compose. multiset_lia.
  - by intros ?.
Qed.

Lemma tearDownZviewAugmentedRealityMode_no_leak env :
  preserves keeps_no_leak (tearDownZviewAugmentedRealityMode env).
Proof.
  unfold tearDownZviewAugmentedRealityMode.
  preserves_go ltac:(apply release_no_leak; intros g;
    unfold held, standard_resources, augmented_reality_resources;
    cbn -[viewport_of object_of]; rewrite object_of_0; multiset_lia).
Qed.


(** A call of a function with a specification in [wp] form. *)
Ltac call_spec lem :=
  idtac; lazymatch goal with
  | |- context [run ?f ?s] =>
      let H := fresh "Hspec" in
      eassert (H : wp f s (fun _ _ => False) _) by (apply lem);
      apply wp_run in H; cbv beta in H
  end.

Lemma tearDownZviewStandardMode_released env s :
  wp (tearDownZviewStandardMode env) s (fun _ _ => False) (fun b s' =>
    let viewport := g_zViewStandardModeViewportHandle (standardMode (globals s)) in
    if b then
      standard_released (globals s') /\
      (viewport ≠ NULL -> zc_error env (ZcDestroyViewport viewport) = ZC_ERROR_OK)
    else
      s' = s /\ viewport ≠ NULL /\
      zc_error env (ZcDestroyViewport viewport) ≠ ZC_ERROR_OK).
Proof.
  unfold tearDownZviewStandardMode. exec idtac.
  all: try (split; [by destruct s|done]).
  all: unfold standard_released; cbn.
  all: repeat match goal with
       | H : ¬ (_ ≠ _) |- _ => apply dec_stable in H; simpl in H
       end.
  all: done.
Qed.

Lemma tearDownZviewAugmentedRealityMode_released env s :
  wp (tearDownZviewAugmentedRealityMode env) s (fun _ _ => False) (fun b s' =>
    b = true /\ augmented_reality_released (globals s')).
Proof.
  unfold tearDownZviewAugmentedRealityMode.
  exec idtac.
  all: unfold augmented_reality_released; cbn.
  all: repeat match goal with
       | H : ¬ (_ ≠ _) |- _ => apply dec_stable in H; simpl in H
       end.
  all: done.
Qed.

Ltac tear_down_call env :=
  first
    [ call_spec (tearDownZviewStandardMode_released env);
      call1 (tearDownZviewStandardMode_no_leak env)
    | call_spec (tearDownZviewAugmentedRealityMode_released env);
      call1 (tearDownZviewAugmentedRealityMode_no_leak env) ].

Lemma setUpZviewStandardMode_no_leak env c :
  preserves keeps_no_leak (setUpZviewStandardMode env c).
Proof.
  intros s. unfold setUpZviewStandardMode.
  exec ltac:(tear_down_call env).
  all: simpl in *; subst; try done.
  all: destruct Hspec as ((Hv & Hf & Ht & Hr) & _).
  all: intros Hs; specialize (Hcall Hs); revert Hcall; no_leak_tac.
  all: rewrite ?Hv, ?Hf, ?Ht, ?Hr, ?viewport_of_NULL, ?object_of_0.
  all: intros ->; multiset_lia.
Qed.

Lemma setUpZviewAugmentedRealityMode_no_leak env c :
  preserves keeps_no_leak (setUpZviewAugmentedRealityMode env c).
Proof.
  intros s. unfold setUpZviewAugmentedRealityMode.
  exec ltac:(tear_down_call env).
  all: simpl in *; subst; try done.
  all: destruct Hspec as (_ & H1 & H2 & H3 & H4 & H5 & H6 & H7 & H8).
  all: intros Hs; specialize (Hcall Hs); revert Hcall; no_leak_tac.
  all: rewrite ?H1, ?H2, ?H3, ?H4, ?H5, ?H6, ?H7, ?H8, ?object_of_0.
  all: intros ->; multiset_lia.
Qed.


Lemma no_leak_assign set :
  (forall g, held (set g) = held g) -> preserves keeps_no_leak (assign set).
Proof.
  intros H s. unfold wp, assign, keeps_no_leak, no_leak. cbn [globals world]. by rewrite H.
Qed.

Lemma no_leak_emit e :
  (forall acc, live_step acc e = acc) -> preserves keeps_no_leak (emit e).
Proof.
  intros H s. apply wp_emit. unfold keeps_no_leak, no_leak. cbn [globals world w_trace].
  rewrite live_app. cbn [foldl]. by rewrite H.
Qed.

Lemma no_leak_put_settings c st : preserves keeps_no_leak (put_settings c st).
Proof. intros s. apply wp_put_settings. by intros H. Qed.

Lemma no_leak_put_frameNumber f n : preserves keeps_no_leak (put_frameNumber f n).
Proof. intros s. apply wp_put_frameNumber. by intros H. Qed.

Create HintDb no_leak.

#[global] Hint Resolve tearDownZviewStandardMode_no_leak
  tearDownZviewAugmentedRealityMode_no_leak setUpZviewStandardMode_no_leak
  setUpZviewAugmentedRealityMode_no_leak : no_leak.

Ltac no_leak_leaf :=
  first
    [ apply no_leak_assign; intros ?; reflexivity
    | apply no_leak_emit; intros ?; reflexivity
    | apply no_leak_put_settings
    | apply no_leak_put_frameNumber
    | solve [eauto with no_leak] ].

Lemma tearDownZviewMode_no_leak env : preserves keeps_no_leak (tearDownZviewMode env).
Proof. unfold tearDownZviewMode. preserves_go no_leak_leaf. Qed.

#[global] Hint Resolve tearDownZviewMode_no_leak : no_leak.

Lemma setUpZviewMode_no_leak env c : preserves keeps_no_leak (setUpZviewMode env c).
Proof. unfold setUpZviewMode. preserves_go no_leak_leaf. Qed.

Lemma processNewZviewConnection_no_leak env c :
  preserves keeps_no_leak (processNewZviewConnection env c).
Proof. unfold processNewZviewConnection. preserves_go no_leak_leaf. Qed.

Lemma processZviewVideoRecording_no_leak env c :
  preserves keeps_no_leak (processZviewVideoRecording env c).
Proof. unfold processZviewVideoRecording. preserves_go no_leak_leaf. Qed.

#[global] Hint Resolve setUpZviewMode_no_leak processNewZviewConnection_no_leak
  processZviewVideoRecording_no_leak : no_leak.

Lemma updateZviewConnection_no_leak env c :
  preserves keeps_no_leak (updateZviewConnection env c).
Proof. unfold updateZviewConnection, closedOrError. preserves_go no_leak_leaf. Qed.

#[global] Hint Resolve updateZviewConnection_no_leak : no_leak.

Lemma updateZview_loop_no_leak env todo : forall i,
  preserves keeps_no_leak (updateZview_loop env i todo).
Proof.
  induction todo as [|todo IH]; intros i; cbn [updateZview_loop];
    preserves_go no_leak_leaf.
Qed.

#[global] Hint Resolve updateZview_loop_no_leak : no_leak.

Lemma updateZview_no_leak env : preserves keeps_no_leak (updateZview env).
Proof. unfold updateZview. preserves_go no_leak_leaf. Qed.

Lemma incrementZviewSettingClampedF32_no_leak env c k inc min max :
  preserves keeps_no_leak (incrementZviewSettingClampedF32 env c k inc min max).
Proof. unfold incrementZviewSettingClampedF32. preserves_go no_leak_leaf. Qed.

Lemma handleZviewStandardModeImageResolutionChange_no_leak env :
  preserves keeps_no_leak (handleZviewStandardModeImageResolutionChange env).
Proof. unfold handleZviewStandardModeImageResolutionChange. preserves_go no_leak_leaf. Qed.

Lemma drawZviewStandardMode_no_leak env :
  preserves keeps_no_leak (drawZviewStandardMode env).
Proof. unfold drawZviewStandardMode. preserves_go no_leak_leaf. Qed.

Lemma drawZviewAugmentedRealityMode_no_leak env :
  preserves keeps_no_leak (drawZviewAugmentedRealityMode env).
Proof. unfold drawZviewAugmentedRealityMode. preserves_go no_leak_leaf. Qed.

#[global] Hint Resolve incrementZviewSettingClampedF32_no_leak
  handleZviewStandardModeImageResolutionChange_no_leak drawZviewStandardMode_no_leak
  drawZviewAugmentedRealityMode_no_leak : no_leak.

Lemma drawZview_no_leak env : preserves keeps_no_leak (drawZview env).
Proof. unfold drawZview. preserves_go no_leak_leaf. Qed.

Lemma processZviewAugmentedRealityModeOverlayControlKeyPress_no_leak env key :
  preserves keeps_no_leak (processZviewAugmentedRealityModeOverlayControlKeyPress env key).
Proof.
  unfold processZviewAugmentedRealityModeOverlayControlKeyPress.
  preserves_go no_leak_leaf.
Qed.

Lemma switchZviewMode_loop_no_leak env active n todo : forall tried,
  preserves keeps_no_leak (switchZviewMode_loop env active n tried todo).
Proof.
  induction todo as [|todo IH]; intros tried; cbn [switchZviewMode_loop];
    preserves_go no_leak_leaf.
Qed.

#[global] Hint Resolve switchZviewMode_loop_no_leak : no_leak.

Lemma switchZviewMode_no_leak env : preserves keeps_no_leak (switchZviewMode env).
Proof. unfold switchZviewMode. preserves_go no_leak_leaf. Qed.

(** ** Rules for the command handlers *)

Section WndWpRules.
Context {A B : Type}.
Implicit Types (w : WndState) (R : bool -> WndState -> Prop).

Lemma wnd_wp_bind (m : W A) (f : A -> W B) w (Q : B -> WndState -> Prop) R :
  wnd_wp m w (fun a w' => wnd_wp (f a) w' Q R) R -> wnd_wp (m ≫= f) w Q R.
Proof. unfold wnd_wp, mbind, W_bind. destruct (m w); auto. Qed.

Lemma wnd_wp_mono (m : W A) w (Q Q' : A -> WndState -> Prop) R R' :
  wnd_wp m w Q R -> (forall a w', Q a w' -> Q' a w') -> (forall b w', R b w' -> R' b w') ->
  wnd_wp m w Q' R'.
Proof. unfold wnd_wp. destruct (m w); auto. Qed.

Lemma wnd_wp_mret (a : A) w (Q : A -> WndState -> Prop) R : Q a w -> wnd_wp (mret a) w Q R.
Proof. auto. Qed.

Lemma wnd_wp_return (b : bool) w (Q : A -> WndState -> Prop) R :
  R b w -> wnd_wp (wnd_return b) w Q R.
Proof. auto. Qed.

Lemma wnd_wp_lift (m : M A) w (Q : A -> WndState -> Prop) R :
  wp m (session w) (fun a s => Q a (with_session s w)) (fun b s => R b (with_session s w)) ->
  wnd_wp (lift m) w Q R.
Proof. unfold wnd_wp, wp, lift. destruct (m (session w)); auto. Qed.
End WndWpRules.

Lemma wnd_wp_command c w (Q : unit -> WndState -> Prop) R :
  Q tt {| session := session w;
          g_isCameraOrbitEnabled := g_isCameraOrbitEnabled w;
          g_zViewAugmentedRealityModeShouldDrawBackground :=
            g_zViewAugmentedRealityModeShouldDrawBackground w;
          g_zViewAugmentedRealityModeShouldDrawMask :=
            g_zViewAugmentedRealityModeShouldDrawMask w;
          commands := commands w ++ [c] |} ->
  wnd_wp (command c) w Q R.
Proof. auto. Qed.

Lemma wnd_wp_call (f : WFn) w (Q : bool -> WndState -> Prop) R :
  Q (wnd_run f w).1 (wnd_run f w).2 -> wnd_wp (wnd_call f) w Q R.
Proof. unfold wnd_wp, wnd_call, wnd_run. destruct (f w) as [[]|]; auto. Qed.

Lemma wnd_wp_run (f : WFn) w (R : bool -> WndState -> Prop) :
  wnd_wp f w (fun _ _ => False) R <-> R (wnd_run f w).1 (wnd_run f w).2.
Proof. unfold wnd_wp, wnd_run. destruct (f w) as [[]|]; simpl; tauto. Qed.

Lemma wnd_run_intro (f : WFn) w b w' :
  wnd_wp f w (fun _ _ => False) (fun b0 w0 => b0 = b /\ w0 = w') -> wnd_run f w = (b, w').
Proof.
  intros H. apply wnd_wp_run in H. destruct (wnd_run f w). simpl in H. by destruct H as [-> ->].
Qed.

Lemma wnd_wp_exec {A : Type} (m : W A) w (P : WndState -> Prop) :
  wnd_wp m w (fun _ => P) (fun _ => P) <-> P (wnd_exec m w).
Proof. unfold wnd_wp, wnd_exec. by destruct (m w). Qed.

#[global] Hint Unfold wnd_printLog wnd_zv_call zvPauseMode zvResumeMode
  zvStartVideoRecording zvPauseVideoRecording zvResumeVideoRecording
  zvFinishVideoRecording zvSaveVideoRecording zvDiscardVideoRecording
  zvDoesConnectionSupportCapability zvGetSettingU32 zvSetSettingU32 : api.

(** Symbolic execution of a command handler; the statements of the
    session engine in it are executed as before. *)
Ltac wnd_exec_step at_call :=
  lazymatch goal with
  | |- wnd_wp (mbind _ _) _ _ _ => apply wnd_wp_bind
  | |- wnd_wp (mret _) _ _ _ => apply wnd_wp_mret
  | |- wnd_wp (wnd_return _) _ _ _ => apply wnd_wp_return
  | |- wnd_wp (lift _) _ _ _ => apply wnd_wp_lift
  | |- wnd_wp (command _) _ _ _ => apply wnd_wp_command
  | |- wnd_wp (wnd_call _) _ _ _ => apply wnd_wp_call; at_call
  | |- wnd_wp (if decide ?P then _ else _) _ _ _ => destruct (decide P); prune
  | |- wnd_wp (if negb ?b then _ else _) _ _ _ =>
      destruct b eqn:?; simpl negb; cbv iota; prune
  | |- wnd_wp (if ?b then _ else _) _ _ _ => destruct b eqn:?; prune
  | |- wnd_wp (match ?x with _ => _ end) _ _ _ =>
      first [progress cbv beta iota | destruct x eqn:?; prune]
  | |- wnd_wp _ _ _ _ => first [progress cbv beta zeta | progress autounfold with api]
  | |- wp _ _ _ _ => exec_step at_call
  end.

Ltac wnd_exec at_call :=
  repeat (wnd_exec_step at_call; cbn [session with_session commands];
          simpl globals; simpl world;
          simpl w_settings; simpl w_frameNumber; simpl w_trace;
          rewrite ?lookup_total_insert_eq; simpl st_batch; simpl st_values).


#[global] Instance on_session_preorder (P : State -> State -> Prop) `{!PreOrder P} :
  PreOrder (on_session P).
Proof.
  split.
  - intros w. unfold on_session. reflexivity.
  - intros w1 w2 w3. unfold on_session. intros. by etrans.
Qed.

#[global] Instance issues_preorder φ : PreOrder (issues φ).
Proof.
  split.
  - intros w. exists []. by rewrite app_nil_r.
  - intros w1 w2 w3 (cmds1 & E1 & F1) (cmds2 & E2 & F2).
    exists (cmds1 ++ cmds2). rewrite E2, E1, <-app_assoc. split; [done|].
    by apply Forall_app.
Qed.

Section WndPreservesRules.
Context (P : WndState -> WndState -> Prop) `{!PreOrder P}.

Lemma wnd_preserves_bind {A B : Type} (m : W A) (f : A -> W B) :
  wnd_preserves P m -> (forall a, wnd_preserves P (f a)) -> wnd_preserves P (m ≫= f).
Proof.
  intros Hm Hf w. specialize (Hm w). unfold wnd_wp, mbind, W_bind in *.
  destruct (m w) as [a w'|b w']; [|done].
  specialize (Hf a w'). unfold wnd_wp in Hf.
  destruct (f a w'); by etrans.
Qed.

Lemma wnd_preserves_mret {A : Type} (a : A) : wnd_preserves P (mret a).
Proof. intros w. unfold wnd_wp. simpl. reflexivity. Qed.

Lemma wnd_preserves_return {A : Type} (b : bool) : wnd_preserves P (@wnd_return A b).
Proof. intros w. unfold wnd_wp. simpl. reflexivity. Qed.

Lemma wnd_preserves_call (f : WFn) : wnd_preserves P f -> wnd_preserves P (wnd_call f).
Proof. intros H w. specialize (H w). unfold wnd_wp, wnd_call in *. by destruct (f w) as [[]|]. Qed.

Lemma wnd_preserves_zv_call env c effect :
  wnd_preserves P effect -> wnd_preserves P (wnd_zv_call env c effect).
Proof.
  intros H. unfold wnd_zv_call. apply wnd_preserves_bind.
  - case_decide; [done | apply wnd_preserves_mret].
  - intros _. apply wnd_preserves_mret.
Qed.

Lemma wnd_preserves_exec {A : Type} (m : W A) w :
  wnd_preserves P m -> P w (wnd_exec m w).
Proof. intros H. specialize (H w). unfold wnd_wp, wnd_exec in *. by destruct (m w). Qed.

Lemma wnd_preserves_run (f : WFn) w : wnd_preserves P f -> P w (wnd_run f w).2.
Proof.
  intros H. specialize (H w). unfold wnd_wp, wnd_run in *. by destruct (f w) as [[]|].
Qed.
End WndPreservesRules.

(** A statement of the session engine gives no command, and a command
    leaves the session engine alone. *)
Lemma wnd_preserves_lift {A : Type} (P : State -> State -> Prop) (m : M A) :
  preserves P m -> wnd_preserves (on_session P) (lift m).
Proof.
  intros H w. specialize (H (session w)). unfold wnd_wp, wp, lift, on_session in *.
  by destruct (m (session w)).
Qed.

Lemma wnd_preserves_command (P : State -> State -> Prop) `{!PreOrder P} c :
  wnd_preserves (on_session P) (command c).
Proof. intros w. unfold wnd_wp, on_session. simpl. reflexivity. Qed.

Lemma issues_lift {A : Type} φ (m : M A) : wnd_preserves (issues φ) (lift m).
Proof.
  intros w. unfold wnd_wp, lift.
  destruct (m (session w)); exists []; by rewrite app_nil_r.
Qed.

Lemma issues_command (φ : Command -> Prop) c : φ c -> wnd_preserves (issues φ) (command c).
Proof. intros H w. exists [c]. split; [done|]. by constructor. Qed.

(** Going down the structure of a command handler; [leaf] deals with the
    statements of the session engine and with calls. *)
Ltac wnd_preserves_step leaf :=
  lazymatch goal with
  | |- PreOrder _ => typeclasses eauto
  | |- wnd_preserves _ (mbind _ _) => apply wnd_preserves_bind; [| |intros ?]
  | |- wnd_preserves _ (mret _) => apply wnd_preserves_mret
  | |- wnd_preserves _ (wnd_return _) => apply wnd_preserves_return
  | |- wnd_preserves (on_session _) (command _) => apply wnd_preserves_command
  | |- wnd_preserves (issues _) (command _) => apply issues_command; leaf
  | |- wnd_preserves _ (wnd_zv_call _ _ _) => apply wnd_preserves_zv_call
  | |- wnd_preserves _ (wnd_call _) => apply wnd_preserves_call; leaf
  | |- wnd_preserves (on_session _) (lift _) => apply wnd_preserves_lift
  | |- wnd_preserves (issues _) (lift _) => apply issues_lift
  | |- wnd_preserves _ (if ?b then _ else _) => destruct b
  | |- wnd_preserves _ (match ?x with _ => _ end) => destruct x
  | |- wnd_preserves _ (let _ := _ in _) => cbv zeta
  | |- wnd_preserves _ _ => first [leaf | progress autounfold with api]
  | |- preserves _ _ => preserves_step leaf
  end.

Ltac wnd_preserves_go leaf := repeat (wnd_preserves_step leaf).


Lemma closeZviewConnectionAndExitViewer_no_leak env :
  preserves keeps_no_leak (closeZviewConnectionAndExitViewer env).
Proof. unfold closeZviewConnectionAndExitViewer. preserves_go no_leak_leaf. Qed.

#[global] Hint Resolve closeZviewConnectionAndExitViewer_no_leak
  switchZviewMode_no_leak processZviewAugmentedRealityModeOverlayControlKeyPress_no_leak
  updateZview_no_leak drawZview_no_leak : no_leak.

Lemma switchZviewVideoRecordingQuality_no_leak env :
  wnd_preserves (on_session keeps_no_leak) (switchZviewVideoRecordingQuality env).
Proof. unfold switchZviewVideoRecordingQuality. wnd_preserves_go no_leak_leaf. Qed.

#[global] Hint Resolve switchZviewVideoRecordingQuality_no_leak : no_leak.

Lemma pauseResumeZviewMode_no_leak env :
  wnd_preserves (on_session keeps_no_leak) (pauseResumeZviewMode env).
Proof. unfold pauseResumeZviewMode. wnd_preserves_go no_leak_leaf. Qed.

Lemma processZviewVideoRecordingKeyPress_no_leak env key :
  wnd_preserves (on_session keeps_no_leak) (processZviewVideoRecordingKeyPress env key).
Proof. unfold processZviewVideoRecordingKeyPress. wnd_preserves_go no_leak_leaf. Qed.

#[global] Hint Resolve pauseResumeZviewMode_no_leak
  processZviewVideoRecordingKeyPress_no_leak : no_leak.

Lemma wnd_preserves_session (P : State -> State -> Prop) `{!PreOrder P} (m : W unit) :
  (forall w, session (wnd_exec m w) = session w) -> wnd_preserves (on_session P) m.
Proof.
  intros H w. pose proof (H w) as Hw. unfold wnd_wp, wnd_exec, on_session in *.
  destruct (m w); rewrite Hw; reflexivity.
Qed.

Lemma windowProc_no_leak env message :
  wnd_preserves (on_session keeps_no_leak) (windowProc env message).
Proof.
  unfold windowProc, keyDown, getClientRect.
  wnd_preserves_go ltac:(first [no_leak_leaf | by apply wnd_preserves_session; [typeclasses eauto|]]).
Qed.

Lemma step_no_leak w st : no_leak (session w) -> no_leak (session (step w st)).
Proof.
  destruct st as [env message|env|env]; cbn [step].
  - apply (wnd_preserves_exec (on_session keeps_no_leak)), windowProc_no_leak.
  - destruct w. apply (preserves_run keeps_no_leak), updateZview_no_leak.
  - destruct w. apply (preserves_run keeps_no_leak), drawZview_no_leak.
Qed.

(** X1. Nothing leaks: over any sequence of window messages, calls of
    [updateZview] and calls of [drawZview], the viewports and OpenGL objects
    that were created and not released since are exactly those whose
    handles and names the globals hold. *)
Theorem no_resource_leak sts : forall w,
  no_leak (session w) -> no_leak (session (steps sts w)).
Proof.
  induction sts as [|st sts IH]; intros w Hw; [done|].
  apply IH. by apply step_no_leak.
Qed.

Lemma no_resource_leak_witness :
  let w := steps example_session (example_window example_state) in
  no_leak example_state /\
  g_zViewAugmentedRealityModeGlFramebufferId (augmentedRealityMode (globals (session w))) ≠ 0 /\
  no_leak (session w).
Proof.
  assert (H0 : no_leak example_state).
  { unfold no_leak. vm_compute. reflexivity. }
  split; [exact H0|]. split; [vm_compute; discriminate|].
  exact (no_resource_leak example_session (example_window example_state) H0).
Defined.

(** ** Tear-down, in detail *)

Lemma tearDownZviewMode_spec env s :
  wp (tearDownZviewMode env) s (fun _ _ => False) (fun b s' =>
    let viewport := g_zViewStandardModeViewportHandle (standardMode (globals s)) in
    let failed :=
      g_zViewLatestActiveConnectionMode (globals s) = g_zViewStandardMode (globals s) /\
      viewport ≠ NULL /\ zc_error env (ZcDestroyViewport viewport) ≠ ZC_ERROR_OK in
    if b then
      g_zViewLatestActiveConnectionMode (globals s') = NULL /\
      mode_released (g_zViewLatestActiveConnectionMode (globals s)) (globals s') /\
      ~ failed
    else s' = s /\ failed).
Proof.
  unfold tearDownZviewMode.
  exec ltac:(first
    [ call_spec (tearDownZviewStandardMode_released env);
      call1 (tearDownZviewStandardMode_keeps env)
    | call_spec (tearDownZviewAugmentedRealityMode_released env);
      call1 (tearDownZviewAugmentedRealityMode_keeps env) ]).
  all: simpl in *; subst.
  all: repeat match goal with
       | H : keeps session_globals _ _ |- _ =>
           unfold keeps, session_globals in H; simpl in H;
           injection H as ? ? ? ? ? ? ? ? ?
       end.
  all: unfold mode_released; cbn.
  - destruct Hspec as [Hspec Hok]. split; [done|]. split; [split; [done|congruence]|].
    intros (_ & Hv & Herr). by apply Herr, Hok.
  - destruct Hspec as (-> & ? & ?). done.
  - destruct Hspec as [_ Hspec]. split; [done|]. split; [split; [congruence|done]|].
    by intros [? _].
  - by destruct Hspec.
  - split; [done|]. split; [split; intros; congruence|]. by intros [? _].
Qed.

(** X2. [tearDownZviewMode] fails exactly when the latest mode is standard
    mode, its viewport exists and the zSpace Core API does not destroy it;
    a tear-down that fails changes nothing. *)
Theorem tearDownZviewMode_fails_unchanged env s :
  let viewport := g_zViewStandardModeViewportHandle (standardMode (globals s)) in
  ((run (tearDownZviewMode env) s).1 = false <->
   g_zViewLatestActiveConnectionMode (globals s) = g_zViewStandardMode (globals s) /\
   viewport ≠ NULL /\ zc_error env (ZcDestroyViewport viewport) ≠ ZC_ERROR_OK) /\
  ((run (tearDownZviewMode env) s).1 = false -> (run (tearDownZviewMode env) s).2 = s).
Proof.
  cbv zeta. pose proof (tearDownZviewMode_spec env s) as H. apply wp_run in H.
  destruct (run (tearDownZviewMode env) s) as [[] s']; cbn [fst snd] in *.
  - destruct H as (_ & _ & Hnot). split; [|done]. split; [done|]. intros Hf. by destruct Hnot.
  - destruct H as [-> Hf]. split; [|done]. by split.
Qed.

Lemma tearDownZviewMode_fails_unchanged_witness :
  run (tearDownZviewMode env_viewport_stuck) example_standard = (false, example_standard).
Proof.
  pose proof (tearDownZviewMode_fails_unchanged env_viewport_stuck example_standard)
    as [Hiff Hsame].
  assert (Hfalse : (run (tearDownZviewMode env_viewport_stuck) example_standard).1 = false).
  { apply Hiff. vm_compute. repeat split; discriminate. }
  specialize (Hsame Hfalse).
  destruct (run (tearDownZviewMode env_viewport_stuck) example_standard) as [b s'].
  simpl in Hfalse, Hsame. by rewrite Hfalse, Hsame.
Defined.

Lemma elem_of_events_of (f : Fn) s e evs :
  w_trace (world (run f s).2) = w_trace (world s) ++ evs -> e ∈ evs -> e ∈ events_of f s.
Proof. intros E. by rewrite (events_of_app f s evs E). Qed.

(** X3. When the runtime reports the active connection closed or in
    error, and every call succeeds, the update of that connection ends the
    session: the node status becomes not connected, the resources of the
    latest mode are released, the connection is destroyed, and neither an
    active connection nor a latest mode is left. *)
Theorem closed_connection_ends_session env c s :
  (forall call, zv_error env call = ZV_ERROR_OK) ->
  (forall call, zc_error env call = ZC_ERROR_OK) ->
  is_closed (env_connectionState env c) = true ->
  c = g_zViewActiveConnection (globals s) ->
  let s' := (run (updateZviewConnection env c) s).2 in
  let evs := events_of (updateZviewConnection env c) s in
  (run (updateZviewConnection env c) s).1 = true /\
  g_zViewActiveConnection (globals s') = NULL /\
  g_zViewLatestActiveConnectionMode (globals s') = NULL /\
  mode_released (g_zViewLatestActiveConnectionMode (globals s)) (globals s') /\
  EvSetNodeStatus ZVIEW_NODE_STATUS_NOT_CONNECTED ∈ evs /\
  EvDestroyConnection c ∈ evs.
Proof.
  intros Hzv Hzc Hclosed Hactive. cbv zeta. unfold events_of.
  apply (wp_run (updateZviewConnection env c) s (fun b s' =>
    b = true /\
    g_zViewActiveConnection (globals s') = NULL /\
    g_zViewLatestActiveConnectionMode (globals s') = NULL /\
    mode_released (g_zViewLatestActiveConnectionMode (globals s)) (globals s') /\
    EvSetNodeStatus ZVIEW_NODE_STATUS_NOT_CONNECTED
      ∈ drop (length (w_trace (world s))) (w_trace (world s')) /\
    EvDestroyConnection c ∈ drop (length (w_trace (world s))) (w_trace (world s')))).
  assert (Hvr : video_recording_ready env c) by (repeat split; apply Hzv).
  unfold updateZviewConnection, closedOrError.
  exec ltac:(first
    [ rewrite (processZviewVideoRecording_run env _ _ Hvr); cbn [fst snd]
    | call_spec (tearDownZviewMode_spec env);
      call2 (tearDownZviewMode_emits env) (tearDownZviewMode_keeps env) ]).
  all: try (rewrite Heqz in Hclosed; discriminate Hclosed).
  all: try (exfalso; cbn in Hspec; destruct Hspec as (_ & _ & _ & Herr); by apply Herr).
  all: unfold polled; cbn [globals world w_trace fst snd] in *.
  all: destruct Hspec as (Hlatest & Hreleased & _).
  all: destruct Hcall as (evs & Htrace & _); cbn [world w_trace] in Htrace.
  all: rewrite Htrace, <-!app_assoc, drop_app_length.
  all: split; [done|]; split; [done|]; split; [done|].
  all: split; [|split; set_solver].
  all: revert Hreleased; unfold mode_released, standard_released, augmented_reality_released;
    by destruct s0 as [[] ?].
Qed.

Lemma closed_connection_ends_session_witness :
  let s' := (run (updateZviewConnection env_closed 11) example_standard).2 in
  g_zViewStandardModeViewportHandle (standardMode (globals example_standard)) = 31 /\
  g_zViewActiveConnection (globals s') = NULL /\
  standard_released (globals s') /\
  EvDestroyConnection 11 ∈ events_of (updateZviewConnection env_closed 11) example_standard.
Proof.
  split; [reflexivity|].
  destruct (closed_connection_ends_session env_closed 11 example_standard)
    as (_ & Hactive & _ & [Hreleased _] & _ & Hdestroy); [done..|].
  split; [exact Hactive|]. split; [|exact Hdestroy].
  apply Hreleased. reflexivity.
Defined.


(** ** Set-up, in detail *)

Lemma tearDownZviewStandardMode_keeps_latest env :
  preserves (keeps g_zViewLatestActiveConnectionMode) (tearDownZviewStandardMode env).
Proof. unfold tearDownZviewStandardMode. preserves_go keeps_leaf. Qed.

Lemma tearDownZviewAugmentedRealityMode_keeps_latest env :
  preserves (keeps g_zViewLatestActiveConnectionMode) (tearDownZviewAugmentedRealityMode env).
Proof. unfold tearDownZviewAugmentedRealityMode. preserves_go keeps_leaf. Qed.

#[global] Hint Resolve tearDownZviewStandardMode_keeps_latest
  tearDownZviewAugmentedRealityMode_keeps_latest : keeps.

Lemma setUpZviewStandardMode_keeps_latest env c :
  preserves (keeps g_zViewLatestActiveConnectionMode) (setUpZviewStandardMode env c).
Proof. unfold setUpZviewStandardMode. preserves_go keeps_leaf. Qed.

Lemma setUpZviewAugmentedRealityMode_keeps_latest env c :
  preserves (keeps g_zViewLatestActiveConnectionMode) (setUpZviewAugmentedRealityMode env c).
Proof. unfold setUpZviewAugmentedRealityMode. preserves_go keeps_leaf. Qed.

(** X4. [setUpZviewMode] records the mode of the connection as the latest
    active mode as soon as the runtime tells it the mode, also when the
    set-up fails afterwards; when the runtime does not tell the mode, it
    fails and changes nothing. *)
Theorem setUpZviewMode_records_mode env c s :
  let s' := (run (setUpZviewMode env c) s).2 in
  (zv_error env (ZvGetConnectionMode c) = ZV_ERROR_OK ->
   g_zViewLatestActiveConnectionMode (globals s') = env_connectionMode env c) /\
  (zv_error env (ZvGetConnectionMode c) ≠ ZV_ERROR_OK ->
   run (setUpZviewMode env c) s = (false, s)).
Proof.
  cbv zeta. split.
  - intros Hok.
    apply (wp_run (setUpZviewMode env c) s (fun _ s' =>
      g_zViewLatestActiveConnectionMode (globals s') = env_connectionMode env c)).
    unfold setUpZviewMode.
    exec ltac:(first
      [ call1 (setUpZviewStandardMode_keeps_latest env c)
      | call1 (setUpZviewAugmentedRealityMode_keeps_latest env c)
      | forget_call ]).
    all: try done.
    all: repeat match goal with
         | H : ¬ (_ ≠ _) |- _ => apply dec_stable in H; simpl in H
         | H : keeps _ _ _ |- _ => unfold keeps in H; simpl in H
         end.
    all: try congruence.
    all: simpl; congruence.
  - intros Herr. apply run_intro. unfold setUpZviewMode. exec idtac. by destruct s.
Qed.

Lemma setUpZviewStandardMode_complete env c s :
  wp (setUpZviewStandardMode env c) s (fun _ _ => False) (fun b s' =>
    b = true ->
    env_framebufferComplete env
      (g_zViewStandardModeGlFramebufferId (standardMode (globals s'))) = true).
Proof. unfold setUpZviewStandardMode. exec forget_call; done. Qed.

Lemma setUpZviewAugmentedRealityMode_complete env c s :
  wp (setUpZviewAugmentedRealityMode env c) s (fun _ _ => False) (fun b s' =>
    b = true ->
    env_framebufferComplete env
      (g_zViewAugmentedRealityModeMaskGlFramebufferId (augmentedRealityMode (globals s')))
      = true /\
    env_framebufferComplete env
      (g_zViewAugmentedRealityModeGlFramebufferId (augmentedRealityMode (globals s')))
      = true).
Proof. unfold setUpZviewAugmentedRealityMode. exec forget_call; done. Qed.

Lemma setUpZviewMode_completion env c s :
  wp (setUpZviewMode env c) s (fun _ _ => False) (fun b s' =>
    exists evs, w_trace (world s') = w_trace (world s) ++ evs /\
      (Forall not_completion evs \/
       exists evs0, evs = evs0 ++ [EvCompleteModeSetupPhase c (env_modeSetupPhase env c)] /\
         Forall not_completion evs0 /\
         b = true /\ env_isAwaitingCompletion env c = false /\
         (env_modeSetupPhase env c = ZV_MODE_SETUP_PHASE_COMPLETION ->
          framebuffers_complete env (env_connectionMode env c) (globals s')))).
Proof.
  unfold setUpZviewMode.
  exec ltac:(first
    [ call2 (tearDownZviewMode_emits env) (tearDownZviewMode_keeps env)
    | call_spec (setUpZviewStandardMode_complete env c);
      call2 (setUpZviewStandardMode_emits env c) (setUpZviewStandardMode_keeps env c)
    | call_spec (setUpZviewAugmentedRealityMode_complete env c);
      call2 (setUpZviewAugmentedRealityMode_emits env c)
        (setUpZviewAugmentedRealityMode_keeps env c) ]).
  all: trace_facts.
  all: rewrite <-?app_assoc; eexists;
    (split; [first [reflexivity | symmetry; apply app_nil_r]|]).
  all: rewrite ?app_assoc.
  all: lazymatch goal with
       | |- Forall _ (_ ++ [EvCompleteModeSetupPhase _ _]) \/ _ =>
           right; eexists; split; [reflexivity|]
       | |- Forall _ [EvCompleteModeSetupPhase _ _] \/ _ =>
           right; exists []; split; [reflexivity|]
       | |- _ => left
       end.
  all: repeat match goal with
       | |- _ /\ _ => split
       | |- Forall not_completion (_ ++ _) => apply Forall_app
       | |- Forall not_completion [] => constructor
       | |- Forall not_completion [_] => by repeat constructor
       | H : Forall resource_event ?evs |- Forall not_completion ?evs =>
           eapply list.Forall_impl; [exact H|]; by intros []
       end.
  all: try done.
  all: intros _; unfold framebuffers_complete; cbn in *.
  all: split; intros; first [by apply Hspec | exfalso; congruence].
Qed.

(** X5. [setUpZviewMode] reports a set-up phase complete only for its own
    connection and for the phase the runtime is in, as the last thing it
    does, and only when the set-up went through: it returns [true], the
    phase was not awaiting completion already, and in the completion phase
    the framebuffers of the mode are complete. *)
Theorem setUpZviewMode_completes_phase_after_success env c s c' phase :
  let evs := events_of (setUpZviewMode env c) s in
  let s' := (run (setUpZviewMode env c) s).2 in
  EvCompleteModeSetupPhase c' phase ∈ evs ->
  c' = c /\ phase = env_modeSetupPhase env c /\
  list.last evs = Some (EvCompleteModeSetupPhase c phase) /\
  (run (setUpZviewMode env c) s).1 = true /\
  env_isAwaitingCompletion env c = false /\
  (phase = ZV_MODE_SETUP_PHASE_COMPLETION ->
   framebuffers_complete env (env_connectionMode env c) (globals s')).
Proof.
  cbv zeta. intros Hin.
  pose proof (setUpZviewMode_completion env c s) as H. apply wp_run in H.
  destruct H as (evs & Htrace & H).
  rewrite (events_of_app _ _ _ Htrace) in *.
  destruct H as [Hnot|(evs0 & -> & Hnot & Hok & Hawait & Hfb)].
  - rewrite list.Forall_forall in Hnot. by destruct (Hnot _ Hin).
  - apply elem_of_app in Hin as [Hin|Hin].
    + rewrite list.Forall_forall in Hnot. by destruct (Hnot _ Hin).
    + apply list_elem_of_singleton in Hin. injection Hin as -> ->.
      rewrite last_snoc. done.
Qed.

Lemma setUpZviewMode_completes_phase_after_success_witness :
  let env := env_standard_setup ZV_MODE_SETUP_PHASE_COMPLETION in
  let evs := events_of (setUpZviewMode env 11) example_standard_initialized in
  list.last evs = Some (EvCompleteModeSetupPhase 11 ZV_MODE_SETUP_PHASE_COMPLETION) /\
  (run (setUpZviewMode env 11) example_standard_initialized).1 = true.
Proof.
  intros env evs.
  destruct (setUpZviewMode_completes_phase_after_success env 11 example_standard_initialized
              11 ZV_MODE_SETUP_PHASE_COMPLETION) as (_ & _ & Hlast & Hresult & _).
  { apply list_elem_of_In. vm_compute. auto 20. }
  split; [exact Hlast|exact Hresult].
Defined.


(** ** One connection after the other *)

Lemma about_resource_event cs e : resource_event e -> about cs e.
Proof. by destruct e; intros ? ? [=]. Qed.

Lemma about_mono cs cs' e : cs ⊆ cs' -> about cs e -> about cs' e.
Proof. intros Hsub H c Hc. by apply Hsub, H. Qed.

Create HintDb about.

Ltac about_leaf :=
  first
    [ apply emits_assign
    | apply emits_put_settings
    | apply emits_put_frameNumber
    | apply emits_emit; intros ? [= <-]; by constructor
    | apply emits_emit; by intros ? [=]
    | solve [eauto with about]
    | solve [eapply preserves_mono; [|eauto with emits];
             intros ? ?; apply emits_mono; apply about_resource_event] ].

Lemma setUpZviewMode_about env c : preserves (emits (about [c])) (setUpZviewMode env c).
Proof. unfold setUpZviewMode. preserves_go about_leaf. Qed.

Lemma processNewZviewConnection_about env c :
  preserves (emits (about [c])) (processNewZviewConnection env c).
Proof. unfold processNewZviewConnection. preserves_go about_leaf. Qed.

Lemma processZviewVideoRecording_about env c :
  preserves (emits (about [c])) (processZviewVideoRecording env c).
Proof. unfold processZviewVideoRecording. preserves_go about_leaf. Qed.

#[global] Hint Resolve setUpZviewMode_about processNewZviewConnection_about
  processZviewVideoRecording_about : about.

Lemma updateZviewConnection_about env c :
  preserves (emits (about [c])) (updateZviewConnection env c).
Proof. unfold updateZviewConnection, closedOrError. preserves_go about_leaf. Qed.

Lemma updateZviewConnection_update_fails env c s :
  zv_error env (ZvUpdateConnection c) ≠ ZV_ERROR_OK ->
  run (updateZviewConnection env c) s = (false, s).
Proof.
  intros Herr. apply run_intro. unfold updateZviewConnection. exec idtac. by destruct s.
Qed.

Lemma nth_drop_cons {A : Type} i (l : list A) x rest d :
  drop i l = x :: rest -> nth i l d = x /\ drop (S i) l = rest.
Proof.
  revert l. induction i as [|i IH]; intros [|y l] E; simplify_eq/=; [done|].
  by apply IH.
Qed.

Lemma updateZview_loop_stops env c post :
  (forall i, zv_error env (ZvGetConnection i) = ZV_ERROR_OK) ->
  zv_error env (ZvUpdateConnection c) ≠ ZV_ERROR_OK ->
  forall pre i s,
  drop i (env_connections env) = pre ++ c :: post ->
  wp (updateZview_loop env i (length (pre ++ c :: post))) s (fun _ _ => False)
    (fun b s' => b = false /\ emits (about pre) s s').
Proof.
  intros Hget Herr. induction pre as [|p pre IH]; intros i s Hdrop.
  - destruct (nth_drop_cons i _ _ _ NULL Hdrop) as [Hc _].
    cbn [length app updateZview_loop].
    rewrite <-Hc in Herr.
    exec ltac:(rewrite (updateZviewConnection_update_fails env _ _ Herr); cbn [fst snd]).
    split; [done|reflexivity].
  - destruct (nth_drop_cons i _ _ _ NULL Hdrop) as [Hp Hrest].
    cbn [length app updateZview_loop].
    rewrite <-Hp in *.
    exec ltac:(call1 (updateZviewConnection_about env (nth i (env_connections env) NULL))).
    + eapply wp_mono; [apply (IH (S i) _ Hrest)|done|].
      intros b' s' [-> Hemits]. split; [done|].
      etrans; [|eapply emits_mono; [|exact Hemits]].
      * eapply emits_mono; [|exact Hcall]. intros ev. apply about_mono.
        intros x Hx. apply list_elem_of_singleton in Hx as ->. by left.
      * intros ev. apply about_mono. intros x Hx. by right.
    + split; [done|]. eapply emits_mono; [|exact Hcall].
      intros ev. apply about_mono.
      intros x Hx. apply list_elem_of_singleton in Hx as ->. by left.
Qed.

(** X6. [updateZview] stops at the first connection whose update fails:
    it returns [false], and whatever it did concerns the connections before
    that one only. *)
Theorem updateZview_stops_at_first_failure env s pre c post :
  g_zViewContext (globals s) ≠ NULL ->
  connection_list_ready env ->
  env_connections env = pre ++ c :: post ->
  zv_error env (ZvUpdateConnection c) ≠ ZV_ERROR_OK ->
  (run (updateZview env) s).1 = false /\
  Forall (about pre) (events_of (updateZview env) s).
Proof.
  intros Hcontext (Hlist & Hnum & Hget) Hconns Herr.
  assert (H : wp (updateZview env) s (fun _ _ => False)
                (fun b s' => b = false /\ emits (about pre) s s')).
  { unfold updateZview. exec idtac.
    rewrite Hconns, Nat2Z.id. by apply updateZview_loop_stops. }
  apply wp_run in H as [Hb (evs & Htrace & Hevs)]. split; [done|].
  by rewrite (events_of_app _ _ _ Htrace).
Qed.

Lemma updateZview_stops_at_first_failure_witness :
  (run (updateZview env_second_update_fails) example_standard).1 = false /\
  Forall (about [11]) (events_of (updateZview env_second_update_fails) example_standard).
Proof.
  apply (updateZview_stops_at_first_failure env_second_update_fails example_standard
           [11] 12 []).
  - vm_compute. discriminate.
  - repeat split.
  - reflexivity.
  - vm_compute. discriminate.
Defined.

(** ** The image size follows the window *)

Lemma handleZviewStandardModeImageResolutionChange_size env s :
  wp (handleZviewStandardModeImageResolutionChange env) s (fun _ _ => False)
    (fun b s' =>
       b = true ->
       session_globals (globals s') = session_globals (globals s) /\
       (g_zViewActiveConnection (globals s) ≠ NULL ->
        g_zViewStandardModeImageWidth (standardMode (globals s')) =
          to_u16 (g_windowWidth (globals s)) \/
        g_zViewStandardModeImageWidth (standardMode (globals s')) = g_windowWidth (globals s)) /\
       (g_zViewActiveConnection (globals s) ≠ NULL ->
        g_zViewStandardModeImageHeight (standardMode (globals s')) =
          to_u16 (g_windowHeight (globals s)) \/
        g_zViewStandardModeImageHeight (standardMode (globals s')) =
          g_windowHeight (globals s))).
Proof.
  unfold handleZviewStandardModeImageResolutionChange. exec idtac.
  all: try done.
  all: intros _; split; [done|]; simpl; tauto.
Qed.

(** X7. [handleZviewStandardModeImageResolutionChange] is idempotent: for
    a window whose size fits 16 bits, a second run after a successful one
    succeeds and changes nothing; in particular it sends nothing again. *)
Theorem handleZviewStandardModeImageResolutionChange_idempotent env1 env2 s s1 :
  0 <= g_windowWidth (globals s) < 2 ^ 16 ->
  0 <= g_windowHeight (globals s) < 2 ^ 16 ->
  run (handleZviewStandardModeImageResolutionChange env1) s = (true, s1) ->
  run (handleZviewStandardModeImageResolutionChange env2) s1 = (true, s1).
Proof.
  intros Hw Hh Hrun.
  pose proof (handleZviewStandardModeImageResolutionChange_size env1 s) as H.
  apply wp_run in H. rewrite Hrun in H. destruct (H eq_refl) as (Hg & Hwidth & Hheight).
  unfold session_globals in Hg. cbn [fst snd] in *. injection Hg as Hc Ha _ _ _ Hx Hy Hww Hwh.
  apply run_intro. unfold handleZviewStandardModeImageResolutionChange.
  exec idtac; try (split; [done|by destruct s1]).
  all: exfalso; apply n0.
  all: rewrite Ha in n; specialize (Hwidth n); specialize (Hheight n).
  all: unfold to_u16 in *; rewrite !Z.mod_small in * by lia.
  all: rewrite Hww, Hwh; split; tauto.
Qed.

Lemma handleZviewStandardModeImageResolutionChange_idempotent_witness :
  let s := set_windowSize 800 600 example_standard in
  let s1 := (run (handleZviewStandardModeImageResolutionChange env_standard_active) s).2 in
  s1 ≠ s /\
  run (handleZviewStandardModeImageResolutionChange env_standard_active) s1 = (true, s1).
Proof.
  intros s s1. split.
  - intros H. apply (f_equal (fun s => length (w_trace (world s)))) in H.
    vm_compute in H. discriminate H.
  - apply (handleZviewStandardModeImageResolutionChange_idempotent
             env_standard_active env_standard_active s s1).
    + vm_compute. split; [discriminate|reflexivity].
    + vm_compute. split; [discriminate|reflexivity].
    + vm_compute. reflexivity.
Defined.

(** ** What the frame pump sends *)

Lemma drawZviewStandardMode_emits env :
  preserves (emits no_event) (drawZviewStandardMode env).
Proof. unfold drawZviewStandardMode. preserves_go emits_leaf. Qed.

Lemma not_sent_no_event evs : Forall no_event evs -> Forall (fun e => sent_tag e = None) evs.
Proof. intros H. eapply list.Forall_impl; [exact H|]. by intros []. Qed.

Lemma not_sent_settings_sent_event evs :
  Forall settings_sent_event evs -> Forall (fun e => sent_tag e = None) evs.
Proof. intros H. eapply list.Forall_impl; [exact H|]. by intros []. Qed.

Lemma drawZview_sends env s :
  wp (drawZview env) s (fun _ _ => False) (fun b s' =>
    exists evs, w_trace (world s') = w_trace (world s) ++ evs /\
      let active := g_zViewActiveConnection (globals s) in
      (forall f tag, EvSendFrame f tag ∈ evs ->
         g_zViewContext (globals s) ≠ NULL /\ active ≠ NULL /\
         env_connectionState env active = ZV_CONNECTION_STATE_MODE_ACTIVE /\
         (env_connectionMode env active = g_zViewStandardMode (globals s) \/
          env_connectionMode env active = g_zViewAugmentedRealityMode (globals s)) /\
         f = env_nextFrameToSend env active /\ f ≠ NULL) /\
      (length (sent_tags evs) <= 1)%nat).
Proof.
  unfold drawZview.
  exec ltac:(first
    [ call1 (drawZviewStandardMode_emits env)
    | call1 (handleZviewStandardModeImageResolutionChange_emits env)
    | unfold drawZviewAugmentedRealityMode, run, return_; simpl ]).
  all: trace_facts.
  all: rewrite <-?app_assoc; eexists;
    (split; [first [reflexivity | symmetry; apply app_nil_r]|]).
  all: cbv zeta.
  all: repeat match goal with
       | H : Forall no_event _ |- _ => apply not_sent_no_event in H
       | H : Forall settings_sent_event _ |- _ => apply not_sent_settings_sent_event in H
       end.
  all: split;
    [ intros f tag Hin; elem_of_cases Hin;
      repeat match goal with
      | H : Forall _ ?x, Hin : _ ∈ ?x |- _ =>
          rewrite list.Forall_forall in H; discriminate (H _ Hin)
      end
    | rewrite ?sent_tags_app;
      repeat match goal with
      | H : Forall _ ?x |- _ => rewrite (sent_tags_not_sent x H); clear H
      end;
      simpl; lia ].
  all: injection Hin as -> ->.
  all: repeat match goal with
       | H : ¬ (_ ≠ _) |- _ => apply dec_stable in H; simpl in H
       end.
  all: tauto.
Qed.

(** X8. [drawZview] sends a frame only when there is a context and an
    active connection whose mode is active and is one of the two modes of
    the program, and then the frame the runtime handed out; it sends at
    most one frame. *)
Theorem drawZview_sends_only_in_active_mode env s :
  let evs := events_of (drawZview env) s in
  let active := g_zViewActiveConnection (globals s) in
  (forall f tag, EvSendFrame f tag ∈ evs ->
     g_zViewContext (globals s) ≠ NULL /\ active ≠ NULL /\
     env_connectionState env active = ZV_CONNECTION_STATE_MODE_ACTIVE /\
     (env_connectionMode env active = g_zViewStandardMode (globals s) \/
      env_connectionMode env active = g_zViewAugmentedRealityMode (globals s)) /\
     f = env_nextFrameToSend env active /\ f ≠ NULL) /\
  (length (sent_tags evs) <= 1)%nat.
Proof.
  cbv zeta. pose proof (drawZview_sends env s) as H. apply wp_run in H.
  destruct H as (evs & Htrace & H). by rewrite (events_of_app _ _ _ Htrace).
Qed.

Lemma drawZview_received env s :
  wp (drawZview env) s (fun _ _ => False) (fun b s' =>
    exists evs, w_trace (world s') = w_trace (world s) ++ evs /\
      (forall f, EvReleaseReceivedFrame f ∈ evs ->
         EvReceiveFrame f (env_receivedFrameNumber env f) ∈ evs) /\
      (b = true -> forall f n, EvReceiveFrame f n ∈ evs -> EvReleaseReceivedFrame f ∈ evs)).
Proof.
  unfold drawZview.
  exec ltac:(first
    [ call1 (drawZviewStandardMode_emits env)
    | call1 (handleZviewStandardModeImageResolutionChange_emits env)
    | unfold drawZviewAugmentedRealityMode, run, return_; simpl ]).
  all: trace_facts.
  all: rewrite <-?app_assoc; eexists;
    (split; [first [reflexivity | symmetry; apply app_nil_r]|]).
  all: split; [intros f Hin|intros Hb f n' Hin; try discriminate Hb].
  all: elem_of_cases Hin.
  all: repeat match goal with
       | H : Forall _ ?x, Hin : _ ∈ ?x |- _ =>
           rewrite list.Forall_forall in H; destruct (H _ Hin)
       end.
  all: simplify_eq; set_solver.
Qed.

(** X9. [drawZview] releases only a frame that it has received, and when
    it succeeds it has released every frame it received. *)
Theorem drawZview_releases_received_frame env s :
  let evs := events_of (drawZview env) s in
  (forall f, EvReleaseReceivedFrame f ∈ evs ->
     EvReceiveFrame f (env_receivedFrameNumber env f) ∈ evs) /\
  ((run (drawZview env) s).1 = true ->
   forall f n, EvReceiveFrame f n ∈ evs -> EvReleaseReceivedFrame f ∈ evs).
Proof.
  cbv zeta. pose proof (drawZview_received env s) as H. apply wp_run in H.
  destruct H as (evs & Htrace & H). by rewrite (events_of_app _ _ _ Htrace).
Qed.

(** ** Settings written by the keys *)

Lemma setting_insert s s1 c k v st c' k' :
  w_settings (world s1) = <[c := st]> (w_settings (world s)) ->
  st_values st = <[k := v]> (st_values (w_settings (world s) !!! c)) ->
  setting s1 c' k' = if decide (c' = c /\ k' = k) then Some v else setting s c' k'.
Proof.
  intros Hs Hst. unfold setting. rewrite Hs.
  destruct (decide (c' = c)) as [->|Hc].
  - rewrite lookup_total_insert_eq, Hst.
    destruct (decide (k' = k)) as [->|Hk].
    + rewrite lookup_insert_eq. by rewrite decide_True.
    + rewrite lookup_insert_ne by done. by rewrite decide_False by tauto.
  - rewrite lookup_total_insert_ne by done. by rewrite decide_False by tauto.
Qed.

Lemma incrementZviewSettingClampedF32_spec env c k inc min max s :
  wp (incrementZviewSettingClampedF32 env c k inc min max) s (fun _ _ => False)
    (fun b s' =>
       if b then
         globals s' = globals s /\
         exists v, setting s c k = Some (SettingF32 v) /\
           forall c' k', setting s' c' k' =
             if decide (c' = c /\ k' = k)
             then Some (SettingF32 (clamp (F32.add v inc) min max))
             else setting s c' k'
       else s' = s).
Proof.
  unfold incrementZviewSettingClampedF32. exec idtac.
  all: try (by destruct s).
  all: split; [done|]; exists v; split; [done|]; intros c' k'.
  all: by eapply setting_insert.
Qed.

(** X10. [incrementZviewSettingClampedF32] is all or nothing: when it
    fails the state is unchanged; when it succeeds the globals are
    unchanged, the setting held a number, and the settings are as before
    but for that one, which holds the clamped sum. *)
Theorem incrementZviewSettingClampedF32_all_or_nothing env c k inc min max s :
  let r := run (incrementZviewSettingClampedF32 env c k inc min max) s in
  (r.1 = false -> r.2 = s) /\
  (r.1 = true ->
   globals r.2 = globals s /\
   exists v, setting s c k = Some (SettingF32 v) /\
     forall c' k', setting r.2 c' k' =
       if decide (c' = c /\ k' = k)
       then Some (SettingF32 (clamp (F32.add v inc) min max))
       else setting s c' k').
Proof.
  cbv zeta. pose proof (incrementZviewSettingClampedF32_spec env c k inc min max s) as H.
  apply wp_run in H.
  destruct (run (incrementZviewSettingClampedF32 env c k inc min max) s) as [[] s'];
    cbn [fst snd] in *; by split.
Qed.

Lemma changed_only s s' c0 k0 x :
  (forall c k, setting s' c k = if decide (c = c0 /\ k = k0) then x else setting s c k) ->
  forall c k, setting s' c k ≠ setting s c k -> c = c0 /\ k = k0.
Proof. intros H c k. rewrite H. by case_decide. Qed.

Lemma overlay_key_press_changes env key s :
  wp (processZviewAugmentedRealityModeOverlayControlKeyPress env key) s (fun _ _ => False)
    (fun _ s' =>
       globals s' = globals s /\
       forall c k, setting s' c k ≠ setting s c k ->
         let active := g_zViewActiveConnection (globals s) in
         c = active /\ active ≠ NULL /\
         env_connectionState env active = ZV_CONNECTION_STATE_MODE_ACTIVE /\
         env_connectionMode env active = g_zViewAugmentedRealityMode (globals s) /\
         env_isControlKeyPressed env = true /\
         exists letter v, (letter, k, v) ∈ overlay_keys /\ key = VK letter).
Proof.
  unfold processZviewAugmentedRealityModeOverlayControlKeyPress.
  exec ltac:(call_spec incrementZviewSettingClampedF32_spec; forget_call).
  all: try (split; [done|]; intros c k Hne; by destruct Hne).
  all: repeat match goal with
       | H : ¬ (_ ≠ _) |- _ => apply dec_stable in H; simpl in H
       end.
  all: try (destruct Hspec as (Hg & v & _ & Hset); split; [done|]; intros c k Hne;
            apply (changed_only s _ _ _ _ Hset) in Hne as [-> ->]).
  all: try (subst; split; [done|]; intros c k Hne; by destruct Hne).
  all: try (split; [done|]; intros c k Hne;
            erewrite setting_insert in Hne by reflexivity;
            case_decide as Hck; [destruct Hck as [-> ->]|by destruct Hne]).
  all: do 5 (split; [done|]).
  all: eexists _, _; (split; [|eassumption]); unfold overlay_keys, overlay_offset_keys,
         overlay_scale_keys, overlay_reset_keys; cbn [app]; repeat constructor.
Qed.

(** X11. A key press handled by
    [processZviewAugmentedRealityModeOverlayControlKeyPress] leaves the
    globals alone, and it changes a setting only of the active connection,
    in active augmented reality mode with the control key down, and only
    the setting that the overlay keys name for that key. *)
Theorem overlay_key_press_changes_one_setting env key s :
  let s' := (run (processZviewAugmentedRealityModeOverlayControlKeyPress env key) s).2 in
  let active := g_zViewActiveConnection (globals s) in
  globals s' = globals s /\
  forall c k, setting s' c k ≠ setting s c k ->
    c = active /\ active ≠ NULL /\
    env_connectionState env active = ZV_CONNECTION_STATE_MODE_ACTIVE /\
    env_connectionMode env active = g_zViewAugmentedRealityMode (globals s) /\
    env_isControlKeyPressed env = true /\
    exists letter v, (letter, k, v) ∈ overlay_keys /\ key = VK letter.
Proof.
  cbv zeta. pose proof (overlay_key_press_changes env key s) as H. by apply wp_run in H.
Qed.

Lemma overlay_scale_key_press env s letter k step v :
  overlay_ready env s ->
  (letter, k, step) ∈ overlay_scale_keys ->
  let active := g_zViewActiveConnection (globals s) in
  setting s active k = Some (SettingF32 v) ->
  wp (processZviewAugmentedRealityModeOverlayControlKeyPress env (VK letter)) s
    (fun _ _ => False)
    (fun b s' => b = true /\
       setting s' active k =
         Some (SettingF32 (clamp (F32.add v step) F32.hundredth F32.ten))).
Proof.
  intros (Hactive & Hok & Hstate & Hmode & Hctrl) Hin active Hv.
  unfold overlay_scale_keys in Hin.
  repeat (apply elem_of_cons in Hin as [Hin|Hin]; [simplify_eq|]); [..|by apply elem_of_nil in Hin].
  all: unfold processZviewAugmentedRealityModeOverlayControlKeyPress.
  all: exec ltac:(idtac;
    lazymatch goal with
    | |- context [run (incrementZviewSettingClampedF32 ?env ?c ?k ?inc ?min ?max) ?s] =>
        let s' := fresh "s'" in
        destruct (incrementZviewSettingClampedF32_run env c k inc min max s v Hok Hv)
          as (s' & -> & ? & ?); simpl fst; simpl snd
    end).
  all: by split.
Qed.

Lemma within_scale_positive x : within F32.hundredth F32.ten x -> F32.ltb F32.zero x = true.
Proof. intros [Hlo _]. by destruct x as [[]|[]| |[] m e]. Qed.

(** X12. The scale keys [F], [H], [G] and [T] keep the scale of the overlay
    between 0.01 and 10: from any stored number, the value they store is
    the clamped sum, which is within these bounds and so positive. *)
Theorem overlay_scale_stays_positive env s letter k step v :
  overlay_ready env s ->
  (letter, k, step) ∈ overlay_scale_keys ->
  let active := g_zViewActiveConnection (globals s) in
  let press := run (processZviewAugmentedRealityModeOverlayControlKeyPress env (VK letter)) in
  let v' := clamp (F32.add v step) F32.hundredth F32.ten in
  setting s active k = Some (SettingF32 v) ->
  F32.is_nan v = false ->
  (press s).1 = true /\
  setting (press s).2 active k = Some (SettingF32 v') /\
  within F32.hundredth F32.ten v' /\
  F32.ltb F32.zero v' = true.
Proof.
  intros Hready Hin active press v' Hv Hnan.
  pose proof (overlay_scale_key_press env s letter k step v Hready Hin Hv) as Hs.
  apply wp_run in Hs as [Hok Hset].
  assert (Hw : within F32.hundredth F32.ten v').
  { apply clamp_within; [done|]. apply add_not_nan; [done|].
    unfold overlay_scale_keys in Hin.
    repeat (apply elem_of_cons in Hin as [Hin|Hin]; [by simplify_eq|]).
    by apply elem_of_nil in Hin. }
  split; [done|]. split; [done|]. split; [done|]. by apply within_scale_positive.
Qed.

Lemma overlay_scale_stays_positive_witness :
  let s := remote_setting 11 ZV_SETTING_KEY_OVERLAY_SCALE_X
             (SettingF32 F32.hundredth) example_augmented in
  let press := run (processZviewAugmentedRealityModeOverlayControlKeyPress
                      env_augmented_active (VK "F")) in
  overlay_ready env_augmented_active s /\
  setting (press s).2 11 ZV_SETTING_KEY_OVERLAY_SCALE_X = Some (SettingF32 F32.hundredth).
Proof.
  intros s press.
  assert (Hready : overlay_ready env_augmented_active s).
  { vm_compute. repeat split; try discriminate; auto. }
  split; [exact Hready|].
  assert (Hin : ("F"%char, ZV_SETTING_KEY_OVERLAY_SCALE_X, F32.minus_hundredth)
                ∈ overlay_scale_keys).
  { unfold overlay_scale_keys. repeat constructor. }
  destruct (overlay_scale_stays_positive env_augmented_active s "F"
              ZV_SETTING_KEY_OVERLAY_SCALE_X F32.minus_hundredth F32.hundredth Hready Hin)
    as (_ & Hset & _); [vm_compute; reflexivity|vm_compute; reflexivity|].
  vm_compute in Hset |- *. exact Hset.
Defined.

(** X13. The reset keys [Q], [E], [R] and [Y] store the default of their
    setting, 0 for an offset and 1 for a scale, whatever was stored before
    (also a NaN, or nothing). *)
Theorem overlay_reset_keys_restore_default env s letter k v0 :
  overlay_ready env s ->
  (letter, k, v0) ∈ overlay_reset_keys ->
  let active := g_zViewActiveConnection (globals s) in
  let press := run (processZviewAugmentedRealityModeOverlayControlKeyPress env (VK letter)) in
  (press s).1 = true /\
  setting (press s).2 active k = Some (SettingF32 v0).
Proof.
  intros (Hactive & Hok & Hstate & Hmode & Hctrl) Hin active press.
  apply (wp_run (processZviewAugmentedRealityModeOverlayControlKeyPress env (VK letter)) s
    (fun b s' => b = true /\ setting s' active k = Some (SettingF32 v0))).
  unfold overlay_reset_keys in Hin.
  repeat (apply elem_of_cons in Hin as [Hin|Hin]; [simplify_eq|]); [..|by apply elem_of_nil in Hin].
  all: unfold processZviewAugmentedRealityModeOverlayControlKeyPress.
  all: exec idtac.
  all: split; [done|].
  all: erewrite setting_insert by reflexivity; by rewrite decide_True.
Qed.

Lemma overlay_reset_keys_restore_default_witness :
  let s := remote_setting 11 ZV_SETTING_KEY_OVERLAY_SCALE_X
             (SettingF32 S754_nan) example_augmented in
  let press := run (processZviewAugmentedRealityModeOverlayControlKeyPress
                      env_augmented_active (VK "R")) in
  overlay_ready env_augmented_active s /\
  setting (press s).2 11 ZV_SETTING_KEY_OVERLAY_SCALE_X = Some (SettingF32 F32.one).
Proof.
  intros s press.
  assert (Hready : overlay_ready env_augmented_active s).
  { vm_compute. repeat split; try discriminate; auto. }
  split; [exact Hready|].
  assert (Hin : ("R"%char, ZV_SETTING_KEY_OVERLAY_SCALE_X, F32.one) ∈ overlay_reset_keys).
  { unfold overlay_reset_keys. repeat constructor. }
  destruct (overlay_reset_keys_restore_default env_augmented_active s "R"
              ZV_SETTING_KEY_OVERLAY_SCALE_X F32.one Hready Hin) as (_ & Hset).
  vm_compute in Hset |- *. exact Hset.
Defined.

(** ** Going round the supported modes *)

Lemma switchZviewMode_next env s modes :
  switch_ready env s ->
  env_supportedModes env (g_zViewActiveConnection (globals s)) = modes ->
  modes ≠ [] ->
  Forall (fun m => availability m = ZV_MODE_AVAILABILITY_AVAILABLE) modes ->
  let active := g_zViewActiveConnection (globals s) in
  let i := after (g_zViewCurrentConnectionModeIndex (globals s)) (Z.of_nat (length modes)) 1 in
  exists m, modes !! Z.to_nat i = Some m /\
    run (switchZviewMode env) s =
      (true, switched i [EvConnectionState active (env_connectionState env active);
                         EvPrintLog LogSwitchingModes;
                         EvSetConnectionMode active (mode m)] s).
Proof.
  intros Hready <- Hne Havail active i.
  pose proof Hready as (Hactive & Hstate & Hst & Hnum & Hget & Hset & Hidx).
  fold active in Hne, Havail, i |- *.
  assert (Hn : 0 < Z.of_nat (length (env_supportedModes env active))).
  { destruct (env_supportedModes env active); [done|cbn [length]; lia]. }
  pose proof (after_range (g_zViewCurrentConnectionModeIndex (globals s)) _ 1 Hn) as Hi.
  destruct (lookup_lt_is_Some_2 (env_supportedModes env active) (Z.to_nat i)) as [m Hm];
    [subst i; lia|].
  exists m. split; [done|].
  apply run_intro. apply switchZviewMode_enters_loop; [done|].
  eapply wp_mono;
    [apply (switchZviewMode_loop_found env active Hget Hset _ 0 _ 1 m)|..];
    rewrite ?switched_index; try done; try (subst active; lia).
  - rewrite list.Forall_forall in Havail. apply Havail. by eapply list_elem_of_lookup_2.
  - simpl. intros b s' [-> ->]. by rewrite switched_switched.
Qed.

Lemma switch_ready_switched env s i evs :
  switch_ready env s -> 0 <= i -> switch_ready env (switched i evs s).
Proof.
  intros (Hactive & Hstate & Hst & Hnum & Hget & Hset & Hidx) Hi.
  unfold switch_ready. rewrite switched_index. by destruct s as [[] ?].
Qed.

Lemma requested_modes_app evs1 evs2 :
  requested_modes (evs1 ++ evs2) = requested_modes evs1 ++ requested_modes evs2.
Proof. apply omap_app. Qed.

Lemma switched_active i evs s :
  g_zViewActiveConnection (globals (switched i evs s)) = g_zViewActiveConnection (globals s).
Proof. by destruct s as [[] ?]. Qed.

Lemma switchZviewMode_presses_spec modes envs : forall s,
  modes ≠ [] ->
  Forall (fun m => availability m = ZV_MODE_AVAILABILITY_AVAILABLE) modes ->
  Forall (fun env => switch_ready env s /\
            env_supportedModes env (g_zViewActiveConnection (globals s)) = modes) envs ->
  let n := Z.of_nat (length modes) in
  let last := g_zViewCurrentConnectionModeIndex (globals s) in
  let s' := switchZviewMode_presses envs s in
  0 <= last < n ->
  g_zViewCurrentConnectionModeIndex (globals s') = after last n (Z.of_nat (length envs)) /\
  exists evs, w_trace (world s') = w_trace (world s) ++ evs /\
    requested_modes evs = modes_after modes last (length envs).
Proof.
  induction envs as [|env envs IH]; intros s Hne Havail Henvs n last s' Hlast.
  - split.
    + unfold after. rewrite Z.add_0_r, Z.mod_small; done.
    + exists []. by rewrite app_nil_r.
  - apply list.Forall_cons in Henvs as [[Hready Hmodes] Henvs].
    destruct (switchZviewMode_next env s modes Hready Hmodes Hne Havail) as (m & Hm & Hrun).
    assert (Hn : 0 < n) by lia.
    pose proof (after_range last n 1 Hn) as Hi.
    subst s'. cbn [switchZviewMode_presses]. rewrite Hrun. cbn [snd].
    fold n last in Hm |- *.
    set (s1 := switched (after last n 1) _ s).
    destruct (IH s1 Hne Havail) as [Hidx (evs & Htrace & Hreq)].
    { eapply list.Forall_impl; [exact Henvs|]. intros env' [Hready' Hmodes'].
      subst s1. rewrite switched_active. split; [|done].
      apply switch_ready_switched; [done|lia]. }
    { subst s1. rewrite switched_index. fold n. lia. }
    subst s1. rewrite switched_index in Hidx, Hreq. fold n in Hidx.
    split.
    + rewrite Hidx, after_succ by done. f_equal. cbn [length]. lia.
    + eexists. split.
      * rewrite Htrace. cbn [switched world w_trace]. rewrite <-app_assoc. reflexivity.
      * rewrite requested_modes_app, Hreq. cbn [length modes_after].
        fold n. by rewrite Hm.
Qed.

(** X14. With all supported modes available, [k] presses of the
    switch-mode key ask the runtime for the [k] modes that follow the
    current one, going round the list, and as many presses as there are
    modes bring the mode index back to where it was. *)
Theorem switchZviewMode_goes_round modes envs s :
  modes ≠ [] ->
  Forall (fun m => availability m = ZV_MODE_AVAILABILITY_AVAILABLE) modes ->
  Forall (fun env => switch_ready env s /\
            env_supportedModes env (g_zViewActiveConnection (globals s)) = modes) envs ->
  let n := Z.of_nat (length modes) in
  let last := g_zViewCurrentConnectionModeIndex (globals s) in
  let s' := switchZviewMode_presses envs s in
  0 <= last < n ->
  g_zViewCurrentConnectionModeIndex (globals s') = after last n (Z.of_nat (length envs)) /\
  requested_modes (drop (length (w_trace (world s))) (w_trace (world s'))) =
    modes_after modes last (length envs) /\
  (length envs = length modes -> g_zViewCurrentConnectionModeIndex (globals s') = last).
Proof.
  intros Hne Havail Henvs n last s' Hlast.
  destruct (switchZviewMode_presses_spec modes envs s Hne Havail Henvs Hlast)
    as [Hidx (evs & Htrace & Hreq)].
  fold n last s' in Hidx, Htrace.
  split; [done|]. split.
  - by rewrite Htrace, drop_app_length.
  - intros Hlen. rewrite Hidx, Hlen. fold n. unfold after.
    rewrite <-(Z.mul_1_l n) at 1. rewrite Z.mod_add by lia. by apply Z.mod_small.
Qed.

Lemma switchZviewMode_goes_round_witness :
  let s' := switchZviewMode_presses [env_standard_active; env_standard_active]
              example_standard in
  g_zViewCurrentConnectionModeIndex (globals s') = 0 /\
  requested_modes (drop (length (w_trace (world example_standard))) (w_trace (world s'))) =
    [200; 100].
Proof.
  destruct (switchZviewMode_goes_round
              (env_supportedModes env_standard_active 11)
              [env_standard_active; env_standard_active] example_standard)
    as (_ & Hmodes & Hround).
  - vm_compute. discriminate.
  - vm_compute. repeat constructor.
  - assert (Hready : switch_ready env_standard_active example_standard).
    { vm_compute. repeat split; try discriminate; auto. }
    repeat (apply list.Forall_cons; split; [split; [exact Hready|reflexivity]|]).
    apply Forall_nil_2.
  - vm_compute. split; [discriminate|reflexivity].
  - split; [exact (Hround eq_refl)|exact Hmodes].
Defined.

(** ** What a window message leaves alone *)

#[global] Instance keeps_engine_preorder : PreOrder keeps_engine.
Proof.
  split.
  - intros s. split; reflexivity.
  - intros s1 s2 s3 [] []. split; etrans; eauto.
Qed.

Ltac engine_leaf :=
  first
    [ apply preserves_and; [emits_leaf | keeps_leaf]
    | apply preserves_and;
        [apply emits_emit; exact I | apply keeps_emit]
    | solve [eauto with engine] ].

Create HintDb engine.

Lemma incrementZviewSettingClampedF32_engine env c k inc min max :
  preserves keeps_engine (incrementZviewSettingClampedF32 env c k inc min max).
Proof. unfold incrementZviewSettingClampedF32. preserves_go engine_leaf. Qed.

#[global] Hint Resolve incrementZviewSettingClampedF32_engine : engine.

Lemma processZviewAugmentedRealityModeOverlayControlKeyPress_engine env key :
  preserves keeps_engine (processZviewAugmentedRealityModeOverlayControlKeyPress env key).
Proof.
  unfold processZviewAugmentedRealityModeOverlayControlKeyPress. preserves_go engine_leaf.
Qed.

Lemma switchZviewMode_loop_engine env active n todo : forall tried,
  preserves keeps_engine (switchZviewMode_loop env active n tried todo).
Proof.
  induction todo as [|todo IH]; intros tried; cbn [switchZviewMode_loop];
    preserves_go engine_leaf.
Qed.

#[global] Hint Resolve switchZviewMode_loop_engine : engine.

Lemma switchZviewMode_engine env : preserves keeps_engine (switchZviewMode env).
Proof. unfold switchZviewMode. preserves_go engine_leaf. Qed.

Lemma closeZviewConnectionAndExitViewer_engine env :
  preserves keeps_engine (closeZviewConnectionAndExitViewer env).
Proof. unfold closeZviewConnectionAndExitViewer. preserves_go engine_leaf. Qed.

#[global] Hint Resolve processZviewAugmentedRealityModeOverlayControlKeyPress_engine
  switchZviewMode_engine closeZviewConnectionAndExitViewer_engine : engine.

Lemma switchZviewVideoRecordingQuality_engine env :
  wnd_preserves (on_session keeps_engine) (switchZviewVideoRecordingQuality env).
Proof. unfold switchZviewVideoRecordingQuality. wnd_preserves_go engine_leaf. Qed.

#[global] Hint Resolve switchZviewVideoRecordingQuality_engine : engine.

Lemma pauseResumeZviewMode_engine env :
  wnd_preserves (on_session keeps_engine) (pauseResumeZviewMode env).
Proof. unfold pauseResumeZviewMode. wnd_preserves_go engine_leaf. Qed.

Lemma processZviewVideoRecordingKeyPress_engine env key :
  wnd_preserves (on_session keeps_engine) (processZviewVideoRecordingKeyPress env key).
Proof. unfold processZviewVideoRecordingKeyPress. wnd_preserves_go engine_leaf. Qed.

#[global] Hint Resolve pauseResumeZviewMode_engine
  processZviewVideoRecordingKeyPress_engine : engine.

Lemma windowProc_engine env message :
  wnd_preserves (on_session keeps_engine) (windowProc env message).
Proof.
  unfold windowProc, keyDown, getClientRect.
  wnd_preserves_go ltac:(first
    [engine_leaf | by apply wnd_preserves_session; [typeclasses eauto|]]).
Qed.

(** X15. A window message changes none of the variables of the session
    engine (context, active connection, mode handles, latest mode, latest
    video-recording state, resources of the modes), and all it makes the
    engine say to the libraries are state queries, settings, a request for
    another mode and the request to close the connection and exit the
    viewer. *)
Theorem windowProc_leaves_session_alone env message w :
  let w' := wnd_exec (windowProc env message) w in
  engine_globals (globals (session w')) = engine_globals (globals (session w)) /\
  exists evs, w_trace (world (session w')) = w_trace (world (session w)) ++ evs /\
    Forall message_event evs.
Proof.
  cbv zeta.
  destruct (wnd_preserves_exec _ _ w (windowProc_engine env message)) as [Hemits Hkeeps].
  split; [exact Hkeeps|exact Hemits].
Qed.

(** ** What the keys ask of the runtime *)

Lemma switchZviewVideoRecordingQuality_issues env :
  wnd_preserves (issues is_log) (switchZviewVideoRecordingQuality env).
Proof.
  unfold switchZviewVideoRecordingQuality. wnd_preserves_go ltac:(exact I).
Qed.

Ltac issued_call lem :=
  idtac; lazymatch goal with
  | |- context [wnd_run ?f ?w] =>
      let H := fresh "Hissues" in
      pose proof (wnd_preserves_run _ f w lem) as H;
      destruct (wnd_run f w) as [? ?]; cbn [fst snd] in *
  end.

Lemma justified_log env w key cmds :
  Forall is_log cmds -> Forall (justified env w key) cmds.
Proof. intros H. eapply list.Forall_impl; [exact H|]. by intros []. Qed.

Lemma runtime_commands_app cmds1 cmds2 :
  runtime_commands (cmds1 ++ cmds2) = runtime_commands cmds1 ++ runtime_commands cmds2.
Proof. apply List.filter_app. Qed.

Lemma runtime_commands_log cmds : Forall is_log cmds -> runtime_commands cmds = [].
Proof.
  induction 1 as [|cmd cmds Hcmd _ IH]; [done|].
  unfold runtime_commands in *. by destruct cmd; simpl.
Qed.

Ltac commands_tac :=
  repeat match goal with
  | H : issues _ _ _ |- _ =>
      let Hf := fresh "Hlog" in
      destruct H as (? & H & Hf); cbn [commands] in H; rewrite H; clear H
  | H : ¬ (_ ≠ _) |- _ => apply dec_stable in H; simpl in H
  end;
  rewrite <-?app_assoc; eexists;
  (split; [first [reflexivity | symmetry; apply app_nil_r]|]);
  (split;
   [ repeat first
       [ apply Forall_app; split
       | apply list.Forall_cons; split
       | apply Forall_nil
       | by apply justified_log
       | by (unfold justified; cbn; eauto 12) ]
   | rewrite ?runtime_commands_app, ?length_app;
     repeat match goal with
     | H : Forall is_log ?x |- _ => rewrite (runtime_commands_log x H); clear H
     end;
     cbn; lia ]).

Lemma processZviewVideoRecordingKeyPress_commands env key w :
  wnd_wp (processZviewVideoRecordingKeyPress env key) w (fun _ _ => False) (fun _ w' =>
    exists cmds, commands w' = commands w ++ cmds /\
      Forall (justified env w key) cmds /\
      (length (runtime_commands cmds) <= 1)%nat).
Proof.
  unfold processZviewVideoRecordingKeyPress.
  wnd_exec ltac:(issued_call (switchZviewVideoRecordingQuality_issues env)).
  all: commands_tac.
Qed.

Lemma pauseResumeZviewMode_commands env key w :
  key = VK "P" -> env_isShiftKeyPressed env = false ->
  wnd_wp (pauseResumeZviewMode env) w (fun _ _ => False) (fun _ w' =>
    exists cmds, commands w' = commands w ++ cmds /\
      Forall (justified env w key) cmds /\
      (length (runtime_commands cmds) <= 1)%nat).
Proof.
  intros Hkey Hshift. unfold pauseResumeZviewMode. wnd_exec idtac.
  all: commands_tac.
Qed.

Ltac wnd_call_spec lem :=
  idtac; lazymatch goal with
  | |- context [wnd_run ?f ?w] =>
      let H := fresh "Hspec" in
      eassert (H : wnd_wp f w (fun _ _ => False) _) by (apply lem; eauto);
      apply wnd_wp_run in H; cbv beta in H;
      destruct (wnd_run f w) as [? ?]; cbn [fst snd] in *
  end.

Lemma keyDown_commands env key w :
  wnd_wp (keyDown env key) w
    (fun _ w' =>
       exists cmds, commands w' = commands w ++ cmds /\
         Forall (justified env w key) cmds /\
         (length (runtime_commands cmds) <= 1)%nat)
    (fun _ _ => False).
Proof.
  unfold keyDown.
  wnd_exec ltac:(first
    [ wnd_call_spec processZviewVideoRecordingKeyPress_commands
    | wnd_call_spec pauseResumeZviewMode_commands
    | forget_call ]).
  all: try exact Hspec.
  all: try (unfold wnd_wp, toggle_isCameraOrbitEnabled,
              toggle_zViewAugmentedRealityModeShouldDrawBackground,
              toggle_zViewAugmentedRealityModeShouldDrawMask; cbn [commands]).
  all: commands_tac.
Qed.

(** X16. Every command [windowProc] gives comes from a key press, under
    the condition the source puts on it (the key, the shift key, the state
    of the active connection or of its video recording, the name of the
    file to save to); one message gives at most one command to the
    runtime. *)
Theorem windowProc_commands_justified env message w :
  let cmds := commands_of (windowProc env message) w in
  (forall cmd, cmd ∈ cmds ->
     exists key, message = WM_KEYDOWN key /\ justified env w key cmd) /\
  (length (runtime_commands cmds) <= 1)%nat.
Proof.
  cbv zeta. unfold commands_of.
  apply (wnd_wp_exec (windowProc env message) w (fun w' =>
    (forall cmd, cmd ∈ drop (length (commands w)) (commands w') ->
       exists key, message = WM_KEYDOWN key /\ justified env w key cmd) /\
    (length (runtime_commands (drop (length (commands w)) (commands w'))) <= 1)%nat)).
  destruct message as [|x y|key]; cbn [windowProc].
  - unfold getClientRect. wnd_exec idtac.
    all: rewrite (drop_all (commands w)); split; [|simpl; lia].
    all: by intros cmd Hin%elem_of_nil.
  - unfold getClientRect. wnd_exec idtac.
    all: rewrite (drop_all (commands w)); split; [|simpl; lia].
    all: by intros cmd Hin%elem_of_nil.
  - eapply wnd_wp_mono; [apply keyDown_commands| |done].
    intros _ w' (cmds & -> & Hjust & Hlen). rewrite drop_app_length. split; [|done].
    intros cmd Hin. exists key. split; [done|].
    rewrite list.Forall_forall in Hjust. by apply Hjust.
Qed.

(** ** The video-recording quality goes round *)

Lemma switchZviewVideoRecordingQuality_next env w q :
  quality_ready env w ->
  let active := g_zViewActiveConnection (globals (session w)) in
  let code := env_videoRecordingQuality env in
  setting (session w) active ZV_SETTING_KEY_VIDEO_RECORDING_QUALITY =
    Some (SettingU32 (code q)) ->
  let w' := switchZviewVideoRecordingQuality_press env w in
  (wnd_run (switchZviewVideoRecordingQuality env) w).1 = true /\
  globals (session w') = globals (session w) /\
  setting (session w') active ZV_SETTING_KEY_VIDEO_RECORDING_QUALITY =
    Some (SettingU32 (code (next_quality q))).
Proof.
  intros (Hactive & Hok & Hsupported & Hinj) active code Hq. cbv zeta.
  unfold switchZviewVideoRecordingQuality_press.
  apply (wnd_wp_run (switchZviewVideoRecordingQuality env) w (fun b w' =>
    b = true /\ globals (session w') = globals (session w) /\
    setting (session w') active ZV_SETTING_KEY_VIDEO_RECORDING_QUALITY =
      Some (SettingU32 (code (next_quality q))))).
  unfold setting in Hq. unfold switchZviewVideoRecordingQuality.
  wnd_exec idtac.
  all: subst active code.
  all: try discriminate.
  all: try match goal with
    | H : _ !! _ = _ |- _ =>
        progress rewrite Hq in H; first [discriminate H | injection H as <-]
    end.
  all: try match goal with H : SettingU32 _ = _ |- _ => discriminate H end.
  all: repeat match goal with
    | H : env_videoRecordingQuality _ _ = env_videoRecordingQuality _ _ |- _ =>
        apply Hinj in H; subst
    end.
  all: try (by destruct q).
  all: unfold setting; cbn [globals world w_settings st_values next_quality].
  all: rewrite lookup_total_insert_eq; cbn [st_values]; by rewrite lookup_insert_eq.
Qed.

Lemma quality_is_press env w q :
  quality_is env w q ->
  quality_is env (switchZviewVideoRecordingQuality_press env w) (next_quality q) /\
  g_zViewActiveConnection (globals (session (switchZviewVideoRecordingQuality_press env w))) =
    g_zViewActiveConnection (globals (session w)).
Proof.
  intros [Hready Hq].
  destruct (switchZviewVideoRecordingQuality_next env w q Hready Hq) as (_ & Hg & Hq').
  unfold quality_is, quality_ready. rewrite Hg. split; [|done].
  split; [exact Hready|exact Hq'].
Qed.

(** X17. Each press of the quality key moves the stored video-recording
    quality one step along 480p, 720p, 1080p, and three presses bring it
    back to where it was. *)
Theorem switchZviewVideoRecordingQuality_goes_round env w q :
  quality_ready env w ->
  let active := g_zViewActiveConnection (globals (session w)) in
  let code := env_videoRecordingQuality env in
  let press := switchZviewVideoRecordingQuality_press env in
  setting (session w) active ZV_SETTING_KEY_VIDEO_RECORDING_QUALITY =
    Some (SettingU32 (code q)) ->
  setting (session (press w)) active ZV_SETTING_KEY_VIDEO_RECORDING_QUALITY =
    Some (SettingU32 (code (next_quality q))) /\
  setting (session (press (press (press w)))) active
    ZV_SETTING_KEY_VIDEO_RECORDING_QUALITY = Some (SettingU32 (code q)).
Proof.
  intros Hready active code press Hq.
  destruct (quality_is_press env w q (conj Hready Hq)) as [H1 Ha1].
  destruct (quality_is_press env _ _ H1) as [H2 Ha2].
  destruct (quality_is_press env _ _ H2) as [H3 Ha3].
  fold press in H1, H2, H3, Ha1, Ha2, Ha3.
  destruct H1 as [_ H1], H3 as [_ H3].
  rewrite Ha1 in H1. rewrite Ha3, Ha2, Ha1 in H3.
  split; [exact H1|]. subst press active code. etrans; [exact H3|]. by destruct q.
Qed.

Lemma switchZviewVideoRecordingQuality_goes_round_witness :
  let env := example_wnd_env env_standard_active false in
  let w := example_window (remote_setting 11 ZV_SETTING_KEY_VIDEO_RECORDING_QUALITY
                             (SettingU32 1) example_standard) in
  let press := switchZviewVideoRecordingQuality_press env in
  setting (session (press w)) 11 ZV_SETTING_KEY_VIDEO_RECORDING_QUALITY =
    Some (SettingU32 2) /\
  setting (session (press (press (press w)))) 11 ZV_SETTING_KEY_VIDEO_RECORDING_QUALITY =
    Some (SettingU32 1).
Proof.
  intros env w press.
  apply (switchZviewVideoRecordingQuality_goes_round env w ZV_VIDEO_RECORDING_QUALITY_720P).
  - split; [vm_compute; discriminate|]. split; [done|]. split; [done|].
    intros [] []; simpl; congruence.
  - vm_compute. reflexivity.
Defined.

(** X18. A stored quality that is none of the three known values is left
    as it is: the key press writes nothing, reports success and only
    prints a message. *)
Theorem switchZviewVideoRecordingQuality_unknown_unchanged env w v :
  let active := g_zViewActiveConnection (globals (session w)) in
  setting (session w) active ZV_SETTING_KEY_VIDEO_RECORDING_QUALITY =
    Some (SettingU32 v) ->
  (forall q, v <> env_videoRecordingQuality env q) ->
  (forall call, wnd_zv_error env call = ZV_ERROR_OK) ->
  let '(result, w') := wnd_run (switchZviewVideoRecordingQuality env) w in
  result = true /\ session w' = session w /\
  Forall is_log (drop (length (commands w)) (commands w')).
Proof.
  intros active Hv Hunknown Hok.
  destruct (wnd_run (switchZviewVideoRecordingQuality env) w) as [result w'] eqn:Hrun.
  change (result = true) with ((result, w').1 = true).
  change (session w') with (session (result, w').2).
  change (commands w') with (commands (result, w').2).
  rewrite <-Hrun.
  apply (wnd_wp_run (switchZviewVideoRecordingQuality env) w (fun b w' =>
    b = true /\ session w' = session w /\
    Forall is_log (drop (length (commands w)) (commands w')))).
  unfold setting in Hv. unfold switchZviewVideoRecordingQuality.
  wnd_exec idtac.
  all: subst active.
  all: try discriminate.
  all: try match goal with
    | H : _ !! _ = _ |- _ =>
        progress rewrite Hv in H; first [discriminate H | injection H as <-]
    end.
  all: try match goal with H : SettingU32 _ = _ |- _ => first [discriminate H | injection H as <-] end.
  all: try match goal with
    | H : _ = env_videoRecordingQuality _ _ |- _ => by apply Hunknown in H
    end.
  all: split; [done|split; [done|]].
  all: rewrite ?drop_all, ?drop_app_length; by repeat constructor.
Qed.

Lemma switchZviewVideoRecordingQuality_unknown_unchanged_witness :
  let env := example_wnd_env env_standard_active false in
  let w := example_window (remote_setting 11 ZV_SETTING_KEY_VIDEO_RECORDING_QUALITY
                             (SettingU32 7) example_standard) in
  (wnd_run (switchZviewVideoRecordingQuality env) w).1 = true /\
  session (wnd_run (switchZviewVideoRecordingQuality env) w).2 = session w.
Proof.
  intros env w.
  pose proof (switchZviewVideoRecordingQuality_unknown_unchanged env w 7) as H.
  cbv zeta in H.
  destruct (wnd_run (switchZviewVideoRecordingQuality env) w) as [result w'].
  destruct H as (Hresult & Hsession & _).
  - vm_compute. reflexivity.
  - intros []; discriminate.
  - done.
  - split; [exact Hresult|exact Hsession].
Defined.
